(** * Document verification system: the integrity pipeline

    A shallow embedding of the verification routes (routes/verification.js),
    the issuance and viewing routes of routes/documents.js, the ledger
    gateway (services/BlockchainService.js), the canonical content
    encoders (services/PDFService.js, TemplateService) and the login
    throttle (routes/auth.js), with the properties the specification
    states about them and further properties read off the code.

    Conventions.
    - An [async] function that can reject is a function into [res]; a
      [try { .. } catch { .. }] block is [try_catch].
    - The file store is a finite map from paths to byte buffers; the
      [documents] table is the list of its rows in storage order.
    - Libraries the routes call ([ethers.keccak256], pdf-lib's parser and
      serialiser, Node's [path], PostgreSQL's [LIKE]) are parameters of the
      development. *)

From Stdlib Require Import ZArith QArith String Ascii Strings.Byte Bool List Lia DecimalString.
From stdpp Require Import base option list strings gmap.

Local Open Scope string_scope.
Local Open Scope Z_scope.

(** ** JavaScript values used by the routes *)

Module JS.

(** Promise results: a value, or the message of the thrown error. *)
Inductive res (A : Type) : Type :=
| Ok (a : A)
| Throw (e : string).
Arguments Ok {A} a.
Arguments Throw {A} e.

Definition bind {A B} (m : res A) (k : A -> res B) : res B :=
  match m with
  | Ok a => k a
  | Throw e => Throw e
  end.

Definition try_catch {A} (body : res A) (handler : string -> res A) : res A :=
  match body with
  | Ok a => Ok a
  | Throw e => handler e
  end.

(** Truthiness of a string and of a nullable string. *)
Definition truthy_str (s : string) : bool :=
  match s with
  | EmptyString => false
  | String _ _ => true
  end.

Definition truthy (o : option string) : bool :=
  match o with
  | Some s => truthy_str s
  | None => false
  end.

(** [s.startsWith(p)] *)
Definition startsWith (p s : string) : bool := String.prefix p s.

(** Leftmost position of [s] at which [at_pos] succeeds. *)
Fixpoint search {A} (at_pos : string -> option A) (s : string) : option A :=
  match at_pos s with
  | Some r => Some r
  | None =>
      match s with
      | EmptyString => None
      | String _ s' => search at_pos s'
      end
  end.

(** [s.includes(needle)] *)
Definition includes (needle s : string) : bool :=
  match search (fun t => if String.prefix needle t then Some tt else None) s with
  | Some _ => true
  | None => false
  end.

(** The character class [[a-fA-F0-9]]. *)
Definition is_hex (c : ascii) : bool :=
  let n := nat_of_ascii c in
  ((48 <=? n) && (n <=? 57) || (97 <=? n) && (n <=? 102)
   || (65 <=? n) && (n <=? 70))%nat.

(** [[a-fA-F0-9]{n}] anchored at the start of [s]: the [n] digits. *)
Fixpoint take_hex (n : nat) (s : string) : option string :=
  match n with
  | O => Some EmptyString
  | S n' =>
      match s with
      | String c s' =>
          if is_hex c
          then match take_hex n' s' with
               | Some d => Some (String c d)
               | None => None
               end
          else None
      | EmptyString => None
      end
  end.

(** [0x[a-fA-F0-9]{64}] anchored at the start of [s]. *)
Definition hash64_at (s : string) : option string :=
  match s with
  | String "0" (String "x" r) =>
      match take_hex 64 r with
      | Some d => Some (String "0" (String "x" d))
      | None => None
      end
  | _ => None
  end.

(** [s.match(/(0x[a-fA-F0-9]{64})/)], group 1. *)
Definition match_hash64 (s : string) : option string := search hash64_at s.

(** [p] removed from the front of [s], when [s] starts with it. *)
Fixpoint strip_prefix (p s : string) : option string :=
  match p with
  | EmptyString => Some s
  | String a p' =>
      match s with
      | String b s' => if Ascii.eqb a b then strip_prefix p' s' else None
      | EmptyString => None
      end
  end.

(** [s.match(/verification_hash:(0x[a-fA-F0-9]{64})/)], group 1. *)
Definition match_verification_hash (s : string) : option string :=
  search (fun t => match strip_prefix "verification_hash:" t with
                   | Some r => hash64_at r
                   | None => None
                   end) s.

(** The boundary format of a digest, [^0x[0-9a-fA-F]{64}$]. *)
Fixpoint all_hex (s : string) : bool :=
  match s with
  | EmptyString => true
  | String c s' => is_hex c && all_hex s'
  end.

Definition is_hash (h : string) : bool :=
  match h with
  | String "0" (String "x" d) => Nat.eqb (String.length d) 64 && all_hex d
  | _ => false
  end.

(** Characters of a digest: hex digits and the [x] of the prefix. *)
Definition hexish (c : ascii) : bool := is_hex c || Ascii.eqb c "x".

Fixpoint all_hexish (s : string) : bool :=
  match s with
  | EmptyString => true
  | String c s' => hexish c && all_hexish s'
  end.

(** [`${z}`] for an integer. *)
Definition Z_to_string (z : Z) : string :=
  DecimalString.NilZero.string_of_int (Z.to_int z).

(** [`${v}`] for a possibly undefined integer. *)
Definition show_num (o : option Z) : string :=
  match o with
  | Some z => Z_to_string z
  | None => "undefined"
  end.

(** The longest run of [[a-fA-F0-9]] removed from the front of [s]. *)
Fixpoint drop_hex (s : string) : string :=
  match s with
  | String c s' => if is_hex c then drop_hex s' else s
  | EmptyString => EmptyString
  end.

(** [0x[a-fA-F0-9]+] anchored at the start of [s]: what follows the match. *)
Definition hex_fragment_at (s : string) : option string :=
  match s with
  | String "0" (String "x" (String c r)) =>
      if is_hex c then Some (drop_hex r) else None
  | _ => None
  end.

(** [[_-]?0x[a-fA-F0-9]+] anchored at the start of [s]: what follows. *)
Definition address_fragment_at (s : string) : option string :=
  match s with
  | String c r =>
      if Ascii.eqb c "_" || Ascii.eqb c "-" then hex_fragment_at r
      else hex_fragment_at s
  | EmptyString => None
  end.

(** [s.replace(/[_-]?0x[a-fA-F0-9]+/, '')]: the leftmost match removed. *)
Fixpoint remove_address_fragment (s : string) : string :=
  match address_fragment_at s with
  | Some rest => rest
  | None =>
      match s with
      | String c s' => String c (remove_address_fragment s')
      | EmptyString => EmptyString
      end
  end.

(** [s.replace(/^Verified_/, '')] *)
Definition remove_verified_prefix (s : string) : string :=
  match strip_prefix "Verified_" s with
  | Some rest => rest
  | None => s
  end.

(** [s.toLowerCase()] on the ASCII letters. *)
Definition lower_ascii (c : ascii) : ascii :=
  let n := nat_of_ascii c in
  if ((65 <=? n) && (n <=? 90))%nat then ascii_of_nat (n + 32) else c.

Fixpoint toLowerCase (s : string) : string :=
  match s with
  | EmptyString => EmptyString
  | String c s' => String (lower_ascii c) (toLowerCase s')
  end.

(** A digest as [keccak256] prints it: well-formed and in lowercase. *)
Definition is_digest (h : string) : bool :=
  is_hash h && String.eqb (toLowerCase h) h.

(** The line feed the encoder ends every line with. *)
Definition LF : string := String (ascii_of_nat 10) EmptyString.

(** [parts.join(sep)] *)
Fixpoint join (sep : string) (parts : list string) : string :=
  match parts with
  | [] => EmptyString
  | [p] => p
  | p :: rest => p +:+ sep +:+ join sep rest
  end.

End JS.

Import JS.

(** ** Libraries and stores the routes run against *)

(** What pdf-lib exposes of a loaded document: the Info dictionary
    entries the routes read and write, and per page the overlays drawn on
    it (the geometry of the stamp is not modelled). *)
Inductive draw_op : Type :=
| DrawCircle
| DrawLine
| DrawRectangle
| DrawImage
| DrawText (text : string).

Record pdfdoc : Type := {
  Subject : option string;
  Keywords : option string;
  Producer : option string;
  Title : option string;
  pages : list (list draw_op)
}.

(** The external functions, as the routes see them. [keccak256] is
    [ethers.keccak256] on a buffer; [PDFDocument_load] is [None] when
    pdf-lib throws; [embedPng] tells whether pdf-lib accepts a buffer as a
    PNG image; [path_extname] and [path_basename] are Node's;
    [sql_like pat s] is PostgreSQL's [s LIKE pat]; [sharp_composite] is
    the image overlay of [addWatermarkToImage], [None] when sharp throws. *)
Class Libs : Type := {
  keccak256 : list byte -> string;
  PDFDocument_load : list byte -> option pdfdoc;
  PDFDocument_save : pdfdoc -> list byte;
  embedPng : list byte -> bool;
  path_extname : string -> string;
  path_basename : string -> string -> string;
  sql_like : string -> string -> bool;
  sharp_composite : list byte -> option (list byte)
}.

(** What the routes rely on from pdf-lib: a saved document loads again,
    with the subject and keywords it was saved with. *)
Definition metadata_survives `{Libs} : Prop :=
  forall d, exists d',
    PDFDocument_load (PDFDocument_save d) = Some d'
    /\ Subject d' = Subject d /\ Keywords d' = Keywords d.

(** [ethers.toUtf8Bytes]: strings are kept as their UTF-8 bytes. *)
Definition toUtf8Bytes (s : string) : list byte :=
  map byte_of_ascii (list_ascii_of_string s).

(** The file store: path to contents. *)
Abbreviation filesystem := (gmap string (list byte)).

Definition readFile (fs : filesystem) (p : string) : res (list byte) :=
  match fs !! p with
  | Some b => Ok b
  | None => Throw "ENOENT"
  end.

Definition load_pdf `{Libs} (b : list byte) : res pdfdoc :=
  match PDFDocument_load b with
  | Some d => Ok d
  | None => Throw "Failed to parse PDF document"
  end.

#[global] Instance res_bind : MBind res := fun A B k m => bind m k.
#[global] Instance res_ret : MRet res := fun A a => Ok a.

(** ** The document store

    One row of the [documents] table (DatabaseService schema). [verified]
    is [BOOLEAN DEFAULT false]; a NULL there is falsy for every reader and
    is kept as [false]. *)
Record row : Type := {
  id : Z;
  document_hash : string;
  student_name : string;
  student_id : string;
  program : string;
  document_type : string;
  date_issued : string;
  original_file_name : string;
  processed_file_path : string;
  watermarked_file_path : option string;
  original_file_path : option string;
  created_at : Z;
  blockchain_tx_hash : option string;
  block_number : option Z;
  verified : bool;
  registrar_id : option Z;
  content_hash : option string;
  processed_content_hash : option string;
  watermarked_content_hash : option string
}.

(** The three lazily filled columns. *)
Inductive hash_column : Type :=
| col_processed_content_hash
| col_content_hash
| col_watermarked_content_hash.

#[global] Instance hash_column_eq_dec : EqDecision hash_column.
Proof. solve_decision. Defined.

Definition get_column (c : hash_column) (d : row) : option string :=
  match c with
  | col_processed_content_hash => processed_content_hash d
  | col_content_hash => content_hash d
  | col_watermarked_content_hash => watermarked_content_hash d
  end.

(** [document.<column> = v], also the effect of [SET <column> = v] on a row. *)
Definition set_column (c : hash_column) (v : string) (d : row)
  : row :=
  {| id := id d; document_hash := document_hash d;
     student_name := student_name d; student_id := student_id d;
     program := program d; document_type := document_type d;
     date_issued := date_issued d;
     original_file_name := original_file_name d;
     processed_file_path := processed_file_path d;
     watermarked_file_path := watermarked_file_path d;
     original_file_path := original_file_path d;
     created_at := created_at d;
     blockchain_tx_hash := blockchain_tx_hash d;
     block_number := block_number d;
     verified := verified d;
     registrar_id := registrar_id d;
     content_hash :=
       match c with col_content_hash => Some v | _ => content_hash d end;
     processed_content_hash :=
       match c with
       | col_processed_content_hash => Some v
       | _ => processed_content_hash d
       end;
     watermarked_content_hash :=
       match c with
       | col_watermarked_content_hash => Some v
       | _ => watermarked_content_hash d
       end |}.

Definition apply_updates (updates : list (hash_column * string))
    (d : row) : row :=
  fold_left (fun d u => set_column (fst u) (snd u) d) updates d.

(** SQL [col = $n] on a nullable column: NULL never compares equal. *)
Definition sql_eq (col : option string) (v : string) : bool :=
  match col with
  | Some s => String.eqb s v
  | None => false
  end.

(** SQL [col LIKE $n] on a nullable column. *)
Definition sql_like_opt `{Libs} (col : option string) (pat : string) : bool :=
  match col with
  | Some s => sql_like pat s
  | None => false
  end.

(** [SELECT * FROM documents WHERE document_hash = $1] *)
Definition select_by_document_hash (db : list row) (h : string)
  : list row :=
  List.filter (fun r => String.eqb (document_hash r) h) db.

(** [SELECT * FROM documents WHERE content_hash = $1
     OR processed_content_hash = $2 OR watermarked_content_hash = $3] *)
Definition select_by_content_hash (db : list row) (h1 h2 h3 : string)
  : list row :=
  List.filter (fun r => sql_eq (content_hash r) h1
                        || sql_eq (processed_content_hash r) h2
                        || sql_eq (watermarked_content_hash r) h3) db.

(** The row [ORDER BY created_at DESC LIMIT 1] keeps: a most recent one
    (the first such in storage order). *)
Definition most_recent (rows : list row) : list row :=
  match fold_left (fun best r =>
                     match best with
                     | None => Some r
                     | Some b => if created_at b <? created_at r then Some r
                                 else Some b
                     end) rows None with
  | Some r => [r]
  | None => []
  end.

(** [SELECT * FROM documents WHERE original_file_name LIKE $1
     OR processed_file_path LIKE $2 OR watermarked_file_path LIKE $3
     ORDER BY created_at DESC LIMIT 1] *)
Definition select_by_filename `{Libs} (db : list row) (p1 p2 p3 : string)
  : list row :=
  most_recent
    (List.filter (fun r => sql_like p1 (original_file_name r)
                           || sql_like p2 (processed_file_path r)
                           || sql_like_opt (watermarked_file_path r) p3) db).

(** [UPDATE documents SET <updates> WHERE document_hash = $n] *)
Definition update_hashes (db : list row)
    (updates : list (hash_column * string)) (h : string) : list row :=
  map (fun r => if String.eqb (document_hash r) h then apply_updates updates r
                else r) db.

(** ** services/BlockchainService.js: the ledger gateway *)

Module Blockchain.

(** Modelled from the spec: the ledger contract (deployed Solidity code,
    not among the sources) as the registry of section 4.5, one record per
    registered hash with the timestamp of its block; [verifyDocument]
    answers [(exists, timestamp)]. *)
Definition ledger : Type := list (string * Z).

(** The 32-byte value a hex string denotes, written in lowercase: two
    strings that differ in the case of their digits are the same key. *)
Definition bytes32 (h : string) : string := toLowerCase h.

Definition contract_verifyDocument (l : ledger) (h : string) : option Z :=
  match List.find (fun e => String.eqb (fst e) (bytes32 h)) l with
  | Some e => Some (snd e)
  | None => None
  end.

(** The service object: [initialized], whether a signer is attached, and
    the contract it is connected to. *)
Record service : Type := {
  initialized : bool;
  signer : bool;
  contract : ledger
}.

(** What the chain answers to a submitted transaction once mined. *)
Record receipt : Type := {
  tx_hash : string;
  blockNumber : Z;
  block_timestamp : Z
}.

Inductive register_result : Type :=
| Registered (transactionHash : string) (blockNumber : Z)
    (documentHash : string)
| RegisterFailed (error : string).

Inductive verify_result : Type :=
| OnChain (timestamp : Z)
| NotOnChain
| VerifyFailed (error : string).

(** The [verified] property of a result object, as a condition. *)
Definition result_verified (r : verify_result) : bool :=
  match r with
  | OnChain _ => true
  | _ => false
  end.

Definition generateDocumentHash `{Libs} (content : string) : string :=
  keccak256 (toUtf8Bytes content).

(** [registerDocument(documentData)], of [documentData] the two fields it
    reads. [mined] is the chain's answer to the transaction: [None] when it
    reverts or the node cannot be reached. ethers refuses an argument
    that is not a 32-byte hex string before anything is sent. *)
Definition registerDocument `{Libs} (svc : service)
    (documentContent documentHash : option string) (mined : option receipt)
  : res (service * register_result) :=
  if negb (initialized svc && signer svc)
  then Throw "Service not initialized or no signer available"
  else
    try_catch
      (h ← (if truthy documentContent
            then let c := default "" documentContent in
                 Ok (if startsWith "0x" c then c else generateDocumentHash c)
            else if truthy documentHash then Ok (default "" documentHash)
            else Throw "Either documentContent or documentHash must be provided");
       if negb (is_hash h) then Throw "invalid BytesLike value"
       else
         match mined with
         | None => Throw "transaction failed"
         | Some r =>
             Ok ({| initialized := initialized svc; signer := signer svc;
                    contract :=
                      (contract svc ++ [(bytes32 h, block_timestamp r)])%list |},
                 Registered (tx_hash r) (blockNumber r) h)
         end)
      (fun e => Ok (svc, RegisterFailed e)).

(** [verifyDocument(documentHash)] *)
Definition verifyDocument (svc : service) (documentHash : string)
  : res verify_result :=
  if negb (initialized svc) then Throw "Service not initialized"
  else
    try_catch
      (if negb (is_hash documentHash) then Throw "invalid BytesLike value"
       else
         match contract_verifyDocument (contract svc) documentHash with
         | Some t => Ok (OnChain t)
         | None => Ok NotOnChain
         end)
      (fun e => Ok (VerifyFailed e)).

(** [verifyDocumentFromContent(pdfContent)] *)
Definition verifyDocumentFromContent `{Libs} (svc : service)
    (pdfContent : string) : res verify_result :=
  let documentHash := generateDocumentHash pdfContent in
  verifyDocument svc documentHash.

End Blockchain.

(** [req.app.locals]: the store and the gateway (absent when the server
    started without one). *)
Record locals : Type := {
  db : list row;
  blockchain : option Blockchain.service
}.

(** [req.app.locals.blockchain && req.app.locals.blockchain.initialized] *)
Definition blockchain_ready (b : option Blockchain.service) : bool :=
  match b with
  | Some svc => Blockchain.initialized svc
  | None => false
  end.

(** ** routes/documents.js: embedding and watermarking *)

Module Documents.

(** [pdfDoc.setKeywords(ks)] stores [ks.join(' ')]. *)
Definition setKeywords (ks : list string) (d : pdfdoc) : pdfdoc :=
  {| Subject := Subject d; Keywords := Some (join " " ks);
     Producer := Producer d; Title := Title d; pages := pages d |}.

Definition setSubject (s : string) (d : pdfdoc) : pdfdoc :=
  {| Subject := Some s; Keywords := Keywords d;
     Producer := Producer d; Title := Title d; pages := pages d |}.

Definition setProducer (s : string) (d : pdfdoc) : pdfdoc :=
  {| Subject := Subject d; Keywords := Keywords d;
     Producer := Some s; Title := Title d; pages := pages d |}.

Definition setTitle (s : string) (d : pdfdoc) : pdfdoc :=
  {| Subject := Subject d; Keywords := Keywords d;
     Producer := Producer d; Title := Some s; pages := pages d |}.

Definition setPages (ps : list (list draw_op)) (d : pdfdoc) : pdfdoc :=
  {| Subject := Subject d; Keywords := Keywords d;
     Producer := Producer d; Title := Title d; pages := ps |}.

(** [path.join('uploads', 'processed', `${document_hash}.pdf`)] *)
Definition processed_path (document_hash : string) : string :=
  "uploads/processed/" +:+ document_hash +:+ ".pdf".

(** What [embedQRInPDF] draws on the first page. *)
Definition qr_overlay (document_hash : string) : list draw_op :=
  [DrawRectangle; DrawImage; DrawText "Scan to Verify";
   DrawText ("Hash: " +:+ substring 0 20 document_hash +:+ "...")].

(** [embedQRInPDF(pdfPath, qrCodeBuffer, document_hash)]: the processed
    file is written under the hash-derived path, which is returned. *)
Definition embedQRInPDF `{Libs} (fs : filesystem) (pdfPath : string)
    (qrCodeBuffer : list byte) (document_hash : string)
  : res (filesystem * string) :=
  existingPdfBytes ← readFile fs pdfPath;
  pdfDoc ← load_pdf existingPdfBytes;
  let pdfDoc := setSubject document_hash pdfDoc in
  let pdfDoc := setKeywords ["verification_hash:" +:+ document_hash] pdfDoc in
  let pdfDoc := setProducer "Document Verification System" pdfDoc in
  if negb (embedPng qrCodeBuffer) then Throw "The input is not a PNG file!"
  else
    match pages pdfDoc with
    | [] => Throw "Cannot read properties of undefined (reading 'getSize')"
    | firstPage :: others =>
        let pdfDoc :=
          setPages ((firstPage ++ qr_overlay document_hash)%list :: others) pdfDoc in
        let modifiedPdfBytes := PDFDocument_save pdfDoc in
        let outputPath := processed_path document_hash in
        Ok (<[outputPath := modifiedPdfBytes]> fs, outputPath)
    end.

Record watermarkData : Type := {
  txHash : string;
  wm_block_number : option Z;
  timestamp : string
}.

(** The stamp [addWatermarkToPDF] draws on every page. *)
Definition stamp (w : watermarkData) : list draw_op :=
  [DrawCircle; DrawText "ORIGINAL"; DrawText "COPY"; DrawLine; DrawLine;
   DrawText "DO NOT MODIFY - BLOCKCHAIN VERIFIED -";
   DrawText (timestamp w); DrawRectangle;
   DrawText ("Transaction: " +:+ substring 0 16 (txHash w) +:+ "..."
             +:+ substring (String.length (txHash w) - 8) 8 (txHash w))].

(** [addWatermarkToPDF(inputPath, outputPath, watermarkData)] *)
Definition addWatermarkToPDF `{Libs} (fs : filesystem)
    (inputPath outputPath : string) (w : watermarkData)
  : res (filesystem * string) :=
  existingPdfBytes ← readFile fs inputPath;
  pdfDoc ← load_pdf existingPdfBytes;
  let pdfDoc := setPages (map (fun p => (p ++ stamp w)%list) (pages pdfDoc)) pdfDoc in
  let pdfDoc := setSubject ("Blockchain Verified: " +:+ txHash w) pdfDoc in
  let pdfDoc :=
    setKeywords ["verification_hash:" +:+ txHash w;
                 "block_number:" +:+ show_num (wm_block_number w);
                 "blockchain_verified:true";
                 "watermarked:true";
                 "original_copy:stamped"] pdfDoc in
  let pdfDoc :=
    setProducer "Document Verification System - Original Stamped Copy" pdfDoc in
  let pdfDoc := setTitle "ORIGINAL - Blockchain Verified" pdfDoc in
  let pdfBytes := PDFDocument_save pdfDoc in
  Ok (<[outputPath := pdfBytes]> fs, outputPath).

(** [addWatermarkToImage(inputPath, outputPath, watermarkData)] *)
Definition addWatermarkToImage `{Libs} (fs : filesystem)
    (inputPath outputPath : string) (w : watermarkData)
  : res (filesystem * string) :=
  image ← readFile fs inputPath;
  match sharp_composite image with
  | Some watermarkedImage => Ok (<[outputPath := watermarkedImage]> fs, outputPath)
  | None => Throw "Invalid image metadata"
  end.

(** [path.join('uploads', 'watermarked', `${document_hash}_verified${ext}`)] *)
Definition watermarked_path (document_hash ext : string) : string :=
  "uploads/watermarked/" +:+ document_hash +:+ "_verified" +:+ ext.

(** [createWatermarkedDocument(processed_file_path, document_hash,
    watermarkData)] *)
Definition createWatermarkedDocument `{Libs} (fs : filesystem)
    (processed_file_path document_hash : string) (w : watermarkData)
  : res (filesystem * string) :=
  _ ← readFile fs processed_file_path;
  let ext := toLowerCase (path_extname processed_file_path) in
  let watermarkedPath := watermarked_path document_hash ext in
  if String.eqb ext ".pdf"
  then addWatermarkToPDF fs processed_file_path watermarkedPath w
  else if String.eqb ext ".png" || String.eqb ext ".jpg"
          || String.eqb ext ".jpeg"
  then addWatermarkToImage fs processed_file_path watermarkedPath w
  else
    bytes ← readFile fs processed_file_path;
    Ok (<[watermarkedPath := bytes]> fs, watermarkedPath).

(** The row [POST /process] inserts: the listed columns, every other
    column at its default. *)
Definition insert_processed (db : list row) (new_id now : Z)
    (document_hash student_name student_id program document_type
       date_issued originalname processed_file_path originalStoragePath
     : string) : list row :=
  (db ++ [{| id := new_id; document_hash := document_hash;
             student_name := student_name; student_id := student_id;
             program := program; document_type := document_type;
             date_issued := date_issued;
             original_file_name := originalname;
             processed_file_path := processed_file_path;
             watermarked_file_path := None;
             original_file_path := Some originalStoragePath;
             created_at := now;
             blockchain_tx_hash := None; block_number := None;
             verified := false; registrar_id := None;
             content_hash := None; processed_content_hash := None;
             watermarked_content_hash := None |}])%list.

(** [UPDATE documents SET blockchain_tx_hash = $1, block_number = $2,
     verified = true [, watermarked_file_path = $3] WHERE document_hash = $n] *)
Definition mark_verified (tx : string) (blk : option Z)
    (wpath : option string) (d : row) : row :=
  {| id := id d; document_hash := document_hash d;
     student_name := student_name d; student_id := student_id d;
     program := program d; document_type := document_type d;
     date_issued := date_issued d;
     original_file_name := original_file_name d;
     processed_file_path := processed_file_path d;
     watermarked_file_path :=
       match wpath with
       | Some p => Some p
       | None => watermarked_file_path d
       end;
     original_file_path := original_file_path d;
     created_at := created_at d;
     blockchain_tx_hash := Some tx;
     block_number := blk;
     verified := true;
     registrar_id := registrar_id d;
     content_hash := content_hash d;
     processed_content_hash := processed_content_hash d;
     watermarked_content_hash := watermarked_content_hash d |}.

Definition update_verified (db : list row) (tx : string)
    (blk : option Z) (wpath : option string) (h : string) : list row :=
  map (fun r => if String.eqb (document_hash r) h
                then mark_verified tx blk wpath r else r) db.

Inductive finalize_response : Type :=
| Finalize400 (error : string)
| Finalize500 (error : string)
| Finalize200 (transactionHash : option string) (watermarkedFile : option string)
    (message : string).

Record finalize_state : Type := {
  fin_response : finalize_response;
  fin_locals : locals;
  fin_fs : filesystem
}.

(** What a run of [POST /finalize] draws from outside the request: the
    clock, the two random draws of the simulation branch, and the chain's
    answer to the registration. *)
Record finalize_env : Type := {
  now_iso : string;
  random_tx : string;
  random_block : Z;
  mined : option Blockchain.receipt
}.

(** The branch taken when no initialised gateway is attached.
    [simulatedResult] is declared with [const] inside the [try] block that
    creates the watermarked file, so the [UPDATE] after that block, whose
    parameter list reads [simulatedResult.transactionHash], raises a
    ReferenceError while its arguments are evaluated: the query is never
    sent and the route's outer [catch] answers 500. *)
Definition finalize_simulation `{Libs} (app : locals) (fs : filesystem)
    (env : finalize_env) (document_hash : string) : finalize_state :=
  match head (select_by_document_hash (db app) document_hash) with
  | None =>
      {| fin_response := Finalize500 "Failed to finalize document";
         fin_locals := app; fin_fs := fs |}
  | Some document =>
      let watermarkData :=
        {| txHash := random_tx env;
           wm_block_number := Some (random_block env);
           timestamp := now_iso env |} in
      match createWatermarkedDocument fs (processed_file_path document)
              document_hash watermarkData with
      | Throw _ =>
          {| fin_response := Finalize500 "Failed to create watermarked document";
             fin_locals := app; fin_fs := fs |}
      | Ok (fs', watermarked_file_path) =>
          {| fin_response := Finalize500 "Failed to finalize document";
             fin_locals := app; fin_fs := fs' |}
      end
  end.

(** The branch taken with an initialised gateway [svc]. The service
    answers [blockNumber]; the route reads [block_number] from that answer,
    which is undefined, so the stamp prints it as such and the column is
    set to NULL. *)
Definition finalize_ledger `{Libs} (app : locals) (svc : Blockchain.service)
    (fs : filesystem) (env : finalize_env) (document_hash : string)
  : finalize_state :=
  match head (select_by_document_hash (db app) document_hash) with
  | None =>
      {| fin_response := Finalize500 "Failed to finalize document";
         fin_locals := app; fin_fs := fs |}
  | Some document =>
      if verified document && truthy (blockchain_tx_hash document)
         && truthy (watermarked_file_path document)
         && bool_decide (is_Some (fs !! default "" (watermarked_file_path document)))
      then
        {| fin_response :=
             Finalize200 (blockchain_tx_hash document)
               (watermarked_file_path document)
               "Document already verified on blockchain";
           fin_locals := app; fin_fs := fs |}
      else
        match Blockchain.registerDocument svc (Some document_hash) None
                (mined env) with
        | Throw _ =>
            {| fin_response := Finalize500 "Failed to finalize document";
               fin_locals := app; fin_fs := fs |}
        | Ok (svc', Blockchain.RegisterFailed _) =>
            {| fin_response := Finalize500 "Blockchain registration failed";
               fin_locals := {| db := db app; blockchain := Some svc' |};
               fin_fs := fs |}
        | Ok (svc', Blockchain.Registered transactionHash _ _) =>
            let watermarkData :=
              {| txHash := transactionHash; wm_block_number := None;
                 timestamp := now_iso env |} in
            let '(fs', watermarked_file_path) :=
              match createWatermarkedDocument fs (processed_file_path document)
                      document_hash watermarkData with
              | Ok (fs', p) => (fs', Some p)
              | Throw _ => (fs, None)
              end in
            {| fin_response :=
                 Finalize200 (Some transactionHash) watermarked_file_path
                   "Document successfully verified on blockchain";
               fin_locals :=
                 {| db := update_verified (db app) transactionHash None
                            (if truthy watermarked_file_path
                             then watermarked_file_path else None)
                            document_hash;
                    blockchain := Some svc' |};
               fin_fs := fs' |}
        end
  end.

(** [router.post('/finalize')], of the body the [document_hash] field. *)
Definition finalize `{Libs} (app : locals) (fs : filesystem)
    (env : finalize_env) (document_hash : option string) : finalize_state :=
  if negb (truthy document_hash)
  then {| fin_response := Finalize400 "Document hash is required";
          fin_locals := app; fin_fs := fs |}
  else
    let h := default "" document_hash in
    match blockchain app with
    | Some svc =>
        if Blockchain.initialized svc then finalize_ledger app svc fs env h
        else finalize_simulation app fs env h
    | None => finalize_simulation app fs env h
    end.

(** [await fs.access(p)] resolves. *)
Definition access (fs : filesystem) (p : string) : bool :=
  bool_decide (is_Some (fs !! p)).

(** [fileType] in [GET /view-original/:hash]. *)
Inductive file_type : Type :=
| type_watermarked
| type_processed
| type_original.

(** The file [GET /view-original/:hash] serves: the watermarked copy of a
    verified record, else the processed file, else the original; a path
    that is not set or cannot be accessed is passed over. *)
Definition select_file (fs : filesystem) (document : row)
  : option (string * file_type) :=
  let filePath : option (string * file_type) := None in
  let filePath :=
    if verified document && truthy (watermarked_file_path document)
    then
      let p := default "" (watermarked_file_path document) in
      if access fs p then Some (p, type_watermarked) else filePath
    else filePath in
  let filePath :=
    match filePath with
    | None =>
        if truthy_str (processed_file_path document)
        then
          if access fs (processed_file_path document)
          then Some (processed_file_path document, type_processed)
          else filePath
        else filePath
    | Some _ => filePath
    end in
  match filePath with
  | None =>
      if truthy (original_file_path document)
      then
        let p := default "" (original_file_path document) in
        if access fs p then Some (p, type_original) else filePath
      else filePath
  | Some _ => filePath
  end.

(** The [switch] on the extension of the served file. *)
Definition content_type_of (ext : string) : string :=
  if String.eqb ext ".pdf" then "application/pdf"
  else if String.eqb ext ".jpg" || String.eqb ext ".jpeg" then "image/jpeg"
  else if String.eqb ext ".png" then "image/png"
  else "application/octet-stream".

(** What a 200 answer of the route carries: the file sent and the headers
    [Content-Type], [Content-Disposition] (of which the file name),
    [X-Document-Type], [X-Document-Verified] and [X-Watermarked]. *)
Record served : Type := {
  served_path : string;
  content_type : string;
  disposition_filename : string;
  x_document_type : file_type;
  x_document_verified : bool;
  x_watermarked : bool
}.

Inductive view_response : Type :=
| View404 (error : string)
| View200 (s : served).

(** [router.get('/view-original/:hash')] *)
Definition view_original `{Libs} (db : list row) (fs : filesystem)
    (document_hash : string) : view_response :=
  match head (select_by_document_hash db document_hash) with
  | None => View404 "Document not found"
  | Some document =>
      match select_file fs document with
      | None => View404 "Document file not available"
      | Some (filePath, fileType) =>
          let ext := toLowerCase (path_extname filePath) in
          View200
            {| served_path := filePath;
               content_type := content_type_of ext;
               disposition_filename := original_file_name document;
               x_document_type := fileType;
               x_document_verified := verified document;
               x_watermarked :=
                 match fileType with
                 | type_watermarked => true
                 | _ => false
                 end |}
      end
  end.

End Documents.

(** ** routes/verification.js *)

Module Verification.

(** The [documentType] annotation of an authentic result. *)
Inductive document_variant : Type :=
| watermarked_verified
| processed
| original.

(** [versionType] in the tamper classifier. *)
Inductive version_type : Type :=
| version_watermarked
| version_processed
| version_original.

Inductive tamper_type : Type :=
| PAGE_MODIFICATION
| WATERMARK_MISMATCH
| WATERMARK_REMOVAL
| MINOR_MODIFICATION
| CONTENT_MODIFICATION
| STRUCTURE_CORRUPTION
| CONTENT_REPLACEMENT
| MAJOR_MODIFICATION.

Inductive status : Type :=
| NOT_FOUND
| NOT_VERIFIED
| AUTHENTIC
| TAMPERED.

(** [verificationDetails]; an absent property is [None]. The free-text
    [message] and [note] are left out. [sizeDifference] is [None] for NaN;
    [sizeRatio] is kept exact: for sizes below 2^40 the double division and
    its comparison with 0.01 and 0.05 agree with the exact ones. *)
Record details : Type := {
  authentic : bool;
  tampered : bool;
  uploadedHash : option string;
  hashMatch : option bool;
  uploadedSize : option Z;
  confidence : option Z;
  expectedHash : option string;
  documentType : option document_variant;
  uploadWatermarked : option bool;
  expectedSize : option Z;
  expectedVersion : option version_type;
  sizeMatch : option bool;
  sizeDifference : option Z;
  sizeRatio : option Q;
  tamperType : option tamper_type;
  hashAlgorithm : option string;
  error : option string;
  blockchainVerified : option bool;
  blockchainTimestamp : option Z
}.

(** The [document] object of a response. *)
Record summary : Type := {
  sum_documentHash : string;
  sum_studentName : string;
  sum_studentId : string;
  sum_program : string;
  sum_documentType : string;
  sum_dateIssued : string;
  sum_originalFileName : string;
  sum_createdAt : Z;
  sum_verified : bool;
  sum_blockchainTxHash : option string;
  sum_blockNumber : option Z;
  sum_hasWatermark : bool
}.

Record body : Type := {
  success : bool;
  verificationStatus : status;
  integrity : option details;
  document_summary : option summary;
  body_uploadedHash : option string;
  verificationMethod : option string;
  uploadedFileType : option string
}.

Inductive response : Type :=
| Http400 (error : string)
| Http500 (error : string)
| Http200 (b : body).

(** [req.file], as multer leaves it. *)
Record upload : Type := {
  path : string;
  originalname : string;
  mimetype : string
}.

(** What a run of the upload route does to its collaborators, in order. *)
Inductive event : Type :=
| ReadUpload (p : string)
| QueryByDocumentHash (h : string)
| QueryByContentHash (h : string)
| QueryByFilename (pattern : string)
| LedgerLookup (h : string)
| UpdateHashes (updates : list (hash_column * string)) (h : string)
| Refetch (h : string)
| CompareVariants (uploadedHash : string)
| ClassifyTampering (uploadedHash : string)
| Unlink (p : string).

Record extracted : Type := {
  hash : option string;
  isWatermarked : bool
}.

(** The [try] block of [extractHashFromPDF]. *)
Definition extract_body `{Libs} (fs : filesystem) (pdfPath : string)
  : res extracted :=
  pdfBytes ← readFile fs pdfPath;
  pdfDoc ← load_pdf pdfBytes;
  let documentHash : option string := None in
  let isWatermarked := false in
  let subject := Subject pdfDoc in
  let documentHash :=
    match subject with
    | Some s => if truthy_str s && startsWith "0x" s then Some s
                else documentHash
    | None => documentHash
    end in
  let '(isWatermarked, documentHash) :=
    match subject with
    | Some s =>
        if truthy_str s && includes "Verified:" s
        then (true, match match_hash64 s with
                    | Some h => Some h
                    | None => documentHash
                    end)
        else (isWatermarked, documentHash)
    | None => (isWatermarked, documentHash)
    end in
  let keywords := Keywords pdfDoc in
  let '(isWatermarked, documentHash) :=
    match keywords with
    | Some k =>
        if truthy_str k
        then (if includes "blockchain_verified:true" k then true
              else isWatermarked,
              match match_verification_hash k with
              | Some h => Some h
              | None => documentHash
              end)
        else (isWatermarked, documentHash)
    | None => (isWatermarked, documentHash)
    end in
  Ok {| hash := documentHash; isWatermarked := isWatermarked |}.

(** [extractHashFromPDF(pdfPath)] *)
Definition extractHashFromPDF `{Libs} (fs : filesystem) (pdfPath : string)
  : res extracted :=
  try_catch (extract_body fs pdfPath)
    (fun _ => Ok {| hash := None; isWatermarked := false |}).

(** [fs.readFile(p)] for a nullable path: a null path is a TypeError. *)
Definition readFile_opt (fs : filesystem) (p : option string)
  : res (list byte) :=
  match p with
  | Some p => readFile fs p
  | None => Throw "The path argument must be of type string"
  end.

(** One of the three blocks of [updateDocumentHashes]: when the hash is
    missing and the path is set, read the file and record its digest; a
    failed read is caught and logged. *)
Definition backfill_step `{Libs} (fs : filesystem) (c : hash_column)
    (file_path : option string)
    (st : row * list (hash_column * string))
  : row * list (hash_column * string) :=
  let '(document, updates) := st in
  if negb (truthy (get_column c document)) && truthy file_path
  then
    match readFile_opt fs file_path with
    | Ok buffer =>
        let h := keccak256 buffer in
        (set_column c h document, (updates ++ [(c, h)])%list)
    | Throw _ => (document, updates)
    end
  else (document, updates).

(** [updateDocumentHashes(document, db)]: the [document] object after the
    call, the store after the call, and the updates sent (none when the
    list is empty). *)
Definition updateDocumentHashes `{Libs} (fs : filesystem)
    (document : row) (db : list row)
  : row * list row * list (hash_column * string) :=
  let st := (document, []) in
  let st := backfill_step fs col_processed_content_hash
              (Some (processed_file_path document)) st in
  let st := backfill_step fs col_content_hash
              (original_file_path document) st in
  let st := backfill_step fs col_watermarked_content_hash
              (watermarked_file_path document) st in
  let '(document, updates) := st in
  match updates with
  | [] => (document, db, updates)
  | _ :: _ => (document, update_hashes db updates (document_hash document),
               updates)
  end.

(** [uploadedHash === document.<column>] *)
Definition same_hash (uploadedHash : string) (col : option string) : bool :=
  sql_eq col uploadedHash.

Definition authentic_details (uploadedHash : string)
    (expected : option string) (v : document_variant) : details :=
  {| authentic := true; tampered := false;
     uploadedHash := Some uploadedHash; hashMatch := Some true;
     uploadedSize := None; confidence := Some 100;
     expectedHash := expected; documentType := Some v;
     uploadWatermarked := None; expectedSize := None;
     expectedVersion := None; sizeMatch := None; sizeDifference := None;
     sizeRatio := None; tamperType := None; hashAlgorithm := None;
     error := None; blockchainVerified := None;
     blockchainTimestamp := None |}.

(** The comparison target of the classifier: [expectedHash],
    [expectedSize] and [versionType] after the three-way choice. *)
Definition expected_target (fs : filesystem) (document : row)
  : option string * option Z * option version_type :=
  if truthy (watermarked_content_hash document)
  then
    match readFile_opt fs (watermarked_file_path document) with
    | Ok b => (watermarked_content_hash document,
               Some (Z.of_nat (length b)), Some version_watermarked)
    | Throw _ => (watermarked_content_hash document, Some 0, None)
    end
  else if truthy (processed_content_hash document)
  then
    match readFile fs (processed_file_path document) with
    | Ok b => (processed_content_hash document,
               Some (Z.of_nat (length b)), Some version_processed)
    | Throw _ => (processed_content_hash document, Some 0, None)
    end
  else if truthy (content_hash document)
  then
    match readFile_opt fs (original_file_path document) with
    | Ok b => (content_hash document,
               Some (Z.of_nat (length b)), Some version_original)
    | Throw _ => (content_hash document, Some 0, None)
    end
  else (None, None, None).

(** [Math.abs(uploadedSize - expectedSize)]; NaN for an undefined size. *)
Definition size_difference (uploadedSize : Z) (expectedSize : option Z)
  : option Z :=
  match expectedSize with
  | Some e => Some (Z.abs (uploadedSize - e))
  | None => None
  end.

(** [expectedSize > 0 ? sizeDifference / expectedSize : 1] *)
Definition size_ratio (uploadedSize : Z) (expectedSize : option Z) : Q :=
  match expectedSize with
  | Some e =>
      if 0 <? e then Z.abs (uploadedSize - e) # Z.to_pos e else 1%Q
  | None => 1%Q
  end.

Definition Qltb (a b : Q) : bool := negb (Qle_bool b a).

Definition is_watermarked_version (v : option version_type) : bool :=
  match v with
  | Some version_watermarked => true
  | _ => false
  end.

(** The page count of the expected file, which the classifier loads only
    when the comparison target is the watermarked variant. *)
Definition expected_page_count `{Libs} (fs : filesystem) (document : row)
    (versionType : option version_type) : option nat :=
  if is_watermarked_version versionType
     && truthy (watermarked_file_path document)
  then
    match (expectedBuffer ← readFile_opt fs (watermarked_file_path document);
           expectedPdf ← load_pdf expectedBuffer;
           Ok (length (pages expectedPdf))) with
    | Ok n => Some n
    | Throw _ => None
    end
  else None.

(** The tag and confidence the PDF branch assigns. *)
Definition classify_pdf `{Libs} (fs : filesystem) (uploadedBuffer : list byte)
    (document : row) (isWatermarked : bool)
    (versionType : option version_type) (sizeRatio : Q)
  : tamper_type * Z :=
  match load_pdf uploadedBuffer with
  | Throw _ => (STRUCTURE_CORRUPTION, 100)
  | Ok uploadedPdf =>
      let uploadedPageCount := length (pages uploadedPdf) in
      let expectedPageCount := expected_page_count fs document versionType in
      if match expectedPageCount with
         | Some n => negb (Nat.eqb n 0) && negb (Nat.eqb uploadedPageCount n)
         | None => false
         end
      then (PAGE_MODIFICATION, 100)
      else if isWatermarked && negb (is_watermarked_version versionType)
      then (WATERMARK_MISMATCH, 85)
      else if negb isWatermarked && is_watermarked_version versionType
      then (WATERMARK_REMOVAL, 95)
      else if Qltb sizeRatio (1 # 100) then (MINOR_MODIFICATION, 70)
      else (CONTENT_MODIFICATION, 95)
  end.

(** The tag and confidence for every other file type. *)
Definition classify_other (sizeDifference : option Z) (sizeRatio : Q)
  : tamper_type * Z :=
  if match sizeDifference with
     | Some d => d =? 0
     | None => false
     end
  then (CONTENT_REPLACEMENT, 100)
  else if Qltb sizeRatio (5 # 100) then (MINOR_MODIFICATION, 85)
  else (MAJOR_MODIFICATION, 100).

(** [detectTamperingWithWatermarkAwareness(uploadedBuffer, uploadedHash,
    document, mimeType, isWatermarked)] *)
Definition detectTamperingWithWatermarkAwareness `{Libs} (fs : filesystem)
    (uploadedBuffer : list byte) (uploadedHash : string)
    (document : row) (mimeType : string) (isWatermarked : bool)
  : details :=
  let uploadedSize := Z.of_nat (length uploadedBuffer) in
  let '(expectedHash, expectedSize, versionType) :=
    expected_target fs document in
  let sizeDifference := size_difference uploadedSize expectedSize in
  let sizeRatio := size_ratio uploadedSize expectedSize in
  let '(tamperType, confidence) :=
    if String.eqb mimeType "application/pdf"
    then classify_pdf fs uploadedBuffer document isWatermarked versionType
           sizeRatio
    else classify_other sizeDifference sizeRatio in
  {| authentic := false; tampered := true;
     uploadedHash := Some uploadedHash; hashMatch := Some false;
     uploadedSize := Some uploadedSize; confidence := Some confidence;
     expectedHash := expectedHash; documentType := None;
     uploadWatermarked := Some isWatermarked; expectedSize := expectedSize;
     expectedVersion := versionType;
     sizeMatch := Some match sizeDifference with
                       | Some d => d =? 0
                       | None => false
                       end;
     sizeDifference := sizeDifference; sizeRatio := Some sizeRatio;
     tamperType := Some tamperType;
     hashAlgorithm := Some "Keccak-256 (Ethereum standard)";
     error := None; blockchainVerified := None;
     blockchainTimestamp := None |}.

(** [verifyDocumentIntegrity(uploadedBuffer, uploadedHash, document,
    mimeType, isWatermarked)] *)
Definition verifyDocumentIntegrity `{Libs} (fs : filesystem)
    (uploadedBuffer : list byte) (uploadedHash : string)
    (document : row) (mimeType : string) (isWatermarked : bool)
  : details :=
  if verified document && truthy (watermarked_content_hash document)
     && same_hash uploadedHash (watermarked_content_hash document)
  then authentic_details uploadedHash (watermarked_content_hash document)
         watermarked_verified
  else if truthy (processed_content_hash document)
          && same_hash uploadedHash (processed_content_hash document)
  then authentic_details uploadedHash (processed_content_hash document)
         processed
  else if truthy (content_hash document)
          && same_hash uploadedHash (content_hash document)
  then authentic_details uploadedHash (content_hash document) original
  else detectTamperingWithWatermarkAwareness fs uploadedBuffer uploadedHash
         document mimeType isWatermarked.

(** The search term of the filename fallback. *)
Definition fuzzy_base `{Libs} (originalname : string) : string :=
  let baseName := path_basename originalname (path_extname originalname) in
  let baseName := remove_address_fragment baseName in
  remove_verified_prefix baseName.

(** Step 4 of the upload route: the row the upload is checked against,
    with the queries sent to find it. *)
Definition resolve_document `{Libs} (db : list row)
    (embeddedHash : option string) (uploadedContentHash : string)
    (originalname : string) : option row * list event :=
  let '(originalDocument, trace) :=
    if truthy embeddedHash
    then (head (select_by_document_hash db (default "" embeddedHash)),
          [QueryByDocumentHash (default "" embeddedHash)])
    else (None, []) in
  let '(originalDocument, trace) :=
    match originalDocument with
    | Some _ => (originalDocument, trace)
    | None =>
        (head (select_by_content_hash db uploadedContentHash
                 uploadedContentHash uploadedContentHash),
         (trace ++ [QueryByContentHash uploadedContentHash])%list)
    end in
  match originalDocument with
  | Some _ => (originalDocument, trace)
  | None =>
      let pattern := "%" +:+ fuzzy_base originalname +:+ "%" in
      (head (select_by_filename db pattern pattern pattern),
       (trace ++ [QueryByFilename pattern])%list)
  end.

Record run : Type := {
  run_response : response;
  run_db : list row;
  run_fs : filesystem;
  run_trace : list event
}.

Definition not_found_body (uploadedContentHash : string) : body :=
  {| success := false; verificationStatus := NOT_FOUND;
     integrity := None; document_summary := None;
     body_uploadedHash := Some uploadedContentHash;
     verificationMethod := None; uploadedFileType := None |}.

Definition not_verified_details : details :=
  {| authentic := false; tampered := false;
     uploadedHash := None; hashMatch := None; uploadedSize := None;
     confidence := Some 100; expectedHash := None; documentType := None;
     uploadWatermarked := None; expectedSize := None;
     expectedVersion := None; sizeMatch := None; sizeDifference := None;
     sizeRatio := None; tamperType := None; hashAlgorithm := None;
     error := None; blockchainVerified := Some false;
     blockchainTimestamp := None |}.

Definition not_verified_body (originalDocument : row) : body :=
  {| success := true; verificationStatus := NOT_VERIFIED;
     integrity := Some not_verified_details;
     document_summary :=
       Some {| sum_documentHash := document_hash originalDocument;
               sum_studentName := student_name originalDocument;
               sum_studentId := student_id originalDocument;
               sum_program := program originalDocument;
               sum_documentType := document_type originalDocument;
               sum_dateIssued := date_issued originalDocument;
               sum_originalFileName := original_file_name originalDocument;
               sum_createdAt := created_at originalDocument;
               sum_verified := false;
               sum_blockchainTxHash := None;
               sum_blockNumber := None;
               sum_hasWatermark := false |};
     body_uploadedHash := None;
     verificationMethod := Some "database_only";
     uploadedFileType := None |}.

(** The details the route falls back to when the comparison throws. *)
Definition unable_details (message : string) : details :=
  {| authentic := false; tampered := true;
     uploadedHash := None; hashMatch := None; uploadedSize := None;
     confidence := None; expectedHash := None; documentType := None;
     uploadWatermarked := None; expectedSize := None;
     expectedVersion := None; sizeMatch := None; sizeDifference := None;
     sizeRatio := None; tamperType := None; hashAlgorithm := None;
     error := Some message; blockchainVerified := Some true;
     blockchainTimestamp := None |}.

(** [verificationDetails.blockchainVerified = true;
     verificationDetails.blockchainTimestamp = blockchainData.timestamp] *)
Definition with_blockchain (t : Z) (d : details) : details :=
  {| authentic := authentic d; tampered := tampered d;
     uploadedHash := uploadedHash d; hashMatch := hashMatch d;
     uploadedSize := uploadedSize d; confidence := confidence d;
     expectedHash := expectedHash d; documentType := documentType d;
     uploadWatermarked := uploadWatermarked d;
     expectedSize := expectedSize d; expectedVersion := expectedVersion d;
     sizeMatch := sizeMatch d; sizeDifference := sizeDifference d;
     sizeRatio := sizeRatio d; tamperType := tamperType d;
     hashAlgorithm := hashAlgorithm d; error := error d;
     blockchainVerified := Some true; blockchainTimestamp := Some t |}.

Definition verdict_body (originalDocument : row) (verificationDetails : details)
    (embeddedHash : option string) (isWatermarked : bool) : body :=
  {| success := true;
     verificationStatus :=
       if authentic verificationDetails then AUTHENTIC else TAMPERED;
     integrity := Some verificationDetails;
     document_summary :=
       Some {| sum_documentHash := document_hash originalDocument;
               sum_studentName := student_name originalDocument;
               sum_studentId := student_id originalDocument;
               sum_program := program originalDocument;
               sum_documentType := document_type originalDocument;
               sum_dateIssued := date_issued originalDocument;
               sum_originalFileName := original_file_name originalDocument;
               sum_createdAt := created_at originalDocument;
               sum_verified := verified originalDocument;
               sum_blockchainTxHash := blockchain_tx_hash originalDocument;
               sum_blockNumber := block_number originalDocument;
               sum_hasWatermark :=
                 verified originalDocument
                 && truthy (watermarked_file_path originalDocument) |};
     body_uploadedHash := None;
     verificationMethod :=
       Some (if truthy embeddedHash then "document_hash_extraction"
             else "content_hash_match");
     uploadedFileType :=
       Some (if isWatermarked then "watermarked" else "standard") |}.

(** Step 5 of the upload route: the ledger is asked about the resolved
    row's [document_hash]; a missing or uninitialised gateway, a thrown
    error and a negative answer all leave [blockchainVerified] false. *)
Definition check_blockchain (b : option Blockchain.service) (h : string)
  : option Z * list event :=
  if blockchain_ready b
  then
    match b with
    | Some svc =>
        match Blockchain.verifyDocument svc h with
        | Ok (Blockchain.OnChain t) => (Some t, [LedgerLookup h])
        | _ => (None, [LedgerLookup h])
        end
    | None => (None, [])
    end
  else (None, []).

(** The comparison stage, reached only with a ledger-confirmed row. *)
Definition compare_stage `{Libs} (app : locals) (fs : filesystem)
    (uploadedBuffer : list byte) (uploadedContentHash : string)
    (originalDocument : row) (mimetype : string) (isWatermarked : bool)
    (t : Z) : details * row * list row * list event :=
  let '(originalDocument, db', updates) :=
    updateDocumentHashes fs originalDocument (db app) in
  let h := document_hash originalDocument in
  let trace :=
    (match updates with
     | [] => []
     | _ :: _ => [UpdateHashes updates h]
     end ++ [Refetch h])%list in
  match head (select_by_document_hash db' h) with
  | None =>
      (unable_details "Cannot read properties of undefined (reading 'verified')",
       originalDocument, db', trace)
  | Some updatedDocument =>
      let verificationDetails :=
        verifyDocumentIntegrity fs uploadedBuffer uploadedContentHash
          updatedDocument mimetype isWatermarked in
      (with_blockchain t verificationDetails, originalDocument, db',
       (trace ++ CompareVariants uploadedContentHash
          :: (if authentic verificationDetails then []
              else [ClassifyTampering uploadedContentHash]))%list)
  end.

(** Step 3 of the upload route: the embedded hash and the watermark flag,
    read from PDF uploads only. *)
Definition extract_upload `{Libs} (fs : filesystem) (f : upload)
  : res extracted :=
  if String.eqb (mimetype f) "application/pdf"
  then extractHashFromPDF fs (path f)
  else Ok {| hash := None; isWatermarked := false |}.

(** [router.post('/upload')] *)
Definition upload_route `{Libs} (app : locals) (fs : filesystem)
    (file : option upload) : run :=
  match file with
  | None =>
      {| run_response := Http400 "No file uploaded"; run_db := db app;
         run_fs := fs; run_trace := [] |}
  | Some f =>
      match readFile fs (path f) with
      | Throw _ =>
          {| run_response := Http500 "Failed to verify document";
             run_db := db app; run_fs := delete (path f) fs;
             run_trace := [ReadUpload (path f); Unlink (path f)] |}
      | Ok uploadedBuffer =>
          let uploadedContentHash := keccak256 uploadedBuffer in
          match extract_upload fs f with
          | Throw _ =>
              {| run_response := Http500 "Failed to verify document";
                 run_db := db app; run_fs := delete (path f) fs;
                 run_trace := [ReadUpload (path f); Unlink (path f)] |}
          | Ok extractResult =>
              let embeddedHash := hash extractResult in
              let isWatermarked := isWatermarked extractResult in
              let '(originalDocument, queries) :=
                resolve_document (db app) embeddedHash uploadedContentHash
                  (originalname f) in
              let trace := (ReadUpload (path f) :: queries)%list in
              match originalDocument with
              | None =>
                  {| run_response := Http200 (not_found_body uploadedContentHash);
                     run_db := db app; run_fs := delete (path f) fs;
                     run_trace := (trace ++ [Unlink (path f)])%list |}
              | Some originalDocument =>
                  let '(blockchainData, lookups) :=
                    check_blockchain (blockchain app)
                      (document_hash originalDocument) in
                  let trace := (trace ++ lookups)%list in
                  match blockchainData with
                  | None =>
                      {| run_response :=
                           Http200 (not_verified_body originalDocument);
                         run_db := db app; run_fs := delete (path f) fs;
                         run_trace := (trace ++ [Unlink (path f)])%list |}
                  | Some t =>
                      let '(verificationDetails, originalDocument, db', steps) :=
                        compare_stage app fs uploadedBuffer uploadedContentHash
                          originalDocument (mimetype f) isWatermarked t in
                      {| run_response :=
                           Http200 (verdict_body originalDocument
                                      verificationDetails embeddedHash
                                      isWatermarked);
                         run_db := db'; run_fs := delete (path f) fs;
                         run_trace :=
                           (trace ++ steps ++ [Unlink (path f)])%list |}
                  end
              end
          end
      end
  end.

(** The [verificationStatus] of a response, if it has one. *)
Definition response_status (r : response) : option status :=
  match r with
  | Http200 b => Some (verificationStatus b)
  | _ => None
  end.

(** The [integrity] object of a response, if it has one. *)
Definition response_integrity (r : response) : option details :=
  match r with
  | Http200 b => integrity b
  | _ => None
  end.

(** The store queries of step 4. *)
Definition is_query (e : event) : bool :=
  match e with
  | QueryByDocumentHash _ | QueryByContentHash _ | QueryByFilename _ => true
  | _ => false
  end.

(** The database part of the [document] object [GET /:hash] answers. *)
Record lookup_metadata : Type := {
  lk_studentName : string;
  lk_studentId : string;
  lk_program : string;
  lk_documentType : string;
  lk_dateIssued : string;
  lk_originalFileName : string;
  lk_createdAt : Z;
  lk_blockchainTxHash : option string;
  lk_blockNumber : option Z;
  lk_hasWatermark : bool
}.

(** The 200 body of [GET /:hash]. [lk_verified] is [None] when the
    property is undefined and so left out of the JSON; [blockchainDate]
    is the Date of [lk_blockchainTimestamp] and is not kept. *)
Record lookup_body : Type := {
  lk_verified : option bool;
  lk_documentHash : string;
  lk_blockchainTimestamp : option Z;
  lk_metadata : option lookup_metadata;
  lk_source : string;
  lk_warning : option string
}.

Inductive lookup_response : Type :=
| Lookup404 (error : string)
| Lookup200 (b : lookup_body).

(** Step 1 of [GET /:hash]: [blockchainVerified] and the timestamp of
    [blockchainData]. The object the gateway returns after an error of the
    contract call has no [verified] property. *)
Definition lookup_blockchain (b : option Blockchain.service)
    (documentHash : string) : option bool * option Z :=
  if blockchain_ready b
  then
    match b with
    | Some svc =>
        match Blockchain.verifyDocument svc documentHash with
        | Ok (Blockchain.OnChain t) => (Some true, Some t)
        | Ok Blockchain.NotOnChain => (Some false, None)
        | Ok (Blockchain.VerifyFailed _) => (None, None)
        | Throw _ => (Some false, None)
        end
    | None => (Some false, None)
    end
  else (Some false, None).

(** [if (v)] for a possibly undefined boolean. *)
Definition truthy_flag (v : option bool) : bool := default false v.

(** [router.get('/:hash')] *)
Definition lookup_route (app : locals) (documentHash : string)
  : lookup_response :=
  let '(blockchainVerified, blockchainTimestamp) :=
    lookup_blockchain (blockchain app) documentHash in
  let document := head (select_by_document_hash (db app) documentHash) in
  if negb (bool_decide (is_Some document)) && negb (truthy_flag blockchainVerified)
  then Lookup404 "Document not found"
  else
    Lookup200
      {| lk_verified := blockchainVerified;
         lk_documentHash := documentHash;
         lk_blockchainTimestamp := blockchainTimestamp;
         lk_metadata :=
           (fun document =>
              {| lk_studentName := student_name document;
                 lk_studentId := student_id document;
                 lk_program := program document;
                 lk_documentType := document_type document;
                 lk_dateIssued := date_issued document;
                 lk_originalFileName := original_file_name document;
                 lk_createdAt := created_at document;
                 lk_blockchainTxHash := blockchain_tx_hash document;
                 lk_blockNumber := block_number document;
                 lk_hasWatermark :=
                   if verified document
                      && truthy (watermarked_file_path document)
                   then true else false |}) <$> document;
         lk_source :=
           if truthy_flag blockchainVerified then "blockchain"
           else "database_only";
         lk_warning :=
           if negb (truthy_flag blockchainVerified)
              && bool_decide (is_Some document)
           then Some "This document is in the database but NOT verified on blockchain. It may be a test record."
           else None |}.

End Verification.

(** ** services/PDFService.js and TemplateService: canonical content *)

Module PDFService.

(** The values a field of the request can hold, as far as the encoder
    tells them apart. *)
Inductive jsval : Type :=
| JUndefined
| JString (s : string)
| JNumber (z : Z).

(** [`${v}`] *)
Definition show (v : jsval) : string :=
  match v with
  | JUndefined => "undefined"
  | JString s => s
  | JNumber z => Z_to_string z
  end.

(** The condition [if (v)]. *)
Definition truthy_val (v : jsval) : bool :=
  match v with
  | JUndefined => false
  | JString s => truthy_str s
  | JNumber z => negb (z =? 0)
  end.

(** [a || b] *)
Definition or_else (a b : jsval) : jsval := if truthy_val a then a else b.

Record course : Type := {
  courseCode : jsval;
  courseName : jsval;
  units : jsval;
  grade : jsval
}.

(** [documentData]. [courseData] and [grades] are [None] when undefined;
    [grades] lists the object's entries in enumeration order; [dateIssued]
    is the time value, in milliseconds, of the Date it is or converts to,
    [None] for an invalid date. *)
Record documentData : Type := {
  studentId : jsval;
  studentName : jsval;
  documentType : jsval;
  courseData : option (list course);
  grades : option (list (string * jsval));
  dateIssued : option Z;
  institutionName : jsval
}.

(** The last [width] decimal digits of [z], zero-padded. *)
Fixpoint digits (width : nat) (z : Z) : string :=
  match width with
  | O => EmptyString
  | S w =>
      digits w (z / 10)
      +:+ String (ascii_of_nat (48 + Z.to_nat (z mod 10))) EmptyString
  end.

(** Year, month and day of a day number counted from 1970-01-01. *)
Definition civil_from_days (days : Z) : Z * Z * Z :=
  let z := days + 719468 in
  let era := z / 146097 in
  let doe := z - era * 146097 in
  let yoe := (doe - doe / 1460 + doe / 36524 - doe / 146096) / 365 in
  let y := yoe + era * 400 in
  let doy := doe - (365 * yoe + yoe / 4 - yoe / 100) in
  let mp := (5 * doy + 2) / 153 in
  let d := doy - (153 * mp + 2) / 5 + 1 in
  let m := if mp <? 10 then mp + 3 else mp - 9 in
  (if m <=? 2 then y + 1 else y, m, d).

(** [date.toISOString()] for the time value [t]; a RangeError outside the
    range of valid time values. *)
Definition toISOString (t : option Z) : res string :=
  match t with
  | None => Throw "Invalid time value"
  | Some t =>
      if Z.abs t <=? 8640000000000000
      then
        let '(y, m, d) := civil_from_days (t / 86400000) in
        let ms := t mod 86400000 in
        let year :=
          if (0 <=? y) && (y <=? 9999) then digits 4 y
          else (if y <? 0 then "-" else "+") +:+ digits 6 (Z.abs y) in
        Ok (year +:+ "-" +:+ digits 2 m +:+ "-" +:+ digits 2 d +:+ "T"
            +:+ digits 2 (ms / 3600000) +:+ ":"
            +:+ digits 2 (ms / 60000 mod 60) +:+ ":"
            +:+ digits 2 (ms / 1000 mod 60) +:+ "."
            +:+ digits 3 (ms mod 1000) +:+ "Z")
      else Throw "Invalid time value"
  end.

(** One line of the [COURSES:] block; [index] counts from 0. *)
Definition course_line (index : nat) (c : course) : string :=
  Z_to_string (Z.of_nat index + 1) +:+ ". " +:+ show (courseCode c)
  +:+ " - " +:+ show (courseName c)
  +:+ (if truthy_val (units c) then " (" +:+ show (units c) +:+ " units)"
       else "")
  +:+ (if truthy_val (grade c) then " - Grade: " +:+ show (grade c) else "")
  +:+ LF.

(** [courseData.forEach((course, index) => ...)] from [index] on. *)
Fixpoint course_lines (index : nat) (cs : list course) : string :=
  match cs with
  | [] => EmptyString
  | c :: rest => course_line index c +:+ course_lines (S index) rest
  end.

Fixpoint grade_lines (gs : list (string * jsval)) : string :=
  match gs with
  | [] => EmptyString
  | (subject, g) :: rest =>
      subject +:+ ": " +:+ show g +:+ LF +:+ grade_lines rest
  end.

(** The five scalar lines, given the rendered date. *)
Definition header (d : documentData) (iso : string) : string :=
  "DOCUMENT_TYPE:" +:+ show (documentType d) +:+ LF
  +:+ "STUDENT_ID:" +:+ show (studentId d) +:+ LF
  +:+ "STUDENT_NAME:" +:+ show (studentName d) +:+ LF
  +:+ "INSTITUTION:" +:+ show (institutionName d) +:+ LF
  +:+ "DATE_ISSUED:" +:+ iso +:+ LF.

(** [PDFService.generateDocumentContent(documentData)] *)
Definition generateDocumentContent (d : documentData) : res string :=
  let courseData := default [] (courseData d) in
  let grades := default [] (grades d) in
  iso ← toISOString (dateIssued d);
  let content := header d iso in
  let content :=
    if (0 <? length courseData)%nat
    then content +:+ "COURSES:" +:+ LF +:+ course_lines 0 courseData
    else content in
  let content :=
    if (0 <? length grades)%nat
    then content +:+ "GRADES:" +:+ LF +:+ grade_lines grades
    else content in
  Ok content.

(** [PDFService.generateDocumentHash(content)] *)
Definition generateDocumentHash `{Libs} (content : string) : string :=
  keccak256 (toUtf8Bytes content).

(** [PDFService.verifyDocumentContent(extractedContent, expectedHash)]:
    [expectedHash.toLowerCase()] throws for a value that is not a string,
    and the [catch] answers false. *)
Definition verifyDocumentContent `{Libs} (extractedContent : string)
    (expectedHash : jsval) : bool :=
  match expectedHash with
  | JString e =>
      let calculatedHash := generateDocumentHash extractedContent in
      String.eqb (toLowerCase calculatedHash) (toLowerCase e)
  | _ => false
  end.

(** One element of [templateData.courses]. *)
Record template_course : Type := {
  tc_code : jsval;
  tc_name : jsval;
  tc_units : jsval;
  tc_grade : jsval
}.

(** [templateData] as [createStandardizedContentFromTemplateData] reads
    it; [td_courses] is [None] when undefined. *)
Record wordTemplateData : Type := {
  td_student_name : jsval;
  td_student_id : jsval;
  td_documentType : jsval;
  td_institution : jsval;
  td_courses : option (list template_course);
  td_issue_date : jsval
}.

Definition template_course_line (index : nat) (c : template_course) : string :=
  Z_to_string (Z.of_nat index + 1) +:+ ". "
  +:+ show (or_else (tc_code c) (JString ""))
  +:+ " - " +:+ show (or_else (tc_name c) (JString ""))
  +:+ (if truthy_val (tc_units c) then " (" +:+ show (tc_units c) +:+ " units)"
       else "")
  +:+ (if truthy_val (tc_grade c) then " - Grade: " +:+ show (tc_grade c)
       else "")
  +:+ LF.

Fixpoint template_course_lines (index : nat) (cs : list template_course)
  : string :=
  match cs with
  | [] => EmptyString
  | c :: rest =>
      template_course_line index c +:+ template_course_lines (S index) rest
  end.

(** [PDFService.createStandardizedContentFromTemplateData(templateData)],
    run when the clock reads [now]. *)
Definition createStandardizedContentFromTemplateData (t : wordTemplateData)
    (now : Z) : res string :=
  let courses := default [] (td_courses t) in
  let content :=
    "DOCUMENT_TYPE:"
    +:+ show (or_else (td_documentType t) (JString "WORD_TEMPLATE")) +:+ LF in
  let content :=
    content +:+ "STUDENT_ID:"
    +:+ show (or_else (td_student_id t) (JString "")) +:+ LF in
  let content :=
    content +:+ "STUDENT_NAME:"
    +:+ show (or_else (td_student_name t) (JString "")) +:+ LF in
  let content :=
    content +:+ "INSTITUTION:"
    +:+ show (or_else (td_institution t) (JString "")) +:+ LF in
  date ← (if truthy_val (td_issue_date t) then Ok (show (td_issue_date t))
          else toISOString (Some now));
  let content := content +:+ "DATE_ISSUED:" +:+ date +:+ LF in
  let content :=
    if (0 <? length courses)%nat
    then content +:+ "COURSES:" +:+ LF +:+ template_course_lines 0 courses
    else content in
  Ok content.

End PDFService.

Module TemplateService.
Import PDFService.



End TemplateService.

(** ** routes/auth.js: the login throttle *)

Module Auth.
Import PDFService.

Definition MAX_LOGIN_ATTEMPTS : Z := 5.
Definition LOCKOUT_DURATION : Z := 15 * 60 * 1000.

(** One value of the [loginAttempts] map; a property never assigned is
    [None]. Times are milliseconds since the epoch. *)
Record attempts : Type := {
  count : Z;
  firstAttempt : Z;
  lastAttempt : option Z;
  lockedUntil : option Z
}.

Abbreviation store := (gmap string attempts).

(** The condition [if (t)] on a possibly undefined time. *)
Definition truthy_time (t : option Z) : bool :=
  match t with
  | Some z => negb (z =? 0)
  | None => false
  end.

Definition getAttemptKey (username ip : string) : string :=
  username +:+ ":" +:+ ip.

(** [isAccountLocked(username, ip)] when [Date.now()] reads [now]. *)
Definition isAccountLocked (loginAttempts : store) (now : Z)
    (username ip : string) : bool :=
  let key := getAttemptKey username ip in
  match loginAttempts !! key with
  | None => false
  | Some attempts =>
      if truthy_time (lockedUntil attempts)
         && (now <? default 0 (lockedUntil attempts))
      then true
      else false
  end.

(** The three readings of [Date.now()] a failed attempt makes. *)
Record readings : Type := {
  at_first : Z;
  at_last : Z;
  at_lock : Z
}.

(** [recordLoginAttempt(username, ip, success)]: the map after the call
    and the value returned. *)
Definition recordLoginAttempt (loginAttempts : store) (clock : readings)
    (username ip : string) (success : bool) : store * option attempts :=
  let key := getAttemptKey username ip in
  if success then (delete key loginAttempts, None)
  else
    let attempts :=
      default {| count := 0; firstAttempt := at_first clock;
                 lastAttempt := None; lockedUntil := None |}
        (loginAttempts !! key) in
    let attempts :=
      {| count := count attempts + 1; firstAttempt := firstAttempt attempts;
         lastAttempt := Some (at_last clock);
         lockedUntil := lockedUntil attempts |} in
    let attempts :=
      if MAX_LOGIN_ATTEMPTS <=? count attempts
      then {| count := count attempts; firstAttempt := firstAttempt attempts;
              lastAttempt := lastAttempt attempts;
              lockedUntil := Some (at_lock clock + LOCKOUT_DURATION) |}
      else attempts in
    (<[key := attempts]> loginAttempts, Some attempts).

(** [Math.ceil(a / b)] for integers, [b] positive. *)
Definition ceil_div (a b : Z) : Z := - ((- a) / b).

(** [getLockoutTimeRemaining(username, ip)], in minutes. *)
Definition getLockoutTimeRemaining (loginAttempts : store) (now : Z)
    (username ip : string) : Z :=
  let key := getAttemptKey username ip in
  match loginAttempts !! key with
  | None => 0
  | Some attempts =>
      if negb (truthy_time (lockedUntil attempts)) then 0
      else
        let remaining := default 0 (lockedUntil attempts) - now in
        Z.max 0 (ceil_div remaining 60000)
  end.

(** The body of the [setInterval] callback: entries whose lock has
    expired are deleted. *)
Definition expired (now : Z) (data : attempts) : bool :=
  truthy_time (lockedUntil data) && (default 0 (lockedUntil data) <? now).

Definition cleanup (loginAttempts : store) (now : Z) : store :=
  filter (fun entry => expired now (snd entry) = false) loginAttempts.

(** The character class of [sanitizeInput]: quote, double quote,
    backquote, semicolon and backslash. *)
Definition is_unsafe (c : ascii) : bool :=
  let n := nat_of_ascii c in
  (Nat.eqb n 39 || Nat.eqb n 34 || Nat.eqb n 96 || Nat.eqb n 59
   || Nat.eqb n 92)%nat.

Fixpoint remove_unsafe (s : string) : string :=
  match s with
  | EmptyString => EmptyString
  | String c s' =>
      if is_unsafe c then remove_unsafe s' else String c (remove_unsafe s')
  end.

(** [sanitizeInput(input)] *)
Definition sanitizeInput (input : jsval) : jsval :=
  match input with
  | JString s => JString (remove_unsafe s)
  | _ => input
  end.

(** A row of the [registrars] table, of which the login reads these. *)
Record registrar : Type := {
  registrar_id : Z;
  registrar_username : string;
  registrar_password : string;
  is_active : bool
}.

(** [SELECT * FROM registrars WHERE username = $1 AND is_active = true] *)
Definition select_registrar (registrars : list registrar) (username : string)
  : list registrar :=
  List.filter (fun r => String.eqb (registrar_username r) username
                        && is_active r) registrars.

Inductive login_response : Type :=
| Login400
| Login401 (remainingAttempts : Z)
| Login429 (lockoutRemaining : Z)
| Login200 (user_id : Z)
| Login500.

(** The readings of [Date.now()] one login request makes, in order:
    in [isAccountLocked], in [getLockoutTimeRemaining] for a locked
    account, in [recordLoginAttempt], and in [getLockoutTimeRemaining]
    after the attempt that locks. *)
Record login_clock : Type := {
  at_check : Z;
  at_remaining : Z;
  at_record : readings;
  at_report : Z
}.

(** [router.post('/admin/login')]: the throttle and the status of the
    answer. [bcrypt_compare] is [bcrypt.compare], which rejects a password
    that is not a string; the session issued with a 200 is not kept. *)
Definition admin_login (bcrypt_compare : string -> string -> bool)
    (registrars : list registrar) (loginAttempts : store)
    (clock : login_clock) (clientIP : string) (username password : jsval)
  : store * login_response :=
  let username := sanitizeInput username in
  if negb (truthy_val username) || negb (truthy_val password)
  then (loginAttempts, Login400)
  else
    let username := show username in
    if isAccountLocked loginAttempts (at_check clock) username clientIP
    then
      let remainingTime :=
        getLockoutTimeRemaining loginAttempts (at_remaining clock)
          username clientIP in
      (loginAttempts, Login429 remainingTime)
    else
      match select_registrar registrars username with
      | [] =>
          let '(loginAttempts, attempts) :=
            recordLoginAttempt loginAttempts (at_record clock) username
              clientIP false in
          let remainingAttempts :=
            MAX_LOGIN_ATTEMPTS - default 0 (count <$> attempts) in
          (loginAttempts, Login401 (Z.max 0 remainingAttempts))
      | registrar :: _ =>
          match password with
          | JString password =>
              if bcrypt_compare password (registrar_password registrar)
              then
                (fst (recordLoginAttempt loginAttempts (at_record clock)
                        username clientIP true),
                 Login200 (registrar_id registrar))
              else
                let '(loginAttempts, attempts) :=
                  recordLoginAttempt loginAttempts (at_record clock) username
                    clientIP false in
                let remainingAttempts :=
                  MAX_LOGIN_ATTEMPTS - default 0 (count <$> attempts) in
                if truthy_time (attempts ≫= lockedUntil)
                then
                  let lockoutMinutes :=
                    getLockoutTimeRemaining loginAttempts (at_report clock)
                      username clientIP in
                  (loginAttempts, Login429 lockoutMinutes)
                else (loginAttempts, Login401 (Z.max 0 remainingAttempts))
          | _ => (loginAttempts, Login500)
          end
      end.

End Auth.

(** ** A reference environment

    Stand-ins for the libraries, used to run the routes on concrete
    requests: a serialiser that the parser inverts, a digest that is
    injective on buffers of up to 31 bytes, plain [extname]/[basename],
    and [LIKE] with its two wildcards. *)

Module Reference.

#[global] Instance draw_op_eq_dec : EqDecision draw_op.
Proof. solve_decision. Defined.

#[global] Instance draw_op_countable : Countable draw_op.
Proof.
  refine (inj_countable'
            (fun o => match o with
                      | DrawCircle => inl 0%nat
                      | DrawLine => inl 1%nat
                      | DrawRectangle => inl 2%nat
                      | DrawImage => inl 3%nat
                      | DrawText s => inr s
                      end)
            (fun x => match x with
                      | inl 0%nat => DrawCircle
                      | inl 1%nat => DrawLine
                      | inl 2%nat => DrawRectangle
                      | inl _ => DrawImage
                      | inr s => DrawText s
                      end) _).
  by intros [].
Defined.

#[global] Instance pdfdoc_eq_dec : EqDecision pdfdoc.
Proof. solve_decision. Defined.

#[global] Instance pdfdoc_countable : Countable pdfdoc.
Proof.
  refine (inj_countable'
            (fun d => (Subject d, Keywords d, Producer d, Title d, pages d))
            (fun '(a, b, c, e, f) =>
               {| Subject := a; Keywords := b; Producer := c; Title := e;
                  pages := f |}) _).
  by intros [].
Defined.

Fixpoint pos_to_bytes (p : positive) : list byte :=
  match p with
  | xH => []
  | xO q => x00 :: pos_to_bytes q
  | xI q => x01 :: pos_to_bytes q
  end.

Fixpoint bytes_to_pos (b : list byte) : option positive :=
  match b with
  | [] => Some xH
  | x00 :: r => xO <$> bytes_to_pos r
  | x01 :: r => xI <$> bytes_to_pos r
  | _ => None
  end.

Definition save (d : pdfdoc) : list byte := pos_to_bytes (encode d).

Definition load (b : list byte) : option pdfdoc := bytes_to_pos b ≫= decode.

Definition hex_digit (n : N) : ascii :=
  ascii_of_N (if (n <? 10)%N then 48 + n else 87 + n).

(** The last [width] hex digits of [x]. *)
Fixpoint hex_digits (width : nat) (x : N) : string :=
  match width with
  | O => EmptyString
  | S w =>
      hex_digits w (x / 16) +:+ String (hex_digit (x mod 16)) EmptyString
  end.

(** The buffer read as a number in base 257, modulo 2^256. *)
Definition fingerprint (b : list byte) : N :=
  fold_left (fun acc x =>
               N.land (N.shiftl acc 8 + acc + Byte.to_N x + 1) (N.ones 256))
    b 0%N.

Definition digest (b : list byte) : string :=
  "0x" +:+ hex_digits 64 (fingerprint b).

Fixpoint after_slash (s : string) : option string :=
  match s with
  | EmptyString => None
  | String c r =>
      match after_slash r with
      | Some t => Some t
      | None => if Ascii.eqb c "/" then Some r else None
      end
  end.

Definition last_component (s : string) : string := default s (after_slash s).

Fixpoint last_dot_suffix (s : string) : option string :=
  match s with
  | EmptyString => None
  | String c r =>
      match last_dot_suffix r with
      | Some e => Some e
      | None => if Ascii.eqb c "." then Some s else None
      end
  end.

Definition extname (p : string) : string :=
  match last_component p with
  | String _ r => default "" (last_dot_suffix r)
  | EmptyString => ""
  end.

Fixpoint remove_suffix (ext s : string) : option string :=
  if String.eqb s ext then Some EmptyString
  else match s with
       | EmptyString => None
       | String c r => String c <$> remove_suffix ext r
       end.

Definition basename (p ext : string) : string :=
  let c := last_component p in
  if truthy_str ext && negb (String.eqb c ext)
  then default c (remove_suffix ext c)
  else c.

Fixpoint like (pat : string) : string -> bool :=
  match pat with
  | EmptyString => fun s => negb (truthy_str s)
  | String "%" pat' =>
      fix any (s : string) : bool :=
        like pat' s || match s with
                       | EmptyString => false
                       | String _ s' => any s'
                       end
  | String "_" pat' =>
      fun s => match s with
               | String _ s' => like pat' s'
               | EmptyString => false
               end
  | String c pat' =>
      fun s => match s with
               | String d s' => Ascii.eqb c d && like pat' s'
               | EmptyString => false
               end
  end.

Definition libs : Libs :=
  {| keccak256 := digest;
     PDFDocument_load := load;
     PDFDocument_save := save;
     embedPng := fun b => true;
     path_extname := extname;
     path_basename := basename;
     sql_like := like;
     sharp_composite := fun b => Some (b ++ [x01])%list |}.

End Reference.

(** ** The specification's wording, for comparison with the code *)

Module Spec.
Import Verification.

(** The watermark signal of section 4.3: the "Verified:" marker in the
    subject or the [blockchain_verified:true] token in the keywords. *)
Definition has_marker (d : pdfdoc) : bool :=
  match Subject d with
  | Some s => includes "Verified:" s
  | None => false
  end
  || match Keywords d with
     | Some k => includes "blockchain_verified:true" k
     | None => false
     end.

(** The hash the metadata carries: the keyword token, else the hash inside
    a "Verified:" subject, else a subject that starts with [0x]. *)
Definition recognizable_hash (d : pdfdoc) : option string :=
  match Keywords d ≫= match_verification_hash with
  | Some h => Some h
  | None =>
      match Subject d with
      | Some s =>
          match (if includes "Verified:" s then match_hash64 s else None) with
          | Some h => Some h
          | None => if startsWith "0x" s then Some s else None
          end
      | None => None
      end
  end.

(** [extract]: nothing from a file that does not parse; otherwise the
    hash, if any, and the watermark signal, independently of each other. *)
Definition extract (parsed : option pdfdoc) : extracted :=
  match parsed with
  | None => {| hash := None; isWatermarked := false |}
  | Some d => {| hash := recognizable_hash d; isWatermarked := has_marker d |}
  end.

(** [LedgerGateway.lookup(h).exists], failing closed: no gateway, or one
    that is not initialised, confirms nothing. *)
Definition ledger_confirms (b : option Blockchain.service) (h : string)
  : bool :=
  match b with
  | Some svc =>
      Blockchain.initialized svc
      && match Blockchain.verifyDocument svc h with
         | Ok r => Blockchain.result_verified r
         | Throw _ => false
         end
  | None => false
  end.

(** The [verified] flag of every stored record agrees with the ledger. *)
Definition verified_iff_ledger (app : locals) : Prop :=
  forall r, r ∈ db app ->
    verified r = true
    <-> ledger_confirms (blockchain app) (document_hash r) = true.

(** The lookups of step 3 as the code runs them: the embedded hash against
    [document_hash]; then the hash of the uploaded bytes against the three
    content hashes; then the filename fallback. *)
Definition by_embedded (db : list row) (embeddedHash : option string)
  : option row :=
  if truthy embeddedHash
  then List.find (fun r => String.eqb (document_hash r)
                             (default "" embeddedHash)) db
  else None.

Definition by_content (db : list row) (uploadedHash : string) : option row :=
  List.find (fun r => sql_eq (content_hash r) uploadedHash
                      || sql_eq (processed_content_hash r) uploadedHash
                      || sql_eq (watermarked_content_hash r) uploadedHash) db.

Definition by_filename `{Libs} (db : list row) (originalname : string)
  : option row :=
  let pattern := "%" +:+ fuzzy_base originalname +:+ "%" in
  head (select_by_filename db pattern pattern pattern).

Definition resolve `{Libs} (db : list row) (embeddedHash : option string)
    (uploadedHash originalname : string) : option row :=
  match by_embedded db embeddedHash with
  | Some r => Some r
  | None =>
      match by_content db uploadedHash with
      | Some r => Some r
      | None => by_filename db originalname
      end
  end.

(** One of the four hash fields of [r] equals [h]. *)
Definition any_hash_is (h : string) (r : row) : bool :=
  String.eqb (document_hash r) h || sql_eq (content_hash r) h
  || sql_eq (processed_content_hash r) h
  || sql_eq (watermarked_content_hash r) h.

(** The stored file of each variant. *)
Definition file_path_of (c : hash_column) (d : row) : option string :=
  match c with
  | col_processed_content_hash => Some (processed_file_path d)
  | col_content_hash => original_file_path d
  | col_watermarked_content_hash => watermarked_file_path d
  end.

(** [backfillMissingHashes], one variant: the digest to store, when the
    hash is absent, the path is present and the file is readable. *)
Definition fill `{Libs} (fs : filesystem) (d : row) (c : hash_column)
  : option string :=
  if truthy (get_column c d) then None
  else if truthy (file_path_of c d)
  then match readFile_opt fs (file_path_of c d) with
       | Ok b => Some (keccak256 b)
       | Throw _ => None
       end
  else None.

(** A column after the backfill of [d] has been applied to [r]. *)
Definition filled `{Libs} (fs : filesystem) (d r : row) (c : hash_column)
  : option string :=
  match fill fs d c with
  | Some h => Some h
  | None => get_column c r
  end.

(** A row without its three lazily filled columns. *)
Definition erase_hashes (d : row) : row :=
  {| id := id d; document_hash := document_hash d;
     student_name := student_name d; student_id := student_id d;
     program := program d; document_type := document_type d;
     date_issued := date_issued d;
     original_file_name := original_file_name d;
     processed_file_path := processed_file_path d;
     watermarked_file_path := watermarked_file_path d;
     original_file_path := original_file_path d;
     created_at := created_at d;
     blockchain_tx_hash := blockchain_tx_hash d;
     block_number := block_number d;
     verified := verified d;
     registrar_id := registrar_id d;
     content_hash := None;
     processed_content_hash := None;
     watermarked_content_hash := None |}.

(** Two rows that agree on every column but the three content hashes. *)
Definition same_frame (r r' : row) : Prop := erase_hashes r = erase_hashes r'.

(** The variants an upload is compared with, in priority order: the
    watermarked one only for a record with [verified = true]. *)
Definition candidates (d : row) : list (document_variant * option string) :=
  ((if verified d then [(watermarked_verified, watermarked_content_hash d)]
    else [])
   ++ [(processed, processed_content_hash d); (original, content_hash d)])%list.

(** First exact match wins. *)
Definition first_match (uploadedHash : string) (d : row)
  : option document_variant :=
  fst <$> List.find (fun c => sql_eq (snd c) uploadedHash) (candidates d).

(** The classification of step 6 as the code draws it. [uploadedPages] is
    the page count of the upload, [None] when it does not parse;
    [expectedPages] is that of the expected file, which is looked at only
    when the comparison target is the watermarked variant. *)
Definition classify (pdf : bool) (uploadedPages expectedPages : option nat)
    (isWatermarked targetWatermarked : bool) (sizeDifference : option Z)
    (sizeRatio : Q) : tamper_type * Z :=
  if pdf then
    match uploadedPages with
    | None => (STRUCTURE_CORRUPTION, 100)
    | Some n =>
        if match expectedPages with
           | Some m => negb (Nat.eqb m 0) && negb (Nat.eqb n m)
           | None => false
           end
        then (PAGE_MODIFICATION, 100)
        else if isWatermarked && negb targetWatermarked
        then (WATERMARK_MISMATCH, 85)
        else if negb isWatermarked && targetWatermarked
        then (WATERMARK_REMOVAL, 95)
        else if Qle_bool (1 # 100) sizeRatio then (CONTENT_MODIFICATION, 95)
        else (MINOR_MODIFICATION, 70)
    end
  else if match sizeDifference with Some 0 => true | _ => false end
  then (CONTENT_REPLACEMENT, 100)
  else if Qle_bool (5 # 100) sizeRatio then (MAJOR_MODIFICATION, 100)
  else (MINOR_MODIFICATION, 85).

(** The page count of a stored file, when it can be read and parsed. *)
Definition page_count `{Libs} (fs : filesystem) (p : option string)
  : option nat :=
  match p with
  | Some p =>
      if truthy_str p
      then (fun d => length (pages d)) <$> (fs !! p ≫= PDFDocument_load)
      else None
  | None => None
  end.

End Spec.

Module EncoderSpec.
Import PDFService.





(** The issuance data a filled Word template stands for: the same
    fields under the encoder's names, dated [date], without grades. *)
Definition as_course (c : template_course) : course :=
  {| courseCode := tc_code c; courseName := tc_name c;
     units := tc_units c; grade := tc_grade c |}.

Definition as_documentData (t : wordTemplateData) (date : option Z)
  : documentData :=
  {| studentId := td_student_id t; studentName := td_student_name t;
     documentType := td_documentType t;
     courseData := map as_course <$> td_courses t;
     grades := None;
     dateIssued := date;
     institutionName := td_institution t |}.

End EncoderSpec.

(** ** Runs: sequences of calls *)

Module Runs.
Import Auth.

(** Failed attempts for one user and address, one after the other, each
    with its own clock readings. *)
Definition failed_attempts (loginAttempts : store) (clocks : list readings)
    (username ip : string) : store :=
  fold_left (fun m c => fst (recordLoginAttempt m c username ip false))
    clocks loginAttempts.

(** Runs of the cleanup timer at the given times. *)
Definition cleanups (loginAttempts : store) (times : list Z) : store :=
  fold_left cleanup times loginAttempts.

(** Whether a login with [password] fails at the credentials: no active
    registrar of that name, or a password [bcrypt.compare] rejects. *)
Definition rejected (bcrypt_compare : string -> string -> bool)
    (registrars : list registrar) (username : string) (password : PDFService.jsval)
  : bool :=
  match select_registrar registrars username with
  | [] => true
  | registrar :: _ =>
      match password with
      | PDFService.JString p =>
          negb (bcrypt_compare p (registrar_password registrar))
      | _ => false
      end
  end.

(** Login requests of one user from one address, one after the other:
    each with its clock readings and the password sent. *)
Definition logins (bcrypt_compare : string -> string -> bool)
    (registrars : list registrar) (loginAttempts : store)
    (requests : list (login_clock * PDFService.jsval)) (clientIP : string)
    (username : PDFService.jsval) : store :=
  fold_left (fun m req =>
               fst (admin_login bcrypt_compare registrars m (fst req) clientIP
                      username (snd req)))
    requests loginAttempts.

End Runs.

(** ** Concrete requests *)

Module Scenario.
Import Verification Documents.

Definition h0 : string :=
  "0x00112233445566778899aabbccddeeff00112233445566778899aabbccddeeff".

Definition tx0 : string :=
  "0xfeedfacefeedfacefeedfacefeedfacefeedfacefeedfacefeedfacefeedface".

Definition blank_pdf : pdfdoc :=
  {| Subject := None; Keywords := None; Producer := None; Title := None;
     pages := [[]] |}.

(** A PDF whose subject carries the marker and no hash. *)
Definition pending_pdf : pdfdoc :=
  {| Subject := Some "Verified: pending"; Keywords := None;
     Producer := None; Title := None; pages := [[]] |}.

Definition temp : string := "uploads/temp/3f2a".

Definition fs_pending : filesystem := {[ temp := Reference.save pending_pdf ]}.

Definition fs_blank : filesystem := {[ temp := Reference.save blank_pdf ]}.

Definition stamp0 : watermarkData :=
  {| txHash := tx0; wm_block_number := Some 42;
     timestamp := "2024-01-01T00:00:00.000Z" |}.

Definition mk_row (i : Z) (h name ppath : string) : row :=
  {| id := i; document_hash := h; student_name := "Ana Cruz";
     student_id := "2021-00001"; program := "BSCS"; document_type := "TOR";
     date_issued := "2024-01-01T00:00:00.000Z"; original_file_name := name;
     processed_file_path := ppath; watermarked_file_path := None;
     original_file_path := None; created_at := i;
     blockchain_tx_hash := None; block_number := None; verified := false;
     registrar_id := None; content_hash := None;
     processed_content_hash := None; watermarked_content_hash := None |}.

(** The processed file of [h0], as [embedQRInPDF] leaves it. *)
Definition processed_pdf : pdfdoc :=
  {| Subject := Some h0; Keywords := Some ("verification_hash:" +:+ h0);
     Producer := Some "Document Verification System"; Title := None;
     pages := [qr_overlay h0] |}.

Definition processed_bytes : list byte := Reference.save processed_pdf.

(** A record that was processed and never registered. *)
Definition row0 : row :=
  set_column col_processed_content_hash (Reference.digest processed_bytes)
    (mk_row 1 h0 "diploma.pdf" (processed_path h0)).

Definition upload0 : upload :=
  {| path := temp; originalname := "diploma.pdf";
     mimetype := "application/pdf" |}.

Definition fs0 : filesystem :=
  <[temp := processed_bytes]> {[ processed_path h0 := processed_bytes ]}.

Definition chain_empty : Blockchain.service :=
  {| Blockchain.initialized := true; Blockchain.signer := true;
     Blockchain.contract := [] |}.

Definition unregistered : locals :=
  {| db := [row0]; blockchain := Some chain_empty |}.

(** A gateway whose contract holds [h0]. *)
Definition chain_h0 : Blockchain.service :=
  {| Blockchain.initialized := true; Blockchain.signer := true;
     Blockchain.contract := [(h0, 1704067200)] |}.

Definition extracted0 : extracted :=
  {| hash := Some h0; isWatermarked := false |}.

(** A record whose three stored hashes all equal the uploaded one, and
    whose [verified] flag is false. *)
Definition row_all : row :=
  set_column col_watermarked_content_hash h0
    (set_column col_processed_content_hash h0
       (set_column col_content_hash h0
          (mk_row 2 tx0 "diploma.pdf" (processed_path tx0)))).

(** The same processed file with a second page. *)
Definition two_page_pdf : pdfdoc :=
  {| Subject := Some h0; Keywords := Some ("verification_hash:" +:+ h0);
     Producer := Some "Document Verification System"; Title := None;
     pages := [qr_overlay h0; []] |}.

Definition row_two_pages : row :=
  set_column col_processed_content_hash
    (Reference.digest (Reference.save two_page_pdf))
    (mk_row 3 h0 "diploma.pdf" (processed_path h0)).

Definition fs_two_pages : filesystem :=
  {[ processed_path h0 := Reference.save two_page_pdf ]}.

(** A record known by its content hash [tx0]; an upload named scan.pdf
    whose metadata carries [tx0]. *)
Definition row_content : row :=
  set_column col_content_hash tx0
    (mk_row 4 h0 "diploma.pdf" (processed_path h0)).

Definition carrier_pdf : pdfdoc :=
  {| Subject := Some tx0; Keywords := Some ("verification_hash:" +:+ tx0);
     Producer := None; Title := None; pages := [[]] |}.

Definition fs_carrier : filesystem := {[ temp := Reference.save carrier_pdf ]}.

Definition upload_scan : upload :=
  {| path := temp; originalname := "scan.pdf";
     mimetype := "application/pdf" |}.

(** A record whose [document_hash] is the digest of an image; that image
    uploaded under another name. *)
Definition photo : list byte := [x89; x50; x4e; x47].

Definition row_photo : row :=
  mk_row 5 (Reference.digest photo) "id-card.png" "uploads/processed/id.png".

Definition fs_photo : filesystem := {[ temp := photo ]}.

Definition upload_photo : upload :=
  {| path := temp; originalname := "holiday.png"; mimetype := "image/png" |}.

(** A record stored under a placeholder identifier, and a run of
    [POST /finalize] for it with the gateway connected. *)
Definition row_pending : row :=
  mk_row 7 "pending_hash" "request.pdf" "uploads/processed/pending_hash.pdf".

Definition pending : locals :=
  {| db := [row_pending]; blockchain := Some chain_empty |}.

Definition env0 : finalize_env :=
  {| now_iso := "2024-01-01T00:00:00.000Z"; random_tx := "0x3f2a";
     random_block := 4711;
     mined := Some {| Blockchain.tx_hash := tx0; Blockchain.blockNumber := 12;
                      Blockchain.block_timestamp := 1704067200 |} |}.



(** An upload of a one-page PDF against a stored two-page file. *)
Definition fs_mismatch : filesystem := <[temp := processed_bytes]> fs_two_pages.

Definition registered_two_pages : locals :=
  {| db := [row_two_pages]; blockchain := Some chain_h0 |}.

(** A record whose processed file is the image [photo], never
    registered; the upload is that very file. *)
Definition row_image : row :=
  set_column col_processed_content_hash (Reference.digest photo)
    (mk_row 6 h0 "id-card.png" "uploads/processed/id.png").

Definition fs_image : filesystem :=
  <[temp := photo]> {[ "uploads/processed/id.png" := photo ]}.

Definition unregistered_image : locals :=
  {| db := [row_image]; blockchain := Some chain_empty |}.

Definition upload_image : upload :=
  {| path := temp; originalname := "id-card.png"; mimetype := "image/png" |}.

Definition no_metadata : extracted :=
  {| hash := None; isWatermarked := false |}.

(** The processed file of [h0] with the stamp of [stamp0], as
    [addWatermarkToPDF] leaves it. *)
Definition stamped_pdf : pdfdoc :=
  {| Subject := Some ("Blockchain Verified: " +:+ tx0);
     Keywords :=
       Some (join " " ["verification_hash:" +:+ tx0; "block_number:42";
                       "blockchain_verified:true"; "watermarked:true";
                       "original_copy:stamped"]);
     Producer := Some "Document Verification System - Original Stamped Copy";
     Title := Some "ORIGINAL - Blockchain Verified";
     pages := [(qr_overlay h0 ++ stamp stamp0)%list] |}.

(** A store with no record and a working gateway: the state a first
    document is issued in. *)
Definition empty_app : locals :=
  {| db := []; blockchain := Some chain_empty |}.

(** An upload named after a stored processed file. *)
Definition hash_named : string := h0 +:+ ".pdf".

(** A filled Word template, dated 1970-01-01T00:00:00.000Z. *)
Definition word_template : PDFService.wordTemplateData :=
  {| PDFService.td_student_name := PDFService.JString "Ana Cruz";
     PDFService.td_student_id := PDFService.JString "2021-00001";
     PDFService.td_documentType := PDFService.JString "TOR";
     PDFService.td_institution := PDFService.JString "State University";
     PDFService.td_courses := None;
     PDFService.td_issue_date :=
       PDFService.JString "1970-01-01T00:00:00.000Z" |}.

(** Login attempts of [admin] from one address. *)
Definition admin_ip : string := "10.0.0.7".

Definition tick (t : Z) : Auth.readings :=
  {| Auth.at_first := t; Auth.at_last := t; Auth.at_lock := t |}.

Definition request_at (t : Z) (password : string)
  : Auth.login_clock * PDFService.jsval :=
  ({| Auth.at_check := t; Auth.at_remaining := t; Auth.at_record := tick t;
      Auth.at_report := t |}, PDFService.JString password).

Definition registrars0 : list Auth.registrar :=
  [{| Auth.registrar_id := 1; Auth.registrar_username := "admin";
      Auth.registrar_password := "correct horse 1"; Auth.is_active := true |}].

(** Four failures on record, none of them locking. *)
Definition four_failures : Auth.attempts :=
  {| Auth.count := 4; Auth.firstAttempt := 1000;
     Auth.lastAttempt := Some 4000; Auth.lockedUntil := None |}.

(** An image uploaded under the name the placeholder record was filed
    with. *)
Definition upload_request : upload :=
  {| path := temp; originalname := "request.pdf"; mimetype := "image/png" |}.

End Scenario.

(** * Properties *)

(** ** Strings *)

Section Strings.

Lemma take_hex_app d rest :
  all_hex d = true -> take_hex (String.length d) (d +:+ rest) = Some d.
Proof.
  induction d as [|c d IH]; simpl; [done|].
  intros [Hc Hd]%andb_true_iff. rewrite Hc, (IH Hd). done.
Qed.

Lemma is_hash_inv h :
  is_hash h = true ->
  exists d, h = String "0" (String "x" d)
            /\ String.length d = 64%nat /\ all_hex d = true.
Proof.
  destruct h as [|a [|b d]]; simpl; try done.
  - destruct a as [[] [] [] [] [] [] [] []]; done.
  - destruct a as [[] [] [] [] [] [] [] []]; try done.
    destruct b as [[] [] [] [] [] [] [] []]; try done.
    intros [Hl Hd]%andb_true_iff. exists d.
    split; [done|]. split; [by apply Nat.eqb_eq|done].
Qed.

Lemma hash64_at_hash h rest :
  is_hash h = true -> hash64_at (h +:+ rest) = Some h.
Proof.
  intros (d & -> & Hl & Hd)%is_hash_inv.
  change (hash64_at (String "0" (String "x" (d +:+ rest)))
          = Some (String "0" (String "x" d))).
  unfold hash64_at. rewrite <- Hl at 1. by rewrite take_hex_app.
Qed.

Lemma append_cons c s t : String c s +:+ t = String c (s +:+ t).
Proof. reflexivity. Qed.

Lemma append_empty_r s : s +:+ "" = s.
Proof.
  induction s as [|c s IH]; [done|]. by rewrite append_cons, IH.
Qed.

Lemma hash64_at_exact h : is_hash h = true -> hash64_at h = Some h.
Proof.
  intros Hh. rewrite <- (append_empty_r h) at 1. by apply hash64_at_hash.
Qed.

Lemma all_hex_hexish d : all_hex d = true -> all_hexish d = true.
Proof.
  induction d as [|c d IH]; simpl; [done|].
  intros [Hc Hd]%andb_true_iff. unfold hexish. rewrite Hc, (IH Hd). done.
Qed.

Lemma is_hash_hexish h : is_hash h = true -> all_hexish h = true.
Proof.
  intros (d & -> & _ & Hd)%is_hash_inv. simpl. by apply all_hex_hexish.
Qed.

Lemma hexish_not_V c : hexish c = true -> Ascii.eqb "V" c = false.
Proof. destruct c as [[] [] [] [] [] [] [] []]; done. Qed.

Lemma hexish_not_l c : hexish c = true -> Ascii.eqb "l" c = false.
Proof. destruct c as [[] [] [] [] [] [] [] []]; done. Qed.

Lemma prefix_cons a p b s :
  String.prefix (String a p) (String b s)
  = if Ascii.eqb a b then String.prefix p s else false.
Proof.
  simpl. destruct (Ascii.eqb_spec a b) as [->|Hne].
  - destruct (ascii_dec b b); [done|congruence].
  - destruct (ascii_dec a b); [congruence|done].
Qed.

Lemma includes_Verified_hexish s :
  all_hexish s = true -> includes "Verified:" s = false.
Proof.
  unfold includes. induction s as [|c s IH]; [done|].
  simpl all_hexish. intros [Hc Hs]%andb_true_iff.
  cbn [search]. rewrite prefix_cons, (hexish_not_V c Hc).
  by apply IH.
Qed.

Lemma includes_token_hexish s :
  all_hexish s = true -> includes "blockchain_verified:true" s = false.
Proof.
  unfold includes. induction s as [|c s IH]; [done|].
  simpl all_hexish. intros [Hc Hs]%andb_true_iff.
  cbn [search]. rewrite prefix_cons.
  destruct (Ascii.eqb "b" c); [|by apply IH].
  destruct s as [|c' s']; [done|].
  rewrite prefix_cons. simpl in Hs. apply andb_true_iff in Hs as [Hc' Hs'].
  rewrite (hexish_not_l c' Hc'). apply IH. simpl. by rewrite Hc', Hs'.
Qed.

End Strings.

(** ** The hash extractor *)

Section Extractor.
Context `{Libs}.
Import Verification.

Lemma includes_empty needle :
  includes needle "" = negb (truthy_str needle).
Proof. by destruct needle. Qed.

Lemma match_verification_hash_empty : match_verification_hash "" = None.
Proof. reflexivity. Qed.

Lemma match_hash64_empty : match_hash64 "" = None.
Proof. reflexivity. Qed.

Lemma startsWith_empty p : startsWith p "" = negb (truthy_str p).
Proof. by destruct p. Qed.

Lemma extract_body_parsed fs p b d :
  fs !! p = Some b -> PDFDocument_load b = Some d ->
  extract_body fs p = Ok (Spec.extract (Some d)).
Proof.
  intros Hb Hd.
  unfold extract_body, readFile, load_pdf, mbind, res_bind, bind.
  rewrite Hb, Hd.
  unfold Spec.extract, Spec.recognizable_hash, Spec.has_marker.
  destruct (Subject d) as [[|a s]|], (Keywords d) as [[|c k]|];
    cbn [truthy_str andb mbind option_bind];
    rewrite ?includes_empty, ?match_verification_hash_empty,
      ?match_hash64_empty, ?startsWith_empty;
    cbv beta iota zeta; cbn [truthy_str negb andb orb];
    repeat match goal with
           | |- context [includes ?n (String ?a ?s)] =>
               destruct (includes n (String a s))
           | |- context [match_verification_hash ?k] =>
               destruct (match_verification_hash k)
           | |- context [match_hash64 ?k] => destruct (match_hash64 k)
           | |- context [startsWith ?n ?k] => destruct (startsWith n k)
           end; reflexivity.
Qed.

Lemma extractHashFromPDF_spec fs p :
  extractHashFromPDF fs p
  = Ok (Spec.extract (fs !! p ≫= PDFDocument_load)).
Proof.
  unfold extractHashFromPDF.
  destruct (fs !! p) as [b|] eqn:Hb.
  - cbn [mbind option_bind].
    destruct (PDFDocument_load b) as [d|] eqn:Hd.
    + by rewrite (extract_body_parsed fs p b d).
    + unfold extract_body, readFile, load_pdf, mbind, res_bind, bind.
      by rewrite Hb, Hd.
  - unfold extract_body, readFile, mbind, res_bind, bind. by rewrite Hb.
Qed.

(** C10, as amended. The extractor always resolves to a record: nothing
    ([hash = null], [isWatermarked = false]) when the file cannot be read
    or parsed, and otherwise the hash the metadata carries, if any,
    together with the watermark signal, which does not depend on a hash
    being found. *)
Theorem extractHashFromPDF_total fs p :
  extractHashFromPDF fs p
  = Ok (Spec.extract (fs !! p ≫= PDFDocument_load)).
Proof. apply extractHashFromPDF_spec. Qed.

End Extractor.

(** C10, as stated, fails: a PDF whose subject is "Verified: pending"
    carries no recognizable hash, and the extractor answers
    [isWatermarked = true] for it. *)
Lemma extract_marker_without_hash :
  Spec.recognizable_hash Scenario.pending_pdf = None
  /\ Verification.extractHashFromPDF (H := Reference.libs)
       Scenario.fs_pending Scenario.temp
     = Ok {| Verification.hash := None; Verification.isWatermarked := true |}.
Proof. split; vm_compute; reflexivity. Qed.

(** ** Embedding and extraction *)

Section Embedding.
Context `{Libs}.
Import Verification Documents.

Lemma includes_cons needle c s :
  includes needle (String c s)
  = if String.prefix needle (String c s) then true else includes needle s.
Proof.
  unfold includes. cbn [search].
  by destruct (String.prefix needle (String c s)).
Qed.

Lemma prefix_app_l n a b :
  String.prefix n a = true -> String.prefix n (a +:+ b) = true.
Proof.
  revert a. induction n as [|c n IH]; intros a;
    [by destruct (a +:+ b)|].
  destruct a as [|c' a]; [done|].
  rewrite append_cons, !prefix_cons.
  destruct (Ascii.eqb c c'); [apply IH|done].
Qed.

Lemma includes_app_l n a b :
  includes n a = true -> includes n (a +:+ b) = true.
Proof.
  induction a as [|c a IH].
  - rewrite includes_empty. destruct n; [|done]. intros _.
    destruct b; reflexivity.
  - rewrite append_cons, !includes_cons.
    destruct (String.prefix n (String c a)) eqn:Hp.
    + intros _. rewrite <- append_cons. by rewrite (prefix_app_l _ _ b Hp).
    + intros Ha. rewrite (IH Ha).
      by destruct (String.prefix n (String c (a +:+ b))).
Qed.

Lemma search_here {A} (at_pos : string -> option A) s r :
  at_pos s = Some r -> search at_pos s = Some r.
Proof. intros Hs. destruct s; cbn [search]; by rewrite Hs. Qed.

Lemma strip_prefix_app p s : strip_prefix p (p +:+ s) = Some s.
Proof.
  induction p as [|c p IH]; [done|].
  rewrite append_cons. cbn [strip_prefix]. by rewrite Ascii.eqb_refl.
Qed.

Lemma match_verification_hash_token h :
  is_hash h = true ->
  match_verification_hash ("verification_hash:" +:+ h) = Some h.
Proof.
  intros Hh. unfold match_verification_hash. apply search_here.
  by rewrite strip_prefix_app, (hash64_at_exact h Hh).
Qed.

Lemma includes_token_keywords h :
  is_hash h = true ->
  includes "blockchain_verified:true" ("verification_hash:" +:+ h) = false.
Proof.
  intros Hh.
  change ("verification_hash:" +:+ h)
    with (String "v" (String "e" (String "r" (String "i" (String "f"
         (String "i" (String "c" (String "a" (String "t" (String "i"
         (String "o" (String "n" (String "_" (String "h" (String "a"
         (String "s" (String "h" (String ":" h)))))))))))))))))).
  repeat (rewrite includes_cons, prefix_cons; cbn [Ascii.eqb Bool.eqb]).
  apply includes_token_hexish. by apply is_hash_hexish.
Qed.

(** What the extractor reads from a document that carries the metadata
    [embedQRInPDF] writes. *)
Lemma extract_embedded d h :
  is_hash h = true ->
  Subject d = Some h -> Keywords d = Some ("verification_hash:" +:+ h) ->
  Spec.extract (Some d) = {| hash := Some h; isWatermarked := false |}.
Proof.
  intros Hh Hs Hk. unfold Spec.extract, Spec.recognizable_hash, Spec.has_marker.
  rewrite Hs, Hk. cbn [mbind option_bind].
  rewrite (match_verification_hash_token h Hh).
  rewrite (includes_Verified_hexish h (is_hash_hexish h Hh)).
  by rewrite (includes_token_keywords h Hh).
Qed.

(** What it reads from a document stamped by [addWatermarkToPDF]. *)
Lemma extract_stamped d tx :
  Subject d = Some ("Blockchain Verified: " +:+ tx) ->
  isWatermarked (Spec.extract (Some d)) = true.
Proof.
  intros Hs. unfold Spec.extract, Spec.has_marker. cbn [isWatermarked].
  rewrite Hs. by rewrite (includes_app_l "Verified:" "Blockchain Verified: " tx).
Qed.

(** C4. Extraction recovers the embedded hash: for every well-formed hash
    [h], the file [embedQRInPDF] writes (subject [h], keywords
    [verification_hash:h]) is read back as [hash = h] with
    [isWatermarked = false]; and every file [addWatermarkToPDF] writes is
    read back with [isWatermarked = true]. *)
Theorem embed_extract_roundtrip :
  metadata_survives ->
  (forall fs pdfPath qrCodeBuffer h fs' out,
      is_hash h = true ->
      embedQRInPDF fs pdfPath qrCodeBuffer h = Ok (fs', out) ->
      extractHashFromPDF fs' out
      = Ok {| hash := Some h; isWatermarked := false |}
      /\ exists d',
          fs' !! out ≫= PDFDocument_load = Some d'
          /\ Subject d' = Some h
          /\ Keywords d' = Some ("verification_hash:" +:+ h))
  /\ (forall fs inputPath outputPath w fs' out,
         addWatermarkToPDF fs inputPath outputPath w = Ok (fs', out) ->
         exists r, extractHashFromPDF fs' out = Ok r
                   /\ isWatermarked r = true).
Proof.
  intros Hsurv. split.
  - intros fs pdfPath qr h fs' out Hh.
    unfold embedQRInPDF, readFile, load_pdf, mbind, res_bind, bind.
    destruct (fs !! pdfPath) as [b|]; [|done].
    destruct (PDFDocument_load b) as [d|]; [|done].
    destruct (embedPng qr); cbn [negb]; [|done].
    cbn [pages setProducer setKeywords setSubject].
    destruct (pages d) as [|firstPage others]; [done|].
    intros [= <- <-].
    rewrite extractHashFromPDF_spec, lookup_insert_eq. cbn [mbind option_bind].
    match goal with
    | |- context [PDFDocument_load (PDFDocument_save ?x)] =>
        destruct (Hsurv x) as (d' & -> & Hs & Hk)
    end.
    cbn [option_bind]. split; [f_equal; by apply extract_embedded|].
    by exists d'.
  - intros fs inputPath outputPath w fs' out.
    unfold addWatermarkToPDF, readFile, load_pdf, mbind, res_bind, bind.
    destruct (fs !! inputPath) as [b|]; [|done].
    destruct (PDFDocument_load b) as [d|]; [|done].
    intros [= <- <-].
    rewrite extractHashFromPDF_spec, lookup_insert_eq. cbn [mbind option_bind].
    match goal with
    | |- context [PDFDocument_load (PDFDocument_save ?x)] =>
        destruct (Hsurv x) as (d' & -> & Hs & Hk)
    end.
    eexists; split; [reflexivity|].
    by apply (extract_stamped d' (txHash w)).
Qed.

End Embedding.

Lemma bytes_to_pos_to_bytes p :
  Reference.bytes_to_pos (Reference.pos_to_bytes p) = Some p.
Proof. induction p as [p IH|p IH|]; simpl; by rewrite ?IH. Qed.

Lemma reference_load_save d : Reference.load (Reference.save d) = Some d.
Proof.
  unfold Reference.load, Reference.save. rewrite bytes_to_pos_to_bytes.
  cbn [mbind option_bind]. apply decode_encode.
Qed.

Lemma reference_metadata_survives : metadata_survives (H := Reference.libs).
Proof. intros d. exists d. by rewrite <- (reference_load_save d) at 1. Qed.

(** The round trip on a request: a blank one-page PDF, hash [h0]. *)
Lemma embed_extract_roundtrip_witness :
  Verification.extractHashFromPDF (H := Reference.libs)
    (<[Documents.processed_path Scenario.h0 :=
         Reference.save
           {| Subject := Some Scenario.h0;
              Keywords := Some ("verification_hash:" +:+ Scenario.h0);
              Producer := Some "Document Verification System";
              Title := None;
              pages := [Documents.qr_overlay Scenario.h0] |}]>
       Scenario.fs_blank)
    (Documents.processed_path Scenario.h0)
  = Ok {| Verification.hash := Some Scenario.h0;
          Verification.isWatermarked := false |}.
Proof.
  apply (proj1 (embed_extract_roundtrip (H := Reference.libs)
                  reference_metadata_survives)
           Scenario.fs_blank Scenario.temp [] Scenario.h0 _ _).
  - reflexivity.
  - unfold Documents.embedQRInPDF, readFile, load_pdf, mbind, res_bind, bind.
    unfold Scenario.fs_blank. rewrite lookup_singleton_eq.
    cbn [PDFDocument_load Reference.libs].
    rewrite reference_load_save. reflexivity.
Defined.

(** ** Backfill of the content hashes *)

Section Backfill.
Context `{Libs}.
Import Verification.

Lemma get_set_column c c' v d :
  get_column c (set_column c' v d)
  = if decide (c = c') then Some v else get_column c d.
Proof. destruct c, c'; reflexivity. Qed.

Lemma erase_set_column c v d :
  Spec.erase_hashes (set_column c v d) = Spec.erase_hashes d.
Proof. destruct c; reflexivity. Qed.

Lemma erase_apply_updates ups d :
  Spec.erase_hashes (apply_updates ups d) = Spec.erase_hashes d.
Proof.
  unfold apply_updates. revert d.
  induction ups as [|u ups IH]; intros d; [done|].
  cbn [fold_left]. by rewrite IH, erase_set_column.
Qed.

Lemma backfill_step_fill fs c d0 d ups :
  get_column c d0 = get_column c d ->
  backfill_step fs c (Spec.file_path_of c d) (d0, ups)
  = match Spec.fill fs d c with
    | Some h => (set_column c h d0, (ups ++ [(c, h)])%list)
    | None => (d0, ups)
    end.
Proof.
  intros Hc. unfold backfill_step, Spec.fill. rewrite Hc.
  destruct (truthy (get_column c d)); cbn [negb andb]; [done|].
  destruct (truthy (Spec.file_path_of c d)); [|done].
  by destruct (readFile_opt fs (Spec.file_path_of c d)).
Qed.

(** The three steps of [updateDocumentHashes], by what each variant's
    backfill decides. *)
Lemma updateDocumentHashes_steps fs d db :
  exists ups,
    updateDocumentHashes fs d db
    = (apply_updates ups d,
       match ups with
       | [] => db
       | _ :: _ => update_hashes db ups (document_hash d)
       end, ups)
    /\ forall r c, get_column c (apply_updates ups r) = Spec.filled fs d r c.
Proof.
  unfold updateDocumentHashes.
  change (Some (processed_file_path d))
    with (Spec.file_path_of col_processed_content_hash d).
  change (original_file_path d) with (Spec.file_path_of col_content_hash d).
  change (watermarked_file_path d)
    with (Spec.file_path_of col_watermarked_content_hash d).
  rewrite (backfill_step_fill fs col_processed_content_hash d d []); [|done].
  unfold Spec.filled.
  destruct (Spec.fill fs d col_processed_content_hash) as [h1|] eqn:E1;
    (rewrite (backfill_step_fill fs col_content_hash _ d); [|done]);
    destruct (Spec.fill fs d col_content_hash) as [h2|] eqn:E2;
    (rewrite (backfill_step_fill fs col_watermarked_content_hash _ d);
       [|done]);
    destruct (Spec.fill fs d col_watermarked_content_hash) as [h3|] eqn:E3;
    cbn [app];
    match goal with
    | |- exists ups, (_, _, ?u) = _ /\ _ => exists u
    end; (split; [reflexivity|]); intros r [];
    rewrite ?E1, ?E2, ?E3; reflexivity.
Qed.

Lemma updateDocumentHashes_effect fs d db :
  exists d' db' ups,
    updateDocumentHashes fs d db = (d', db', ups)
    /\ (forall c, get_column c d' = Spec.filled fs d d c)
    /\ Spec.same_frame d d'
    /\ Forall2 (fun r r' =>
                  Spec.same_frame r r'
                  /\ forall c,
                      get_column c r'
                      = if String.eqb (document_hash r) (document_hash d)
                        then Spec.filled fs d r c
                        else get_column c r) db db'.
Proof.
  destruct (updateDocumentHashes_steps fs d db) as (ups & -> & Hget).
  eexists _, _, _. split; [reflexivity|]. split; [done|].
  split; [unfold Spec.same_frame; by rewrite erase_apply_updates|].
  assert (Hups : forall r,
             Spec.same_frame r
               (if String.eqb (document_hash r) (document_hash d)
                then apply_updates ups r else r)
             /\ forall c,
                 get_column c
                   (if String.eqb (document_hash r) (document_hash d)
                    then apply_updates ups r else r)
                 = if String.eqb (document_hash r) (document_hash d)
                   then Spec.filled fs d r c
                   else get_column c r).
  { intros r. destruct (String.eqb (document_hash r) (document_hash d)).
    - split; [unfold Spec.same_frame; by rewrite erase_apply_updates|done].
    - done. }
  destruct ups as [|u ups].
  - induction db as [|r db IH]; constructor; [|done].
    split; [done|]. intros c. specialize (Hget r c). cbn in Hget.
    rewrite <- Hget. by destruct (String.eqb _ _).
  - unfold update_hashes. induction db as [|r db IH]; constructor; [|done].
    apply Hups.
Qed.


(** C7. For each of the three variants, a hash that is absent while the
    file path is present and the file readable is computed and stored; an
    unreadable file leaves its hash absent while the other variants are
    still processed; a hash that is present is left unchanged. The call
    always completes, and touches no other column and no other record. *)
Theorem updateDocumentHashes_backfill fs d db :
  exists d' db' ups,
    updateDocumentHashes fs d db = (d', db', ups)
    /\ (forall c, get_column c d' = Spec.filled fs d d c)
    /\ Spec.same_frame d d'
    /\ Forall2 (fun r r' =>
                  Spec.same_frame r r'
                  /\ forall c,
                      get_column c r'
                      = if String.eqb (document_hash r) (document_hash d)
                        then Spec.filled fs d r c
                        else get_column c r) db db'.
Proof. apply updateDocumentHashes_effect. Qed.

(** The three cases of the backfill of one variant. *)
Lemma fill_present fs d c :
  truthy (get_column c d) = true -> Spec.filled fs d d c = get_column c d.
Proof. intros Hc. unfold Spec.filled, Spec.fill. by rewrite Hc. Qed.

Lemma fill_readable fs d c p b :
  truthy (get_column c d) = false ->
  Spec.file_path_of c d = Some p -> truthy_str p = true ->
  fs !! p = Some b ->
  Spec.filled fs d d c = Some (keccak256 b).
Proof.
  intros Hc Hp Ht Hb. unfold Spec.filled, Spec.fill.
  rewrite Hc, Hp. cbn [truthy readFile_opt]. rewrite Ht.
  unfold readFile. by rewrite Hb.
Qed.

Lemma fill_unreadable fs d c :
  truthy (get_column c d) = false ->
  (forall p, Spec.file_path_of c d = Some p -> fs !! p = None) ->
  Spec.filled fs d d c = get_column c d.
Proof.
  intros Hc Hp. unfold Spec.filled, Spec.fill. rewrite Hc.
  destruct (Spec.file_path_of c d) as [p|]; [|done].
  cbn [truthy readFile_opt]. unfold readFile. rewrite (Hp p eq_refl).
  by destruct (truthy_str p).
Qed.

End Backfill.

(** ** Exact match and tamper classification *)

Section Integrity.
Context `{Libs}.
Import Verification.

Lemma sql_eq_true col v : sql_eq col v = true -> col = Some v.
Proof.
  destruct col as [s|]; [|done]. cbn. by intros ->%String.eqb_eq.
Qed.

Lemma same_hash_truthy u col :
  truthy_str u = true ->
  truthy col && same_hash u col = sql_eq col u.
Proof.
  intros Hu. unfold same_hash. destruct (sql_eq col u) eqn:E.
  - apply sql_eq_true in E as ->. cbn. by rewrite Hu.
  - by rewrite andb_false_r.
Qed.

(** C2. With a non-empty uploaded hash, the comparison runs in priority
    order: the watermarked hash first, and only for a record whose
    [verified] flag is true, then the processed hash, then the content
    hash. The first exact match makes the result authentic, with
    [documentType] naming the matched variant and confidence 100, and the
    route reports AUTHENTIC for it; without a match the upload goes to the
    tamper classifier. *)
Theorem exact_match_priority fs uploadedBuffer uploadedHash d mimeType w
    doc t e :
  truthy_str uploadedHash = true ->
  let r := verifyDocumentIntegrity fs uploadedBuffer uploadedHash d mimeType w in
  match Spec.first_match uploadedHash d with
  | Some v =>
      authentic r = true /\ tampered r = false
      /\ documentType r = Some v /\ confidence r = Some 100
      /\ expectedHash r = Some uploadedHash
      /\ verificationStatus (verdict_body doc (with_blockchain t r) e w)
         = AUTHENTIC
  | None =>
      r = detectTamperingWithWatermarkAwareness fs uploadedBuffer uploadedHash
            d mimeType w
  end.
Proof.
  intros Hu r. subst r.
  unfold verifyDocumentIntegrity, Spec.first_match, Spec.candidates.
  rewrite <- !andb_assoc, !(same_hash_truthy uploadedHash _ Hu).
  destruct (verified d); cbn [andb app List.find snd fst fmap option_fmap option_map].
  - destruct (sql_eq (watermarked_content_hash d) uploadedHash) eqn:E1.
    { apply sql_eq_true in E1. by rewrite E1. }
    destruct (sql_eq (processed_content_hash d) uploadedHash) eqn:E2.
    { apply sql_eq_true in E2. by rewrite E2. }
    destruct (sql_eq (content_hash d) uploadedHash) eqn:E3; [|done].
    apply sql_eq_true in E3. by rewrite E3.
  - destruct (sql_eq (processed_content_hash d) uploadedHash) eqn:E2.
    { apply sql_eq_true in E2. by rewrite E2. }
    destruct (sql_eq (content_hash d) uploadedHash) eqn:E3; [|done].
    apply sql_eq_true in E3. by rewrite E3.
Qed.

Lemma expected_page_count_spec fs d vt :
  expected_page_count fs d vt
  = if is_watermarked_version vt
    then Spec.page_count fs (watermarked_file_path d)
    else None.
Proof.
  unfold expected_page_count, Spec.page_count.
  destruct (is_watermarked_version vt); [|done]. cbn [andb].
  destruct (watermarked_file_path d) as [p|]; [|done].
  cbn [truthy readFile_opt]. destruct (truthy_str p); [|done].
  unfold readFile, load_pdf, mbind, res_bind, bind.
  destruct (fs !! p) as [b|]; [|done]. cbn [option_bind].
  by destruct (PDFDocument_load b).
Qed.

Lemma Qltb_le a b : Qltb a b = negb (Qle_bool b a).
Proof. reflexivity. Qed.

(** C3, as amended. Every result of the classifier carries
    [authentic: false] and [tampered: true]; [sizeRatio] is
    |uploadedSize - expectedSize| / expectedSize, and 1 when the expected
    size is 0 or unknown; tag and confidence are those of [Spec.classify]:
    for a PDF, STRUCTURE_CORRUPTION 100 when the upload does not parse,
    PAGE_MODIFICATION 100 when the comparison target is the watermarked
    file and its page count differs, then WATERMARK_MISMATCH 85 for a
    self-reported watermark with a target that is not the watermarked
    variant, WATERMARK_REMOVAL 95 for the converse, MINOR_MODIFICATION 70
    under a ratio of 0.01 and CONTENT_MODIFICATION 95 otherwise; for any
    other type CONTENT_REPLACEMENT 100 at equal size, MINOR_MODIFICATION 85
    under a ratio of 0.05, MAJOR_MODIFICATION 100 otherwise. *)
Theorem tamper_classification fs uploadedBuffer uploadedHash d mimeType w :
  let r := detectTamperingWithWatermarkAwareness fs uploadedBuffer
             uploadedHash d mimeType w in
  let uploadedSize := Z.of_nat (length uploadedBuffer) in
  let target := expected_target fs d in
  let versionType := snd target in
  let expectedSize := snd (fst target) in
  authentic r = false /\ tampered r = true
  /\ sizeRatio r = Some (size_ratio uploadedSize expectedSize)
  /\ (size_ratio uploadedSize expectedSize
      = match expectedSize with
        | Some (Zpos e) => Z.abs (uploadedSize - Zpos e) # e
        | _ => 1
        end)%Q
  /\ (tamperType r, confidence r)
     = (let '(tag, c) :=
          Spec.classify (String.eqb mimeType "application/pdf")
            ((fun p => length (pages p)) <$> PDFDocument_load uploadedBuffer)
            (if is_watermarked_version versionType
             then Spec.page_count fs (watermarked_file_path d) else None)
            w (is_watermarked_version versionType)
            (size_difference uploadedSize expectedSize)
            (size_ratio uploadedSize expectedSize) in
        (Some tag, Some c)).
Proof.
  intros r uploadedSize target versionType expectedSize.
  subst r versionType expectedSize target.
  unfold detectTamperingWithWatermarkAwareness.
  destruct (expected_target fs d) as [[eh es] vt]. cbn [fst snd].
  fold uploadedSize.
  assert (Hcls :
    (if String.eqb mimeType "application/pdf"
     then classify_pdf fs uploadedBuffer d w vt (size_ratio uploadedSize es)
     else classify_other (size_difference uploadedSize es)
            (size_ratio uploadedSize es))
    = Spec.classify (String.eqb mimeType "application/pdf")
        ((fun p => length (pages p)) <$> PDFDocument_load uploadedBuffer)
        (if is_watermarked_version vt
         then Spec.page_count fs (watermarked_file_path d) else None)
        w (is_watermarked_version vt) (size_difference uploadedSize es)
        (size_ratio uploadedSize es)).
  { unfold Spec.classify, classify_pdf, classify_other, load_pdf.
    rewrite expected_page_count_spec, !Qltb_le.
    destruct (String.eqb mimeType "application/pdf").
    - destruct (PDFDocument_load uploadedBuffer) as [up|];
        cbn [fmap option_fmap option_map]; [|done].
      destruct (Qle_bool (1 # 100) (size_ratio uploadedSize es)); cbn [negb].
      all: repeat match goal with
             | |- context [if ?b then _ else _] => destruct b
             end; reflexivity.
    - destruct (size_difference uploadedSize es) as [[| |]|];
        cbn [Z.eqb];
        destruct (Qle_bool (5 # 100) (size_ratio uploadedSize es));
        cbn [negb];
        repeat match goal with
               | |- context [if ?b then _ else _] => destruct b
               end; reflexivity. }
  rewrite Hcls.
  destruct (Spec.classify _ _ _ _ _ _ _) as [tag c]. cbn.
  repeat split.
  unfold size_ratio. destruct es as [[|e|e]|]; reflexivity.
Qed.

End Integrity.

(** ** The upload route *)

Section Route.
Context `{Libs}.
Import Verification.

Lemma head_filter_find {A} (f : A -> bool) l :
  head (List.filter f l) = List.find f l.
Proof.
  induction l as [|x l IH]; [done|]. cbn [List.filter List.find].
  by destruct (f x).
Qed.

Lemma resolve_document_result db e u name :
  fst (resolve_document db e u name) = Spec.resolve db e u name.
Proof.
  unfold resolve_document, Spec.resolve, Spec.by_embedded, Spec.by_content,
    Spec.by_filename, select_by_document_hash, select_by_content_hash.
  rewrite !head_filter_find.
  destruct (truthy e).
  - destruct (List.find _ db) as [r|]; [done|].
    by destruct (List.find _ db).
  - by destruct (List.find _ db).
Qed.

Lemma resolve_document_queries db e u name :
  Forall (fun ev => is_query ev = true) (snd (resolve_document db e u name)).
Proof.
  unfold resolve_document.
  destruct (truthy e).
  - destruct (head (select_by_document_hash db (default "" e)));
      [repeat constructor|].
    destruct (head (select_by_content_hash db u u u)); repeat constructor.
  - destruct (head (select_by_content_hash db u u u)); repeat constructor.
Qed.

(** C6, as amended. The embedded hash is looked up against
    [document_hash] only, and only when one was extracted; the hash of the
    uploaded bytes against [content_hash], [processed_content_hash] and
    [watermarked_content_hash]; the first lookup that finds a row decides.
    The filename fallback is queried only after both hash lookups have
    found nothing. *)
Theorem resolve_document_order db e u name :
  fst (resolve_document db e u name) = Spec.resolve db e u name
  /\ forall pattern,
      QueryByFilename pattern ∈ snd (resolve_document db e u name) ->
      Spec.by_embedded db e = None /\ Spec.by_content db u = None.
Proof.
  split; [apply resolve_document_result|].
  intros pattern. unfold resolve_document, Spec.by_embedded, Spec.by_content,
    select_by_document_hash, select_by_content_hash.
  rewrite !head_filter_find.
  destruct (truthy e).
  - destruct (List.find _ db) as [r|].
    { cbn. intros Hin. apply list_elem_of_singleton in Hin. done. }
    destruct (List.find _ db) as [r|]; cbn; [|done].
    intros Hin. apply elem_of_cons in Hin as [Hin|Hin]; [done|].
    apply list_elem_of_singleton in Hin. done.
  - destruct (List.find _ db) as [r|]; cbn; [|done].
    intros Hin. apply list_elem_of_singleton in Hin. done.
Qed.

Lemma check_blockchain_confirms b h :
  match check_blockchain b h with
  | (Some t, lookups) =>
      lookups = [LedgerLookup h] /\ Spec.ledger_confirms b h = true
  | (None, lookups) =>
      Spec.ledger_confirms b h = false
      /\ Forall (fun ev => ev = LedgerLookup h) lookups
  end.
Proof.
  unfold check_blockchain, Spec.ledger_confirms, blockchain_ready.
  destruct b as [svc|]; [|by split].
  destruct (Blockchain.initialized svc); [|by split].
  destruct (Blockchain.verifyDocument svc h) as [[t| |msg]|msg]; cbn;
    split; try done; by repeat constructor.
Qed.

Lemma same_frame_refl db : Forall2 Spec.same_frame db db.
Proof. by apply Forall_Forall2_diag, Forall_forall. Qed.

Lemma compare_stage_db app fs buf u d m w t :
  snd (fst (compare_stage app fs buf u d m w t))
  = snd (fst (updateDocumentHashes fs d (db app))).
Proof.
  unfold compare_stage.
  destruct (updateDocumentHashes fs d (db app)) as [[d' db'] ups]. cbn.
  by destruct (head (select_by_document_hash db' (document_hash d'))).
Qed.

(** C9. Whatever a verification upload answers - a missing file, an
    internal error, NOT_FOUND, NOT_VERIFIED, AUTHENTIC or TAMPERED - the
    store afterwards holds the same records in the same order, and each
    differs from what it was in at most [content_hash],
    [processed_content_hash] and [watermarked_content_hash]. *)
Theorem upload_route_frame app fs file :
  Forall2 Spec.same_frame (db app) (run_db (upload_route app fs file)).
Proof.
  unfold upload_route.
  destruct file as [f|]; [|apply same_frame_refl].
  destruct (readFile fs (path f)) as [buf|]; [|apply same_frame_refl].
  destruct (extract_upload fs f) as [e|]; [|apply same_frame_refl].
  destruct (resolve_document _ _ _ _) as [[doc|] q]; [|apply same_frame_refl].
  destruct (check_blockchain _ _) as [[t|] lookups]; [|apply same_frame_refl].
  pose proof (compare_stage_db app fs buf (keccak256 buf) doc (mimetype f)
                (isWatermarked e) t) as Hdb.
  destruct (compare_stage _ _ _ _ _ _ _ _) as [[[det doc'] db'] steps].
  cbn in Hdb |- *. subst db'.
  destruct (updateDocumentHashes_effect fs doc (db app))
    as (d' & db' & ups & -> & _ & _ & Hall).
  cbn. eapply Forall2_impl; [exact Hall|]. by intros r r' [Hf _].
Qed.

End Route.

Section Precedence.
Context `{Libs}.
Import Verification.

Lemma queries_not_compare q u :
  Forall (fun ev => is_query ev = true) q -> CompareVariants u ∉ q.
Proof.
  intros Hq Hin. rewrite Forall_forall in Hq. by apply Hq in Hin.
Qed.

Lemma lookups_not_compare h lookups u :
  Forall (fun ev => ev = LedgerLookup h) lookups -> CompareVariants u ∉ lookups.
Proof.
  intros Hl Hin. rewrite Forall_forall in Hl. by apply Hl in Hin.
Qed.

Lemma in_prefix_of_split (A B pre post : list event) x y :
  (A ++ B = pre ++ x :: post)%list -> x ∉ A -> y ∈ A -> y ∈ pre.
Proof.
  intros Heq Hx Hy. apply app_eq_inv in Heq as [(k & HA & Hk)|(k & Hp & _)].
  - destruct k as [|z k].
    + rewrite app_nil_r in HA. by subst.
    + injection Hk as <- _. exfalso. apply Hx. rewrite HA.
      apply elem_of_app. right. apply elem_of_cons. by left.
  - rewrite Hp. apply elem_of_app. by left.
Qed.

(** C1. An upload that resolves to a record whose [document_hash] the
    ledger does not confirm is answered NOT_VERIFIED, with
    [authentic: false] and [tampered: false], whatever its bytes are,
    without any comparison and without a write to the store; an upload
    that resolves to nothing is answered NOT_FOUND; and no run compares
    variants before the ledger has been asked and has confirmed. *)
Theorem not_verified_precedence app fs f buf e :
  fs !! path f = Some buf ->
  extract_upload fs f = Ok e ->
  let r := upload_route app fs (Some f) in
  let found :=
    resolve_document (db app) (hash e) (keccak256 buf) (originalname f) in
  match fst found with
  | Some doc =>
      Spec.ledger_confirms (blockchain app) (document_hash doc) = false ->
      response_status (run_response r) = Some NOT_VERIFIED
      /\ run_response r = Http200 (not_verified_body doc)
      /\ run_db r = db app
      /\ forall u, CompareVariants u ∉ run_trace r
  | None => response_status (run_response r) = Some NOT_FOUND
  end
  /\ forall pre u post,
      (run_trace r = pre ++ CompareVariants u :: post)%list ->
      exists doc,
        fst found = Some doc
        /\ LedgerLookup (document_hash doc) ∈ pre
        /\ Spec.ledger_confirms (blockchain app) (document_hash doc) = true.
Proof.
  intros Hbuf He r found. subst r found.
  unfold upload_route, readFile. rewrite Hbuf, He.
  pose proof (resolve_document_queries (db app) (hash e) (keccak256 buf)
                (originalname f)) as Hq.
  destruct (resolve_document _ _ _ _) as [[doc|] q]; cbn [fst snd] in *.
  2:{ split; [done|]. cbn. intros pre u post Htr. exfalso.
      assert (Hin : CompareVariants u ∈ (ReadUpload (path f) :: q ++ [Unlink (path f)])%list)
        by (rewrite Htr; apply elem_of_app; right; apply elem_of_cons; by left).
      apply elem_of_cons in Hin as [|Hin]; [done|].
      apply elem_of_app in Hin as [Hin|Hin].
      - by apply (queries_not_compare q u Hq).
      - by apply list_elem_of_singleton in Hin. }
  pose proof (check_blockchain_confirms (blockchain app) (document_hash doc))
    as Hcb.
  destruct (check_blockchain _ _) as [[t|] lookups].
  - destruct Hcb as [-> Hconf]. split; [by rewrite Hconf|].
    destruct (compare_stage _ _ _ _ _ _ _ _) as [[[det doc'] db'] steps].
    cbn. intros pre u post Htr. exists doc. split; [done|]. split; [|done].
    change (ReadUpload (path f)
              :: ((q ++ [LedgerLookup (document_hash doc)])
                  ++ steps ++ [Unlink (path f)]))%list
      with ((ReadUpload (path f) :: q ++ [LedgerLookup (document_hash doc)])
              ++ (steps ++ [Unlink (path f)]))%list in Htr.
    eapply in_prefix_of_split; [exact Htr| |].
    + intros Hin. apply elem_of_cons in Hin as [|Hin]; [done|].
      apply elem_of_app in Hin as [Hin|Hin].
      * by apply (queries_not_compare q u Hq).
      * by apply list_elem_of_singleton in Hin.
    + apply elem_of_cons. right. apply elem_of_app. right.
      by apply list_elem_of_singleton.
  - destruct Hcb as [Hconf Hl].
    assert (Hno : forall u,
               CompareVariants u
               ∉ (ReadUpload (path f) :: (q ++ lookups) ++ [Unlink (path f)])%list).
    { intros u Hin. apply elem_of_cons in Hin as [|Hin]; [done|].
      apply elem_of_app in Hin as [Hin|Hin].
      - apply elem_of_app in Hin as [Hin|Hin].
        + by apply (queries_not_compare q u Hq).
        + by apply (lookups_not_compare _ lookups u Hl).
      - by apply list_elem_of_singleton in Hin. }
    split; [done|]. cbn. intros pre u post Htr. exfalso.
    apply (Hno u). rewrite Htr. apply elem_of_app. right.
    apply elem_of_cons. by left.
Qed.

End Precedence.

(** ** Finalisation and the [verified] flag *)

Section Finalize.
Context `{Libs}.
Import Documents.

Lemma head_select_by_document_hash db h d :
  head (select_by_document_hash db h) = Some d ->
  d ∈ db /\ document_hash d = h.
Proof.
  unfold select_by_document_hash. rewrite head_filter_find.
  intros Hf. apply find_some in Hf as [Hin Heq].
  split; [by apply list_elem_of_In|by apply String.eqb_eq].
Qed.

Lemma ledger_confirms_eq svc x :
  Spec.ledger_confirms (Some svc) x
  = Blockchain.initialized svc && is_hash x
    && bool_decide (is_Some (Blockchain.contract_verifyDocument
                               (Blockchain.contract svc) x)).
Proof.
  unfold Spec.ledger_confirms, Blockchain.verifyDocument, try_catch.
  destruct (Blockchain.initialized svc); [|done]. cbn [negb andb].
  destruct (is_hash x); [|done]. cbn [negb].
  by destruct (Blockchain.contract_verifyDocument _ x).
Qed.

Lemma contract_verifyDocument_app l h t x :
  is_Some (Blockchain.contract_verifyDocument
             (l ++ [(Blockchain.bytes32 h, t)])%list x)
  <-> is_Some (Blockchain.contract_verifyDocument l x)
      \/ Blockchain.bytes32 x = Blockchain.bytes32 h.
Proof.
  unfold Blockchain.contract_verifyDocument.
  induction l as [|[k v] l IH]; cbn [app List.find fst snd].
  - destruct (String.eqb_spec (Blockchain.bytes32 h) (Blockchain.bytes32 x))
      as [Heq|Hne].
    + split; [by right|intros _; by eexists].
    + split.
      * intros [y Hy]. discriminate.
      * intros [[y Hy]|Heq]; [discriminate|done].
  - destruct (String.eqb k (Blockchain.bytes32 x)).
    + split; [by left|intros _; by eexists].
    + exact IH.
Qed.

Lemma is_digest_inv h :
  is_digest h = true -> is_hash h = true /\ Blockchain.bytes32 h = h.
Proof.
  unfold is_digest. intros [Hh Hl%String.eqb_eq]%andb_true_iff. done.
Qed.

(** What a successful registration leaves behind. *)
Lemma registerDocument_registered svc c svc' tx blk h' m :
  Blockchain.registerDocument svc (Some c) None m
  = Ok (svc', Blockchain.Registered tx blk h') ->
  Blockchain.initialized svc' = Blockchain.initialized svc
  /\ Blockchain.initialized svc = true
  /\ is_hash h' = true
  /\ h' = (if startsWith "0x" c then c
           else Blockchain.generateDocumentHash c)
  /\ exists t, Blockchain.contract svc'
               = (Blockchain.contract svc ++ [(Blockchain.bytes32 h', t)])%list.
Proof.
  unfold Blockchain.registerDocument, try_catch, mbind, res_bind, bind.
  destruct (Blockchain.initialized svc); [|done].
  destruct (Blockchain.signer svc); [|done]. cbn [andb negb truthy default].
  destruct (truthy_str c); [|done].
  destruct (is_hash _) eqn:Hh; [|done]. cbn [negb].
  destruct m as [r|]; [|done]. intros [= <- <- <- <-].
  cbn. repeat split; try done. by eexists.
Qed.


Lemma startsWith_0x_hash h : is_hash h = true -> startsWith "0x" h = true.
Proof.
  intros (d & -> & _)%is_hash_inv. unfold startsWith.
  rewrite !prefix_cons. cbn [Ascii.eqb Bool.eqb]. by destruct d.
Qed.


End Finalize.

(** ** Canonical content *)

Section Encoder.
Import PDFService TemplateService EncoderSpec.


Lemma or_else_truthy a b : truthy_val a = true -> or_else a b = a.
Proof. intros Ha. unfold or_else. by rewrite Ha. Qed.


End Encoder.



(** ** The properties on concrete requests *)

Section Requests.
Import Verification Documents Scenario.

(** An exact copy of the processed file of a record that was never
    registered is answered NOT_VERIFIED. *)
Lemma not_verified_precedence_witness :
  response_status
    (run_response (upload_route (H := Reference.libs) unregistered_image
                     fs_image (Some upload_image)))
  = Some NOT_VERIFIED
  /\ Reference.digest photo
     = default "" (processed_content_hash row_image).
Proof.
  assert (Hbuf : fs_image !! path upload_image = Some photo)
    by (vm_compute; reflexivity).
  assert (He : extract_upload (H := Reference.libs) fs_image upload_image
               = Ok no_metadata) by reflexivity.
  destruct (not_verified_precedence (H := Reference.libs) unregistered_image
              fs_image upload_image photo no_metadata Hbuf He) as [W _].
  vm_compute in W. split; vm_compute; [|reflexivity].
  exact (proj1 (W eq_refl)).
Defined.

(** With [verified = false] the watermarked hash is passed over, and the
    processed hash, next in line, is the match that is reported. *)
Lemma exact_match_priority_witness :
  documentType
    (verifyDocumentIntegrity (H := Reference.libs) ∅ [] h0 row_all
       "application/pdf" false)
  = Some processed.
Proof.
  pose proof (exact_match_priority (H := Reference.libs) ∅ [] h0 row_all
                "application/pdf" false row_all 0 None eq_refl) as W.
  vm_compute in W. vm_compute. exact (proj1 (proj2 (proj2 W))).
Defined.

(** C3, as stated, fails: a one-page PDF uploaded for a record whose
    comparison target, the processed file, has two pages is classified
    MINOR_MODIFICATION with confidence 70, not PAGE_MODIFICATION. *)
Lemma page_mismatch_not_reported :
  Spec.page_count (H := Reference.libs) fs_mismatch
    (Some (processed_file_path row_two_pages)) = Some 2%nat
  /\ (fun p => length (pages p)) <$> Reference.load processed_bytes
     = Some 1%nat
  /\ let r := run_response (upload_route (H := Reference.libs)
                              registered_two_pages fs_mismatch (Some upload0)) in
     response_status r = Some TAMPERED
     /\ (tamperType <$> response_integrity r) = Some (Some MINOR_MODIFICATION)
     /\ (confidence <$> response_integrity r) = Some (Some 70).
Proof. cbv zeta. split_and!; vm_compute; reflexivity. Qed.

(** C6, as stated, fails: a PDF whose metadata carries the content hash
    of a stored record is not resolved to it, and neither is an image
    whose digest is the [document_hash] of a stored record; both uploads
    are answered NOT_FOUND. *)
Lemma hash_lookup_misses_fields :
  (extract_upload (H := Reference.libs) fs_carrier upload_scan
   = Ok {| hash := Some tx0; isWatermarked := false |}
   /\ Spec.any_hash_is tx0 row_content = true
   /\ response_status
        (run_response
           (upload_route (H := Reference.libs)
              {| db := [row_content]; blockchain := Some chain_h0 |}
              fs_carrier (Some upload_scan)))
      = Some NOT_FOUND)
  /\ (Spec.any_hash_is (Reference.digest photo) row_photo = true
      /\ response_status
           (run_response
              (upload_route (H := Reference.libs)
                 {| db := [row_photo]; blockchain := Some chain_h0 |}
                 fs_photo (Some upload_photo)))
         = Some NOT_FOUND).
Proof. cbv zeta. split_and!; vm_compute; reflexivity. Qed.

(** The fallback query of the image upload above came after two lookups
    that found nothing. *)
Lemma resolve_document_order_witness :
  Spec.by_embedded [row_photo] None = None
  /\ Spec.by_content [row_photo] (Reference.digest photo) = None.
Proof.
  apply (proj2 (resolve_document_order (H := Reference.libs) [row_photo] None
                  (Reference.digest photo) "holiday.png") "%holiday%").
  vm_compute. apply elem_of_cons. right. apply elem_of_cons. by left.
Defined.



End Requests.

Section Lifecycle.
Import Verification Documents Scenario.

(** A record is created unverified: after the INSERT of [POST /process]
    the new row's flag is false, and the flags of the store still agree
    with a ledger that does not hold the new hash. *)
Lemma insert_processed_unverified app new_id now h name sid prog ty issued
    original ppath opath :
  Spec.verified_iff_ledger app ->
  Spec.ledger_confirms (blockchain app) h = false ->
  Spec.verified_iff_ledger
    {| db := insert_processed (db app) new_id now h name sid prog ty issued
               original ppath opath;
       blockchain := blockchain app |}.
Proof.
  intros Hinv Hnew r Hr. cbn [db blockchain] in *.
  unfold insert_processed in Hr. apply elem_of_app in Hr as [Hr|Hr].
  - by apply Hinv.
  - apply list_elem_of_singleton in Hr as ->. cbn [verified document_hash].
    rewrite Hnew. done.
Qed.

(** Lineage matching on the route: the processed file of a registered
    record, uploaded as it is, is answered AUTHENTIC as [processed] with
    confidence 100. *)
Example processed_upload_authentic :
  let r := run_response (upload_route (H := Reference.libs)
                           {| db := [row0]; blockchain := Some chain_h0 |}
                           fs0 (Some upload0)) in
  response_status r = Some AUTHENTIC
  /\ (documentType <$> response_integrity r) = Some (Some processed)
  /\ (confidence <$> response_integrity r) = Some (Some 100).
Proof. cbv zeta. split_and!; vm_compute; reflexivity. Qed.

(** Without a gateway, [POST /finalize] writes the watermarked file and
    answers 500; the store is as it was. *)
Example finalize_without_gateway :
  let st := finalize (H := Reference.libs)
              {| db := [row0]; blockchain := None |} fs0 env0 (Some h0) in
  fin_response st = Finalize500 "Failed to finalize document"
  /\ db (fin_locals st) = [row0]
  /\ fin_fs st !! watermarked_path h0 ".pdf" <> None.
Proof.
  cbv zeta. split; [vm_compute; reflexivity|].
  split; [vm_compute; reflexivity|].
  vm_compute. intros [=].
Qed.

End Lifecycle.

(** ** Serving stored files *)

Section Serving.
Context `{Libs}.
Import Documents.

Lemma select_file_sound fs d p t :
  select_file fs d = Some (p, t) ->
  access fs p = true
  /\ match t with
     | type_watermarked =>
         verified d = true /\ watermarked_file_path d = Some p
     | type_processed => processed_file_path d = p
     | type_original => original_file_path d = Some p
     end.
Proof.
  unfold select_file, truthy. intros E.
  destruct (verified d), (watermarked_file_path d) as [w|],
    (original_file_path d) as [o|]; cbn in E;
    repeat (case_match; simplify_eq/=; try done).
Qed.

Lemma select_file_none fs d :
  select_file fs d = None ->
  (verified d = true ->
   forall p, watermarked_file_path d = Some p -> truthy_str p = true ->
             access fs p = false)
  /\ (truthy_str (processed_file_path d) = true ->
      access fs (processed_file_path d) = false)
  /\ (forall p, original_file_path d = Some p -> truthy_str p = true ->
                access fs p = false).
Proof.
  unfold select_file, truthy. intros E.
  destruct (verified d), (watermarked_file_path d) as [w|],
    (original_file_path d) as [o|]; cbn in E;
    repeat (case_match; simplify_eq/=; try done);
    split_and!; intros; simplify_eq; try done; congruence.
Qed.

Lemma select_file_watermarked fs d p :
  verified d = true -> watermarked_file_path d = Some p ->
  truthy_str p = true -> access fs p = true ->
  select_file fs d = Some (p, type_watermarked).
Proof.
  intros Hv Hw Hp Ha. unfold select_file. rewrite Hv, Hw. cbn [truthy andb default from_option Datatypes.id].
  by rewrite Hp, Ha.
Qed.

(** X1. [GET /view-original/:hash] answers 200 only with a file that
    exists in the store and is one of the three files of the record found
    under that hash; it serves the watermarked copy, and sets
    [X-Watermarked: true], only for a record whose [verified] flag is
    true; [X-Document-Verified] repeats that flag. With a record found it
    answers 404 only when none of the files it may serve is accessible. *)
Theorem view_original_serves db fs h :
  match view_original db fs h with
  | View200 s =>
      exists d,
        d ∈ db /\ document_hash d = h
        /\ access fs (served_path s) = true
        /\ x_document_verified s = verified d
        /\ disposition_filename s = original_file_name d
        /\ match x_document_type s with
           | type_watermarked =>
               x_watermarked s = true /\ verified d = true
               /\ watermarked_file_path d = Some (served_path s)
           | type_processed =>
               x_watermarked s = false
               /\ processed_file_path d = served_path s
           | type_original =>
               x_watermarked s = false
               /\ original_file_path d = Some (served_path s)
           end
  | View404 _ =>
      forall d,
        head (select_by_document_hash db h) = Some d ->
        (verified d = true ->
         forall p, watermarked_file_path d = Some p -> truthy_str p = true ->
                   fs !! p = None)
        /\ (truthy_str (processed_file_path d) = true ->
            fs !! processed_file_path d = None)
        /\ (forall p, original_file_path d = Some p -> truthy_str p = true ->
                      fs !! p = None)
  end.
Proof.
  assert (Hacc : forall p, access fs p = false -> fs !! p = None).
  { intros p Hp. unfold access in Hp. apply bool_decide_eq_false in Hp.
    by apply eq_None_not_Some. }
  unfold view_original.
  destruct (head (select_by_document_hash db h)) as [d|] eqn:Hd; [|done].
  destruct (select_file fs d) as [[p t]|] eqn:Hs.
  - apply select_file_sound in Hs as [Ha Ht].
    apply head_select_by_document_hash in Hd as [Hin Hh].
    exists d. cbn. split_and!; try done. by destruct t.
  - intros d' [= <-]. apply select_file_none in Hs as (H1 & H2 & H3).
    split_and!; eauto.
Qed.

End Serving.

(** ** Finalisation, repeated and viewed *)

Section Finalized.
Context `{Libs}.
Import Documents.

Lemma head_select_update_verified db tx blk wp h :
  head (select_by_document_hash (update_verified db tx blk wp h) h)
  = mark_verified tx blk wp <$> head (select_by_document_hash db h).
Proof.
  unfold select_by_document_hash, update_verified.
  induction db as [|r db IH]; [done|]. cbn [map List.filter].
  destruct (String.eqb (document_hash r) h) eqn:E.
  - cbn [mark_verified document_hash]. by rewrite E.
  - by rewrite E.
Qed.

Lemma watermarked_path_truthy h ext : truthy_str (watermarked_path h ext) = true.
Proof. reflexivity. Qed.

Lemma createWatermarkedDocument_ok fs p h w fs' out :
  createWatermarkedDocument fs p h w = Ok (fs', out) ->
  out = watermarked_path h (toLowerCase (path_extname p))
  /\ exists src bytes, fs !! p = Some src /\ fs' = <[out := bytes]> fs.
Proof.
  unfold createWatermarkedDocument, addWatermarkToPDF, addWatermarkToImage,
    load_pdf, readFile, mbind, res_bind, bind.
  destruct (fs !! p) as [src|]; [|done].
  destruct (String.eqb _ ".pdf").
  - destruct (PDFDocument_load src); [|done]. intros [= <- <-]. eauto.
  - destruct (_ || _).
    + destruct (sharp_composite src); [|done]. intros [= <- <-]. eauto.
    + intros [= <- <-]. eauto.
Qed.

Lemma finalize_200 app fs env h tx w msg :
  fin_response (finalize app fs env h) = Finalize200 tx (Some w) msg ->
  let st := finalize app fs env h in
  exists hh svc d,
    h = Some hh /\ truthy_str hh = true
    /\ blockchain (fin_locals st) = Some svc
    /\ Blockchain.initialized svc = true
    /\ head (select_by_document_hash (db (fin_locals st)) hh) = Some d
    /\ verified d = true
    /\ blockchain_tx_hash d = tx
    /\ watermarked_file_path d = Some w
    /\ truthy_str w = true
    /\ access (fin_fs st) w = true.
Proof.
  unfold finalize. destruct h as [hh|]; [|done]. cbn [truthy].
  destruct (truthy_str hh) eqn:Hh; [|done]. cbn [negb default from_option Datatypes.id].
  assert (Hsim : forall m, fin_response (finalize_simulation app fs env hh)
                           <> Finalize200 tx (Some w) m).
  { intros m. unfold finalize_simulation.
    destruct (head _); [|done].
    by destruct (createWatermarkedDocument _ _ _ _) as [[? ?]|]. }
  destruct (blockchain app) as [svc|] eqn:Hbc; [|by intros ?%Hsim].
  destruct (Blockchain.initialized svc) eqn:Hinit; [|by intros ?%Hsim].
  unfold finalize_ledger.
  destruct (head (select_by_document_hash (db app) hh)) as [d|] eqn:Hd; [|done].
  destruct (verified d && truthy (blockchain_tx_hash d)
            && truthy (watermarked_file_path d) && _) eqn:Hdone.
  - cbn [fin_response fin_locals fin_fs]. intros [= <- Hw <-].
    apply andb_true_iff in Hdone as [[[Hv Ht]%andb_true_iff Hp]%andb_true_iff Ha].
    rewrite Hw in Hp, Ha. exists hh, svc, d. by rewrite Hbc.
  - destruct (Blockchain.registerDocument svc (Some hh) None (mined env))
      as [[svc' [txh blk h'|e]]|e] eqn:Hreg; [|done..].
    apply registerDocument_registered in Hreg as (Hi' & _ & _ & _ & _).
    destruct (createWatermarkedDocument fs (processed_file_path d) hh _)
      as [[fs' p]|] eqn:Hw; [|done].
    cbn [fin_response fin_locals fin_fs db blockchain].
    intros [= <- <- <-].
    apply createWatermarkedDocument_ok in Hw as (-> & src & bytes & _ & ->).
    exists hh, svc', (mark_verified txh None (Some (watermarked_path hh
                         (toLowerCase (path_extname (processed_file_path d))))) d).
    rewrite head_select_update_verified, Hd. cbn [truthy].
    rewrite watermarked_path_truthy. split_and!; try done; [congruence|].
    unfold access. rewrite lookup_insert_eq. by apply bool_decide_eq_true.
Qed.

(** X2. After a run of [POST /finalize] that answered 200 with a
    watermarked file [w], [GET /view-original] for the same hash serves
    [w], as the watermarked copy of a verified record. *)
Theorem finalize_then_view app fs env h hh tx w msg :
  h = Some hh ->
  fin_response (finalize app fs env h) = Finalize200 tx (Some w) msg ->
  let st := finalize app fs env h in
  exists s,
    view_original (db (fin_locals st)) (fin_fs st) hh = View200 s
    /\ served_path s = w
    /\ x_document_type s = type_watermarked
    /\ x_watermarked s = true
    /\ x_document_verified s = true.
Proof.
  intros -> Hr st.
  destruct (finalize_200 _ _ _ _ _ _ _ Hr)
    as (hh' & svc & d & [= <-] & Hh & Hbc & Hi & Hd & Hv & Ht & Hw & Hp & Ha).
  fold st in Hd, Ha. unfold view_original. rewrite Hd.
  rewrite (select_file_watermarked _ _ w) by done.
  eexists. split; [reflexivity|]. cbn. done.
Qed.

(** X3. [POST /finalize] is idempotent once it has succeeded: after a
    run that answered 200 with a transaction hash and a watermarked file,
    a second run for the same hash answers "already verified" with the
    same transaction hash and file, and changes neither the store, nor the
    ledger, nor the files. *)
Theorem finalize_idempotent app fs env env' h tx w msg :
  fin_response (finalize app fs env h) = Finalize200 tx (Some w) msg ->
  truthy tx = true ->
  let st := finalize app fs env h in
  finalize (fin_locals st) (fin_fs st) env' h
  = {| fin_response :=
         Finalize200 tx (Some w) "Document already verified on blockchain";
       fin_locals := fin_locals st; fin_fs := fin_fs st |}.
Proof.
  intros Hr Htx st.
  destruct (finalize_200 _ _ _ _ _ _ _ Hr)
    as (hh & svc & d & -> & Hh & Hbc & Hi & Hd & Hv & Ht & Hw & Hp & Ha).
  fold st in Hbc, Hd, Ha. unfold finalize. cbn [truthy]. rewrite Hh.
  cbn [negb default from_option Datatypes.id]. rewrite Hbc, Hi.
  unfold finalize_ledger. rewrite Hd, Hv, Ht, Htx, Hw. cbn [truthy andb default from_option Datatypes.id].
  rewrite Hp. unfold access in Ha. rewrite Ha. done.
Qed.

End Finalized.

(** ** Watermarked copies *)

Section Watermarking.
Context `{Libs}.
Import Documents Verification.


Lemma append_assoc a b c : (a +:+ b) +:+ c = a +:+ (b +:+ c).
Proof.
  induction a as [|x a IH]; [done|]. by rewrite !append_cons, IH.
Qed.

Lemma match_verification_hash_first h rest :
  is_hash h = true ->
  match_verification_hash (("verification_hash:" +:+ h) +:+ rest) = Some h.
Proof.
  intros Hh. apply search_here.
  by rewrite append_assoc, strip_prefix_app, hash64_at_hash.
Qed.

(** X5. Watermarking replaces the embedded identifier: from a file
    written by [addWatermarkToPDF] with a well-formed transaction hash,
    [extractHashFromPDF] reads that transaction hash, not the document
    hash the processed file carried, with [isWatermarked = true]. *)
Theorem watermark_replaces_embedded_hash fs inputPath outputPath w fs' out :
  metadata_survives ->
  is_hash (txHash w) = true ->
  addWatermarkToPDF fs inputPath outputPath w = Ok (fs', out) ->
  extractHashFromPDF fs' out
  = Ok {| hash := Some (txHash w); isWatermarked := true |}.
Proof.
  intros Hms Htx.
  unfold addWatermarkToPDF, load_pdf, readFile, mbind, res_bind, bind.
  destruct (fs !! inputPath) as [b|]; [|done].
  destruct (PDFDocument_load b) as [d|]; [|done].
  intros [= <- <-]. rewrite extractHashFromPDF_spec, lookup_insert_eq.
  cbn [mbind option_bind].
  match goal with |- context [PDFDocument_save ?x] => destruct (Hms x) as (d' & -> & Hs & Hk) end.
  cbn [setTitle setProducer setKeywords setSubject setPages Subject Keywords] in Hs, Hk.
  pose proof (extract_stamped d' (txHash w) Hs) as Hw.
  unfold Spec.extract in *. cbn [isWatermarked] in Hw. rewrite Hw. do 2 f_equal.
  unfold Spec.recognizable_hash. rewrite Hk. cbn [mbind option_bind join].
  by rewrite match_verification_hash_first.
Qed.

(** X6. Without an initialised gateway [POST /finalize] never answers
    200 and never changes the store; the only trace a run can leave is the
    watermarked file it wrote before failing. *)
Theorem finalize_without_gateway_inert app fs env h :
  blockchain_ready (blockchain app) = false ->
  let st := finalize app fs env h in
  fin_locals st = app
  /\ (forall tx wfile message,
         fin_response st <> Finalize200 tx wfile message)
  /\ (fin_fs st = fs
      \/ exists hh d bytes,
          h = Some hh
          /\ head (select_by_document_hash (db app) hh) = Some d
          /\ fin_fs st
             = <[watermarked_path hh
                   (toLowerCase (path_extname (processed_file_path d)))
                 := bytes]> fs).
Proof.
  intros Hb st. subst st. unfold finalize.
  destruct (truthy h) eqn:Hh; cbn [negb]; [|split_and!; [done|done|by left]].
  destruct h as [hh|]; [|done]. cbn [default from_option Datatypes.id].
  assert (Hsim : let st := finalize_simulation app fs env hh in
                 fin_locals st = app
                 /\ (forall tx wfile message,
                        fin_response st <> Finalize200 tx wfile message)
                 /\ (fin_fs st = fs
                     \/ exists hh' d bytes,
                         Some hh = Some hh'
                         /\ head (select_by_document_hash (db app) hh') = Some d
                         /\ fin_fs st
                            = <[watermarked_path hh'
                                  (toLowerCase (path_extname (processed_file_path d)))
                                := bytes]> fs)).
  { unfold finalize_simulation.
    destruct (head (select_by_document_hash (db app) hh)) as [d|] eqn:Hd;
      [|split_and!; [done|done|by left]].
    destruct (createWatermarkedDocument fs (processed_file_path d) hh _)
      as [[fs' p]|] eqn:Hw; [|split_and!; [done|done|by left]].
    apply createWatermarkedDocument_ok in Hw as (-> & src & bytes & _ & ->).
    split_and!; [done|done|]. right. by exists hh, d, bytes. }
  unfold blockchain_ready in Hb.
  destruct (blockchain app) as [svc|]; [|apply Hsim].
  rewrite Hb. apply Hsim.
Qed.

End Watermarking.

(** ** Lookup by hash *)

Section Lookup.
Import Verification.

Lemma lookup_blockchain_confirms b h :
  truthy_flag (fst (lookup_blockchain b h)) = Spec.ledger_confirms b h
  /\ (fst (lookup_blockchain b h) = Some true
      <-> Spec.ledger_confirms b h = true)
  /\ (is_Some (snd (lookup_blockchain b h))
      <-> Spec.ledger_confirms b h = true).
Proof.
  unfold lookup_blockchain, Spec.ledger_confirms, blockchain_ready.
  destruct b as [svc|]; [|by split_and!; [|split|split; [intros []|]]].
  destruct (Blockchain.initialized svc); cbn [andb];
    [|by split_and!; [|split|split; [intros []|]]].
  destruct (Blockchain.verifyDocument svc h) as [[t| |e]|e];
    cbn [Blockchain.result_verified fst snd truthy_flag default from_option Datatypes.id];
    split_and!; try done; split; try done; by intros [].
Qed.

(** X7. [GET /:hash] reports what the ledger says: [verified] is true
    exactly when the gateway confirms the hash, whatever the [verified]
    column holds; the answer is 404 exactly when the hash is neither
    stored nor confirmed; a stored hash the ledger does not confirm is
    answered with [source: database_only] and a warning. *)
Theorem lookup_route_trusts_ledger app h :
  let confirmed := Spec.ledger_confirms (blockchain app) h in
  let stored := head (select_by_document_hash (db app) h) in
  match lookup_route app h with
  | Lookup404 _ => stored = None /\ confirmed = false
  | Lookup200 b =>
      (is_Some stored \/ confirmed = true)
      /\ lk_documentHash b = h
      /\ (lk_verified b = Some true <-> confirmed = true)
      /\ (is_Some (lk_blockchainTimestamp b) <-> confirmed = true)
      /\ lk_source b = (if confirmed then "blockchain" else "database_only")
      /\ (is_Some (lk_warning b) <-> confirmed = false /\ is_Some stored)
      /\ (is_Some (lk_metadata b) <-> is_Some stored)
  end.
Proof.
  intros confirmed stored. subst confirmed stored. unfold lookup_route.
  pose proof (lookup_blockchain_confirms (blockchain app) h) as (Ht & Hv & Hts).
  destruct (lookup_blockchain (blockchain app) h) as [v ts].
  cbn [fst snd] in Ht, Hv, Hts. rewrite Ht.
  destruct (head (select_by_document_hash (db app) h)) as [d|] eqn:Hd;
    destruct (Spec.ledger_confirms (blockchain app) h) eqn:Hc;
    cbn; rewrite ?Ht; cbn; split_and!; try done; try (by left); try (by right);
    try (split; [by intros []|by intros [? []]]);
    try (split; [intros _; split; [done|by eexists]|by eexists]);
    try (split; by eexists);
    try (split; by intros []).
Qed.

End Lookup.

(** ** The ledger gateway *)

Section Gateway.
Context `{Libs}.
Import Blockchain.

Lemma verifyDocument_eq svc x :
  initialized svc = true ->
  verifyDocument svc x
  = Ok (if is_hash x
        then match contract_verifyDocument (contract svc) x with
             | Some t => OnChain t
             | None => NotOnChain
             end
        else VerifyFailed "invalid BytesLike value").
Proof.
  intros Hi. unfold verifyDocument. rewrite Hi. cbn [negb].
  destruct (is_hash x); cbn [negb try_catch]; [|done].
  by destruct (contract_verifyDocument _ _).
Qed.

Lemma contract_verifyDocument_grow l e x t :
  contract_verifyDocument l x = Some t ->
  contract_verifyDocument (l ++ [e])%list x = Some t.
Proof.
  unfold contract_verifyDocument.
  induction l as [|a l IH]; [done|]. cbn [app find].
  by destruct (String.eqb (fst a) (bytes32 x)).
Qed.

Lemma contract_verifyDocument_other l k t x :
  k <> bytes32 x ->
  contract_verifyDocument (l ++ [(k, t)])%list x = contract_verifyDocument l x.
Proof.
  intros Hk. unfold contract_verifyDocument.
  induction l as [|a l IH]; cbn [app find fst].
  - by destruct (String.eqb_spec k (bytes32 x)).
  - by destruct (String.eqb (fst a) (bytes32 x)).
Qed.

(** X8. A successful [registerDocument] of content [c] registers [c]
    itself when it starts with 0x and its Keccak-256 digest otherwise; the
    registered hash is then confirmed by [verifyDocument], content that
    was hashed is confirmed by [verifyDocumentFromContent], every hash
    confirmed before stays confirmed with its timestamp, and the answer
    for any other 32-byte value is unchanged. *)
Theorem register_then_verify svc c m svc' tx blk h :
  registerDocument svc (Some c) None m = Ok (svc', Registered tx blk h) ->
  h = (if startsWith "0x" c then c else generateDocumentHash c)
  /\ (exists t, verifyDocument svc' h = Ok (OnChain t))
  /\ (startsWith "0x" c = false ->
      exists t, verifyDocumentFromContent svc' c = Ok (OnChain t))
  /\ (forall x t,
         verifyDocument svc x = Ok (OnChain t) ->
         verifyDocument svc' x = Ok (OnChain t))
  /\ (forall x,
         bytes32 x <> bytes32 h ->
         verifyDocument svc' x = verifyDocument svc x).
Proof.
  intros Hreg.
  apply registerDocument_registered in Hreg as (Hi' & Hi & Hh & Hhh & t & Hc).
  assert (Hfound : exists t', verifyDocument svc' h = Ok (OnChain t')).
  { rewrite verifyDocument_eq, Hh by congruence.
    destruct (contract_verifyDocument (contract svc') h) as [t'|] eqn:E;
      [by exists t'|].
    exfalso. assert (Hs : is_Some (contract_verifyDocument (contract svc') h)).
    { rewrite Hc. apply contract_verifyDocument_app. by right. }
    rewrite E in Hs. by destruct Hs. }
  split; [done|]. split; [done|]. split.
  { intros Hp. unfold verifyDocumentFromContent. rewrite Hp in Hhh. by subst h. }
  split.
  - intros x t0. rewrite !verifyDocument_eq by congruence.
    destruct (is_hash x); [|done].
    destruct (contract_verifyDocument (contract svc) x) as [t1|] eqn:E; [|done].
    intros [= <-]. by rewrite Hc, (contract_verifyDocument_grow _ _ _ _ E).
  - intros x Hx. rewrite !verifyDocument_eq by congruence.
    destruct (is_hash x); [|done].
    by rewrite Hc, contract_verifyDocument_other.
Qed.

End Gateway.

(** ** Verdicts of the upload route *)

Section Verdicts.
Context `{Libs}.
Import Verification.

(** X9. Every run of the upload route on a request with a file removes
    the temporary upload and touches no other file: the store of files
    afterwards is the one before without the upload's path, the first
    thing the run does is reading that file and the last is unlinking
    it. *)
Theorem upload_route_unlinks app fs f :
  let r := upload_route app fs (Some f) in
  run_fs r = delete (path f) fs
  /\ head (run_trace r) = Some (ReadUpload (path f))
  /\ last (run_trace r) = Some (Unlink (path f)).
Proof.
  cbv zeta. unfold upload_route.
  destruct (readFile fs (path f)) as [buf|]; [|done].
  destruct (extract_upload fs f) as [e|]; [|done].
  destruct (resolve_document _ _ _ _) as [[doc|] q];
    [|split_and!; [done..|exact (last_snoc _ _)]].
  destruct (check_blockchain _ _) as [[t|] lookups];
    [|split_and!; [done..|exact (last_snoc _ _)]].
  destruct (compare_stage _ _ _ _ _ _ _ _) as [[[vd od] db'] steps].
  cbn [run_fs run_trace]. split_and!; [done..|].
  rewrite !app_assoc. exact (last_snoc _ _).
Qed.

Lemma same_frame_document_hash r r' :
  Spec.same_frame r r' -> document_hash r' = document_hash r.
Proof.
  intros E. change (document_hash (Spec.erase_hashes r')
                    = document_hash (Spec.erase_hashes r)).
  by rewrite E.
Qed.

Lemma same_frame_verified r r' :
  Spec.same_frame r r' -> verified r' = verified r.
Proof.
  intros E. change (verified (Spec.erase_hashes r')
                    = verified (Spec.erase_hashes r)).
  by rewrite E.
Qed.

(** The run of the route on a readable upload that resolves to a
    ledger-confirmed record. *)
Lemma upload_route_confirmed app fs f buf e doc t lookups :
  fs !! path f = Some buf ->
  extract_upload fs f = Ok e ->
  fst (resolve_document (db app) (hash e) (keccak256 buf) (originalname f))
  = Some doc ->
  check_blockchain (blockchain app) (document_hash doc) = (Some t, lookups) ->
  let cs := compare_stage app fs buf (keccak256 buf) doc (mimetype f)
              (isWatermarked e) t in
  run_response (upload_route app fs (Some f))
  = Http200 (verdict_body (snd (fst (fst cs))) (fst (fst (fst cs))) (hash e)
               (isWatermarked e))
  /\ run_db (upload_route app fs (Some f)) = snd (fst cs).
Proof.
  intros Hb He Hr Hc cs. subst cs. unfold upload_route, readFile.
  rewrite Hb, He.
  destruct (resolve_document _ _ _ _) as [o q]. cbn [fst] in Hr. subst o.
  rewrite Hc.
  by destruct (compare_stage _ _ _ _ _ _ _ _) as [[[vd od] db'] steps].
Qed.

Lemma verifyDocumentIntegrity_authentic fs buf u d m w :
  authentic (verifyDocumentIntegrity fs buf u d m w) = true ->
  exists c, get_column c d = Some u
            /\ (c = col_watermarked_content_hash -> verified d = true).
Proof.
  unfold verifyDocumentIntegrity, same_hash.
  destruct (verified d && truthy (watermarked_content_hash d)
            && sql_eq (watermarked_content_hash d) u) eqn:E1.
  { intros _. exists col_watermarked_content_hash.
    apply andb_true_iff in E1 as [[Hv _]%andb_true_iff Hs].
    split; [by apply sql_eq_true|done]. }
  destruct (truthy (processed_content_hash d)
            && sql_eq (processed_content_hash d) u) eqn:E2.
  { intros _. exists col_processed_content_hash.
    apply andb_true_iff in E2 as [_ Hs]. split; [by apply sql_eq_true|done]. }
  destruct (truthy (content_hash d) && sql_eq (content_hash d) u) eqn:E3.
  { intros _. exists col_content_hash.
    apply andb_true_iff in E3 as [_ Hs]. split; [by apply sql_eq_true|done]. }
  unfold detectTamperingWithWatermarkAwareness.
  destruct (expected_target fs d) as [[? ?] ?].
  by destruct (if String.eqb m "application/pdf" then _ else _).
Qed.

Lemma verifyDocumentIntegrity_match fs buf u d m w c :
  truthy_str u = true ->
  get_column c d = Some u ->
  (c = col_watermarked_content_hash -> verified d = true) ->
  authentic (verifyDocumentIntegrity fs buf u d m w) = true.
Proof.
  intros Hu Hc Hv. unfold verifyDocumentIntegrity.
  rewrite <- !andb_assoc, !(same_hash_truthy u) by done.
  assert (Hs : sql_eq (Some u) u = true) by apply String.eqb_refl.
  destruct c; cbn [get_column] in Hc.
  - destruct (verified d && sql_eq (watermarked_content_hash d) u); [done|].
    by rewrite Hc, Hs.
  - destruct (verified d && sql_eq (watermarked_content_hash d) u); [done|].
    destruct (sql_eq (processed_content_hash d) u); [done|].
    by rewrite Hc, Hs.
  - by rewrite Hv, Hc, Hs.
Qed.

(** X10. AUTHENTIC and TAMPERED are answered only for a record the
    ledger confirms. AUTHENTIC moreover means that the Keccak-256 digest of
    the uploaded bytes equals one of the three content hashes the store
    holds for that record after the run, the watermarked one only for a
    record whose [verified] flag is true. *)
Theorem verdict_needs_ledger app fs f :
  let r := upload_route app fs (Some f) in
  match response_status (run_response r) with
  | Some AUTHENTIC =>
      exists buf d c,
        fs !! path f = Some buf
        /\ d ∈ run_db r
        /\ get_column c d = Some (keccak256 buf)
        /\ (c = col_watermarked_content_hash -> verified d = true)
        /\ Spec.ledger_confirms (blockchain app) (document_hash d) = true
  | Some TAMPERED =>
      exists buf e d,
        fs !! path f = Some buf
        /\ extract_upload fs f = Ok e
        /\ fst (resolve_document (db app) (hash e) (keccak256 buf)
                  (originalname f)) = Some d
        /\ Spec.ledger_confirms (blockchain app) (document_hash d) = true
  | _ => True
  end.
Proof.
  intros r. subst r.
  destruct (fs !! path f) as [buf|] eqn:Hb;
    [|by unfold upload_route, readFile; rewrite Hb].
  destruct (extract_upload fs f) as [e|] eqn:He;
    [|by unfold upload_route, readFile; rewrite Hb, He].
  destruct (fst (resolve_document (db app) (hash e) (keccak256 buf)
                   (originalname f))) as [doc|] eqn:Hr.
  2:{ unfold upload_route, readFile. rewrite Hb, He.
      destruct (resolve_document _ _ _ _) as [o q]. cbn [fst] in Hr.
      by subst o. }
  pose proof (check_blockchain_confirms (blockchain app) (document_hash doc))
    as Hcb.
  destruct (check_blockchain (blockchain app) (document_hash doc))
    as [[t|] lookups] eqn:Hc.
  2:{ unfold upload_route, readFile. rewrite Hb, He.
      destruct (resolve_document _ _ _ _) as [o q]. cbn [fst] in Hr.
      subst o. by rewrite Hc. }
  destruct Hcb as [_ Hconf].
  destruct (upload_route_confirmed app fs f buf e doc t lookups Hb He Hr Hc)
    as [-> ->].
  cbn [response_status verdict_body verificationStatus].
  unfold compare_stage.
  destruct (updateDocumentHashes_effect fs doc (db app))
    as (d' & db' & ups & -> & _ & Hframe & Hdb).
  destruct (head (select_by_document_hash db' (document_hash d')))
    as [upd|] eqn:Hu; cbn [fst snd].
  - destruct (authentic (with_blockchain t _)) eqn:Ha.
    + apply verifyDocumentIntegrity_authentic in Ha as (c & Hcol & Hv).
      apply head_select_by_document_hash in Hu as [Hin Hh].
      exists buf, upd, c. split_and!; try done.
      by rewrite Hh, (same_frame_document_hash _ _ Hframe).
    + by exists buf, e, doc.
  - cbn [unable_details authentic]. by exists buf, e, doc.
Qed.


Lemma head_select_Forall2 (P : row -> row -> Prop) db db' h doc :
  Forall2 (fun r r' => Spec.same_frame r r' /\ P r r') db db' ->
  head (select_by_document_hash db h) = Some doc ->
  exists upd,
    head (select_by_document_hash db' h) = Some upd
    /\ Spec.same_frame doc upd /\ P doc upd.
Proof.
  unfold select_by_document_hash.
  induction 1 as [|r r' db db' [Hf HP] _ IH]; [done|].
  cbn [List.filter]. rewrite (same_frame_document_hash _ _ Hf).
  destruct (String.eqb (document_hash r) h); [|done].
  intros [= ->]. by exists r'.
Qed.

Lemma stored_file_authentic_run app fs f buf e doc c :
  fs !! path f = Some buf ->
  extract_upload fs f = Ok e ->
  fst (resolve_document (db app) (hash e) (keccak256 buf) (originalname f))
  = Some doc ->
  head (select_by_document_hash (db app) (document_hash doc)) = Some doc ->
  Spec.ledger_confirms (blockchain app) (document_hash doc) = true ->
  truthy_str (keccak256 buf) = true ->
  Spec.filled fs doc doc c = Some (keccak256 buf) ->
  (c = col_watermarked_content_hash -> verified doc = true) ->
  response_status (run_response (upload_route app fs (Some f)))
  = Some AUTHENTIC.
Proof.
  intros Hb He Hr Hd Hconf Hk Hfill Hv.
  pose proof (check_blockchain_confirms (blockchain app) (document_hash doc))
    as Hcb.
  destruct (check_blockchain (blockchain app) (document_hash doc))
    as [[t|] lookups] eqn:Hc; [|destruct Hcb; congruence].
  destruct (upload_route_confirmed app fs f buf e doc t lookups Hb He Hr Hc)
    as [-> _].
  cbn [response_status verdict_body verificationStatus].
  unfold compare_stage.
  destruct (updateDocumentHashes_effect fs doc (db app))
    as (d' & db' & ups & -> & _ & Hframe & Hdb).
  rewrite (same_frame_document_hash _ _ Hframe).
  destruct (head_select_Forall2 _ _ _ _ _ Hdb Hd) as (upd & -> & Hfu & Hcols).
  cbn [fst snd with_blockchain authentic].
  rewrite (verifyDocumentIntegrity_match _ _ _ _ _ _ c); [done|done| |].
  - by rewrite Hcols, String.eqb_refl.
  - intros Hw. rewrite (same_frame_verified _ _ Hfu). auto.
Qed.

(** X11. An upload that is byte-identical to a stored file of the
    record it resolves to is answered AUTHENTIC when the ledger confirms
    the record, also when the hash of that file had never been stored:
    the backfill computes it before the comparison. For the watermarked
    file this needs the [verified] flag. The digest is assumed non-empty,
    as every Keccak-256 digest is. *)
Theorem stored_file_authentic app fs f buf e doc c p :
  fs !! path f = Some buf ->
  extract_upload fs f = Ok e ->
  fst (resolve_document (db app) (hash e) (keccak256 buf) (originalname f))
  = Some doc ->
  head (select_by_document_hash (db app) (document_hash doc)) = Some doc ->
  Spec.ledger_confirms (blockchain app) (document_hash doc) = true ->
  truthy_str (keccak256 buf) = true ->
  Spec.file_path_of c doc = Some p -> truthy_str p = true ->
  fs !! p = Some buf ->
  get_column c doc = None \/ get_column c doc = Some (keccak256 buf) ->
  (c = col_watermarked_content_hash -> verified doc = true) ->
  response_status (run_response (upload_route app fs (Some f)))
  = Some AUTHENTIC.
Proof.
  intros Hb He Hr Hd Hconf Hk Hp Htp Hfile Hcol Hv.
  apply (stored_file_authentic_run app fs f buf e doc c); try done.
  destruct Hcol as [Hn|Hs].
  - apply (fill_readable fs doc c p buf); try done. by rewrite Hn.
  - rewrite fill_present; [done|]. by rewrite Hs.
Qed.

End Verdicts.

(** ** From issuance to verification *)

Section Issuance.
Context `{Libs}.
Import Documents Verification.

Lemma embedQRInPDF_ok fs pdfPath qr h fs1 p :
  embedQRInPDF fs pdfPath qr h = Ok (fs1, p) ->
  p = processed_path h
  /\ exists doc,
      fs1 = <[p := PDFDocument_save doc]> fs
      /\ Subject doc = Some h
      /\ Keywords doc = Some ("verification_hash:" +:+ h).
Proof.
  unfold embedQRInPDF, readFile, load_pdf, mbind, res_bind, bind.
  destruct (fs !! pdfPath) as [b|]; [|done].
  destruct (PDFDocument_load b) as [d|]; [|done].
  destruct (embedPng qr); cbn [negb]; [|done].
  cbn [pages setProducer setKeywords setSubject].
  destruct (pages d) as [|firstPage others]; [done|].
  intros [= <- <-]. split; [done|]. eexists. split; [reflexivity|]. done.
Qed.

Lemma registerDocument_hash svc h r :
  Blockchain.initialized svc = true -> Blockchain.signer svc = true ->
  is_hash h = true ->
  Blockchain.registerDocument svc (Some h) None (Some r)
  = Ok ({| Blockchain.initialized := true; Blockchain.signer := true;
           Blockchain.contract :=
             (Blockchain.contract svc
              ++ [(Blockchain.bytes32 h, Blockchain.block_timestamp r)])%list |},
        Blockchain.Registered (Blockchain.tx_hash r) (Blockchain.blockNumber r) h).
Proof.
  intros Hi Hs Hh. unfold Blockchain.registerDocument.
  rewrite Hi, Hs. cbn [andb negb truthy default from_option Datatypes.id].
  assert (Ht : truthy_str h = true) by (by destruct h).
  rewrite Ht, (startsWith_0x_hash h Hh).
  unfold mbind, res_bind, bind. rewrite Hh. done.
Qed.

Lemma select_last_row db r :
  (forall r', r' ∈ db -> document_hash r' <> document_hash r) ->
  head (select_by_document_hash (db ++ [r])%list (document_hash r)) = Some r.
Proof.
  intros Hne. unfold select_by_document_hash.
  induction db as [|a db IH]; cbn [app List.filter].
  - by rewrite String.eqb_refl.
  - destruct (String.eqb_spec (document_hash a) (document_hash r)) as [E|_].
    + exfalso. by apply (Hne a); [left|].
    + apply IH. intros r' Hr'. apply Hne. by right.
Qed.

Lemma processed_not_watermarked h h' ext :
  processed_path h <> watermarked_path h' ext.
Proof.
  unfold processed_path, watermarked_path. rewrite !append_cons. by intros [=].
Qed.

(** X12. Issue, finalise, verify. For a PDF processed by
    [embedQRInPDF] under a fresh, well-formed document hash and recorded
    by [POST /process], a run of [POST /finalize] with a working gateway
    answers 200, and an upload of the processed file is then answered
    AUTHENTIC. *)
Theorem issued_pdf_verifies app svc fs pdfPath qr h fs1 p rcpt env
    new_id now sn sid prog ty issued oname opath f b :
  metadata_survives ->
  (forall x, truthy_str (keccak256 x) = true) ->
  is_digest h = true ->
  (forall r, r ∈ db app -> document_hash r <> h) ->
  blockchain app = Some svc ->
  Blockchain.initialized svc = true -> Blockchain.signer svc = true ->
  mined env = Some rcpt ->
  embedQRInPDF fs pdfPath qr h = Ok (fs1, p) ->
  fs1 !! p = Some b ->
  mimetype f = "application/pdf" ->
  let issued_app :=
    {| db := insert_processed (db app) new_id now h sn sid prog ty issued
               oname p opath;
       blockchain := blockchain app |} in
  let st := finalize issued_app fs1 env (Some h) in
  let r := upload_route (fin_locals st) (<[path f := b]> (fin_fs st))
             (Some f) in
  (exists tx wfile,
      fin_response st
      = Finalize200 (Some tx) wfile
          "Document successfully verified on blockchain")
  /\ response_status (run_response r) = Some AUTHENTIC.
Proof.
  intros Hms Hk Hdig Hnew Hbc Hi Hs Hm Hembed Hb Hmime issued_app st r.
  apply is_digest_inv in Hdig as [Hh Hlow].
  apply embedQRInPDF_ok in Hembed as (-> & doc & -> & Hsub & Hkw).
  rewrite lookup_insert_eq in Hb. injection Hb as <-.
  set (fsp := <[processed_path h := PDFDocument_save doc]> fs) in *.
  set (new := {| id := new_id; document_hash := h; student_name := sn;
                 student_id := sid; program := prog; document_type := ty;
                 date_issued := issued; original_file_name := oname;
                 processed_file_path := processed_path h;
                 watermarked_file_path := None;
                 original_file_path := Some opath; created_at := now;
                 blockchain_tx_hash := None; block_number := None;
                 verified := false; registrar_id := None;
                 content_hash := None; processed_content_hash := None;
                 watermarked_content_hash := None |}).
  assert (Hsel : head (select_by_document_hash (db app ++ [new])%list h)
                 = Some new) by (by apply (select_last_row (db app) new)).
  assert (Ht : truthy_str h = true) by (by destruct h).
  (* the run of finalize *)
  assert (Hst : exists wpo fs',
             st = {| fin_response :=
                       Finalize200 (Some (Blockchain.tx_hash rcpt)) wpo
                         "Document successfully verified on blockchain";
                     fin_locals :=
                       {| db := update_verified (db app ++ [new])%list
                                  (Blockchain.tx_hash rcpt) None
                                  (if truthy wpo then wpo else None) h;
                          blockchain :=
                            Some {| Blockchain.initialized := true;
                                    Blockchain.signer := true;
                                    Blockchain.contract :=
                                      (Blockchain.contract svc
                                       ++ [(Blockchain.bytes32 h,
                                            Blockchain.block_timestamp rcpt)])%list |} |};
                     fin_fs := fs' |}
             /\ fs' !! processed_path h = Some (PDFDocument_save doc)).
  { subst st issued_app. unfold finalize. cbn [truthy blockchain db].
    rewrite Ht, Hbc, Hi. cbn [negb default from_option Datatypes.id].
    unfold finalize_ledger, insert_processed. cbn [db blockchain].
    fold new. rewrite Hsel. cbn [verified new andb].
    rewrite Hm, (registerDocument_hash svc h rcpt Hi Hs Hh).
    cbn [processed_file_path new].
    destruct (createWatermarkedDocument fsp (processed_path h) h _)
      as [[fs' wp]|] eqn:Hw.
    - apply createWatermarkedDocument_ok in Hw as (-> & src & bytes & _ & ->).
      eexists (Some _), _. split; [reflexivity|].
      rewrite lookup_insert_ne by (intros E; symmetry in E;
                                   by apply processed_not_watermarked in E).
      subst fsp. by rewrite lookup_insert_eq.
    - exists None, fsp. split; [reflexivity|].
      subst fsp. by rewrite lookup_insert_eq. }
  destruct Hst as (wpo & fs' & Hst & Hfs').
  split; [rewrite Hst; by eexists _, _|].
  subst r. rewrite Hst. cbn [fin_locals fin_fs].
  set (doc2 := mark_verified (Blockchain.tx_hash rcpt) None
                 (if truthy wpo then wpo else None) new).
  set (fs2 := <[path f := PDFDocument_save doc]> fs').
  assert (Hfs2 : fs2 !! processed_path h = Some (PDFDocument_save doc)).
  { subst fs2. destruct (decide (path f = processed_path h)) as [->|Hne].
    - by rewrite lookup_insert_eq.
    - by rewrite lookup_insert_ne. }
  assert (Hup : fs2 !! path f = Some (PDFDocument_save doc))
    by (subst fs2; by rewrite lookup_insert_eq).
  assert (He : extract_upload fs2 f
               = Ok {| hash := Some h; isWatermarked := false |}).
  { unfold extract_upload. rewrite Hmime, String.eqb_refl.
    rewrite extractHashFromPDF_spec, Hup. cbn [mbind option_bind].
    destruct (Hms doc) as (d' & -> & Hs' & Hk').
    f_equal. apply extract_embedded; congruence. }
  assert (Hdoc2 : head (select_by_document_hash
                          (update_verified (db app ++ [new])%list
                             (Blockchain.tx_hash rcpt) None
                             (if truthy wpo then wpo else None) h) h)
                  = Some doc2)
    by (by rewrite head_select_update_verified, Hsel).
  apply (stored_file_authentic_run _ fs2 f (PDFDocument_save doc)
           {| hash := Some h; isWatermarked := false |} doc2
           col_processed_content_hash); try done.
  - rewrite resolve_document_result. unfold Spec.resolve, Spec.by_embedded.
    cbn [hash truthy db default from_option Datatypes.id]. rewrite Ht.
    rewrite <- head_filter_find.
    change (List.filter _ ?l) with (select_by_document_hash l h).
    by rewrite Hdoc2.
  - cbn [blockchain document_hash doc2 mark_verified new].
    rewrite ledger_confirms_eq. cbn [Blockchain.initialized Blockchain.contract].
    rewrite Hh. cbn [andb]. apply bool_decide_eq_true.
    apply contract_verifyDocument_app. by right.
  - apply (fill_readable fs2 doc2 col_processed_content_hash
             (processed_path h)); done.
Qed.

End Issuance.

(** ** Resolution of uploads *)

Section Resolution.
Context `{Libs}.
Import Documents Verification.

Lemma erased_columns r c : Spec.erase_hashes r = r -> get_column c r = None.
Proof.
  intros E. rewrite <- E. by destruct c.
Qed.

Lemma erased_mark_verified tx blk wp r :
  Spec.erase_hashes r = r ->
  Spec.erase_hashes (mark_verified tx blk wp r) = mark_verified tx blk wp r.
Proof.
  intros E. unfold Spec.erase_hashes, mark_verified.
  cbn. f_equal; symmetry.
  - apply (erased_columns r col_content_hash E).
  - apply (erased_columns r col_processed_content_hash E).
  - apply (erased_columns r col_watermarked_content_hash E).
Qed.

Lemma finalize_db app fs env h :
  db (fin_locals (finalize app fs env h)) = db app
  \/ exists tx wp hh,
      db (fin_locals (finalize app fs env h))
      = update_verified (db app) tx None wp hh.
Proof.
  unfold finalize. destruct (negb (truthy h)); [by left|].
  assert (Hsim : forall hh,
             db (fin_locals (finalize_simulation app fs env hh)) = db app).
  { intros hh. unfold finalize_simulation. destruct (head _); [|done].
    by destruct (createWatermarkedDocument _ _ _ _) as [[? ?]|]. }
  destruct (blockchain app) as [svc|]; [|by left].
  destruct (Blockchain.initialized svc); [|by left].
  unfold finalize_ledger. destruct (head _) as [d|]; [|by left].
  destruct (_ && bool_decide _); [by left|].
  destruct (Blockchain.registerDocument _ _ _ _) as [[svc' [tx blk h'|e]]|e];
    [|by left..].
  right. destruct (createWatermarkedDocument _ _ _ _) as [[fs' p]|];
    by eexists _, _, _.
Qed.

Lemma by_content_erased l u :
  Forall (fun r => Spec.erase_hashes r = r) l -> Spec.by_content l u = None.
Proof.
  unfold Spec.by_content. induction 1 as [|r l Hr _ IH]; [done|].
  cbn [find].
  pose proof (erased_columns r col_content_hash Hr) as H1.
  pose proof (erased_columns r col_processed_content_hash Hr) as H2.
  pose proof (erased_columns r col_watermarked_content_hash Hr) as H3.
  cbn [get_column] in H1, H2, H3. by rewrite H1, H2, H3.
Qed.

(** X13. Issuance stores no content hash: in a store whose records
    carry none, the rows [POST /process] inserts and the rows
    [POST /finalize] updates carry none either, so the lookup of the
    uploaded bytes' hash finds nothing and an upload is resolved by its
    embedded hash or, failing that, by the filename fallback. *)
Theorem issuance_stores_no_hashes app fs env h new_id now dh sn sid prog ty
    issued oname ppath opath :
  Forall (fun r => Spec.erase_hashes r = r) (db app) ->
  Forall (fun r => Spec.erase_hashes r = r)
    (insert_processed (db app) new_id now dh sn sid prog ty issued oname
       ppath opath)
  /\ Forall (fun r => Spec.erase_hashes r = r)
       (db (fin_locals (finalize app fs env h)))
  /\ forall e u name,
      Spec.by_content (db app) u = None
      /\ fst (resolve_document (db app) e u name)
         = match Spec.by_embedded (db app) e with
           | Some r => Some r
           | None => Spec.by_filename (db app) name
           end.
Proof.
  intros Hfresh. split_and!.
  - unfold insert_processed. apply Forall_app. split; [done|].
    by constructor.
  - destruct (finalize_db app fs env h) as [->|(tx & wp & hh & ->)]; [done|].
    unfold update_verified. apply Forall_map.
    eapply Forall_impl; [exact Hfresh|]. intros r Hr. cbn beta.
    destruct (String.eqb _ _); [by apply erased_mark_verified|done].
  - intros e u name.
    pose proof (by_content_erased (db app) u Hfresh) as Hc.
    split; [done|]. rewrite resolve_document_result. unfold Spec.resolve.
    by rewrite Hc.
Qed.

Lemma drop_hex_all_hex r : all_hex r = true -> drop_hex r = "".
Proof.
  induction r as [|c r IH]; [done|]. cbn [all_hex drop_hex].
  intros [-> Hr]%andb_true_iff. by apply IH.
Qed.

Lemma remove_address_fragment_hash h :
  is_hash h = true -> remove_address_fragment h = "".
Proof.
  intros (d & -> & Hlen & Hd)%is_hash_inv.
  destruct d as [|c d]; [done|]. cbn [all_hex] in Hd.
  apply andb_true_iff in Hd as [Hc Hd].
  cbn. rewrite Hc. by apply drop_hex_all_hex.
Qed.

Lemma most_recent_fold rows b :
  exists r,
    fold_left (fun best r =>
                 match best with
                 | None => Some r
                 | Some b => if created_at b <? created_at r then Some r
                             else Some b
                 end) rows (Some b) = Some r
    /\ r ∈ b :: rows
    /\ forall r', r' ∈ b :: rows -> created_at r' <= created_at r.
Proof.
  revert b. induction rows as [|a rows IH]; intros b.
  { exists b. split; [done|]. split; [by left|].
    intros r' ->%list_elem_of_singleton. done. }
  cbn [fold_left].
  destruct (created_at b <? created_at a) eqn:E.
  - destruct (IH a) as (r & -> & Hin & Hmax). exists r.
    split; [done|]. split; [by right|].
    apply Z.ltb_lt in E. intros r' [->|Hr']%elem_of_cons; [|by apply Hmax].
    specialize (Hmax a ltac:(by left)). lia.
  - destruct (IH b) as (r & -> & Hin & Hmax). exists r.
    split; [done|]. split.
    + apply elem_of_cons in Hin as [->|Hin]; [by left|by do 2 right].
    + apply Z.ltb_ge in E. intros r' [->|[->|Hr']%elem_of_cons]%elem_of_cons.
      * apply Hmax. by left.
      * specialize (Hmax b ltac:(by left)). lia.
      * apply Hmax. by right.
Qed.

Lemma most_recent_max rows :
  rows <> [] ->
  exists r, most_recent rows = [r] /\ r ∈ rows
            /\ forall r', r' ∈ rows -> created_at r' <= created_at r.
Proof.
  destruct rows as [|b rows]; [done|]. intros _. unfold most_recent.
  cbn [fold_left]. destruct (most_recent_fold rows b) as (r & -> & Hin & Hmax).
  by exists r.
Qed.

Lemma find_elem {A} (f : A -> bool) l x : List.find f l = Some x -> x ∈ l.
Proof. intros [Hin _]%find_some. by apply list_elem_of_In. Qed.

(** X14. An upload whose file name, without its extension, is a
    well-formed hash (the name the processed files are stored under) is
    never answered NOT_FOUND while the store holds a record: the fallback
    strips the hash from the name and queries with the pattern %%, which
    every name matches, so when the hash lookups find nothing the most
    recently created record of the whole store is taken. *)
Theorem hash_named_upload_resolves db e u name h :
  is_hash h = true ->
  path_basename name (path_extname name) = h ->
  (forall s, sql_like "%%" s = true) ->
  db <> [] ->
  exists r,
    fst (resolve_document db e u name) = Some r
    /\ r ∈ db
    /\ (Spec.by_embedded db e = None -> Spec.by_content db u = None ->
        forall r', r' ∈ db -> created_at r' <= created_at r).
Proof.
  intros Hh Hbase Hlike Hdb. rewrite resolve_document_result.
  unfold Spec.resolve.
  destruct (Spec.by_embedded db e) as [r|] eqn:He.
  { exists r. split; [done|]. split; [|done].
    unfold Spec.by_embedded in He. destruct (truthy e); [|done].
    by apply find_elem in He. }
  destruct (Spec.by_content db u) as [r|] eqn:Hc.
  { exists r. split; [done|]. split; [|done]. by apply find_elem in Hc. }
  unfold Spec.by_filename, fuzzy_base. rewrite Hbase.
  rewrite (remove_address_fragment_hash h Hh).
  change ("%" +:+ remove_verified_prefix "" +:+ "%") with "%%".
  unfold select_by_filename.
  assert (Hall : List.filter
                   (fun r => sql_like "%%" (original_file_name r)
                             || sql_like "%%" (processed_file_path r)
                             || sql_like_opt (watermarked_file_path r) "%%") db
                 = db).
  { clear -Hlike. induction db as [|r db IH]; [done|]. cbn [List.filter].
    by rewrite Hlike, IH. }
  rewrite Hall. destruct (most_recent_max db Hdb) as (r & -> & Hin & Hmax).
  exists r. done.
Qed.

End Resolution.

(** ** Word-template content *)

Section Templates.
Context `{Libs}.
Import PDFService EncoderSpec.

Lemma truthy_str_append_cons a c b : truthy_str (a +:+ String c b) = true.
Proof. by destruct a. Qed.

Lemma toISOString_truthy t iso : toISOString t = Ok iso -> truthy_str iso = true.
Proof.
  unfold toISOString. destruct t as [t|]; [|done].
  destruct (Z.abs t <=? 8640000000000000); [|done].
  destruct (civil_from_days _) as [[y m] d]. intros [= <-].
  apply truthy_str_append_cons.
Qed.

Lemma template_course_lines_agree cs n :
  Forall (fun c => truthy_val (tc_code c) = true
                   /\ truthy_val (tc_name c) = true) cs ->
  template_course_lines n cs = course_lines n (map as_course cs).
Proof.
  intros Hcs. revert n. induction Hcs as [|c cs [Hc Hn] _ IH]; intros n; [done|].
  cbn [template_course_lines course_lines map]. rewrite IH. f_equal.
  unfold template_course_line, course_line.
  by rewrite !or_else_truthy.
Qed.

(** X15. On complete data the encoder for filled Word templates
    ([createStandardizedContentFromTemplateData]) writes the very string
    of [generateDocumentContent]: with document type, student id, student
    name, institution and every course code and name present, and the
    issue date given as the ISO string of the date. The hash of either
    string then verifies the other through [verifyDocumentContent]. *)
Theorem template_encoders_agree t now date iso :
  truthy_val (td_documentType t) = true ->
  truthy_val (td_student_id t) = true ->
  truthy_val (td_student_name t) = true ->
  truthy_val (td_institution t) = true ->
  Forall (fun c => truthy_val (tc_code c) = true
                   /\ truthy_val (tc_name c) = true)
    (default [] (td_courses t)) ->
  toISOString date = Ok iso ->
  td_issue_date t = JString iso ->
  createStandardizedContentFromTemplateData t now
  = generateDocumentContent (as_documentData t date)
  /\ forall content,
      generateDocumentContent (as_documentData t date) = Ok content ->
      exists content',
        createStandardizedContentFromTemplateData t now = Ok content'
        /\ verifyDocumentContent content'
             (JString (generateDocumentHash content)) = true.
Proof.
  intros Hty Hid Hname Hinst Hcs Hiso Hdate.
  assert (E : createStandardizedContentFromTemplateData t now
              = generateDocumentContent (as_documentData t date)).
  { unfold createStandardizedContentFromTemplateData, generateDocumentContent.
    cbn [as_documentData courseData grades dateIssued].
    rewrite Hdate, Hiso. cbn [truthy_val show].
    rewrite (toISOString_truthy _ _ Hiso).
    unfold mbind, res_bind, bind, header.
    cbn [as_documentData documentType studentId studentName institutionName
         default from_option Datatypes.id length Nat.ltb Nat.leb].
    rewrite !or_else_truthy, !append_assoc by done.
    destruct (td_courses t) as [cs|];
      cbn [fmap option_fmap option_map default from_option Datatypes.id] in *;
      [|done].
    rewrite length_map.
    destruct (length cs); [done|].
    by rewrite template_course_lines_agree. }
  split; [done|]. intros content Hc. exists content. rewrite E.
  split; [done|]. unfold verifyDocumentContent. apply String.eqb_refl.
Qed.

End Templates.

(** ** The login throttle *)

Section Throttle.
Import PDFService Auth Runs.

Lemma failed_attempts_snoc m cs c u ip :
  failed_attempts m (cs ++ [c])%list u ip
  = fst (recordLoginAttempt (failed_attempts m cs u ip) c u ip false).
Proof. unfold failed_attempts. by rewrite fold_left_app. Qed.

Lemma failed_attempts_entry m cs c u ip :
  m !! getAttemptKey u ip = None ->
  failed_attempts m (cs ++ [c])%list u ip !! getAttemptKey u ip
  = Some {| count := Z.of_nat (length cs) + 1;
            firstAttempt := at_first (hd c cs);
            lastAttempt := Some (at_last c);
            lockedUntil :=
              if MAX_LOGIN_ATTEMPTS <=? Z.of_nat (length cs) + 1
              then Some (at_lock c + LOCKOUT_DURATION) else None |}.
Proof.
  intros Hfresh. revert c.
  induction cs as [|c' cs IH] using rev_ind; intros c.
  - cbn [app failed_attempts fold_left recordLoginAttempt fst].
    rewrite lookup_insert_eq, Hfresh. reflexivity.
  - rewrite failed_attempts_snoc. cbn [recordLoginAttempt fst].
    rewrite lookup_insert_eq, IH. cbn [default from_option Datatypes.id count firstAttempt lockedUntil lastAttempt].
    rewrite length_app. cbn [length].
    replace (Z.of_nat (length cs + 1)) with (Z.of_nat (length cs) + 1) by lia.
    replace (hd c (cs ++ [c'])%list) with (hd c' cs) by (by destruct cs).
    unfold MAX_LOGIN_ATTEMPTS.
    destruct (5 <=? Z.of_nat (length cs) + 1 + 1) eqn:E1; [done|].
    destruct (5 <=? Z.of_nat (length cs) + 1) eqn:E2; [lia|done].
Qed.

Lemma ceil_div_pos a : 0 < Z.max 0 (ceil_div a 60000) <-> 0 < a.
Proof.
  unfold ceil_div.
  pose proof (Z.div_mod (- a) 60000 ltac:(lia)).
  pose proof (Z.mod_pos_bound (- a) 60000 ltac:(lia)). lia.
Qed.

Lemma ceil_div_le a b : a <= 60000 * b -> ceil_div a 60000 <= b.
Proof.
  unfold ceil_div. intros Ha.
  pose proof (Z.div_mod (- a) 60000 ltac:(lia)).
  pose proof (Z.mod_pos_bound (- a) 60000 ltac:(lia)). lia.
Qed.

(** X17. [getLockoutTimeRemaining] and [isAccountLocked] agree: the
    minutes remaining are positive exactly when the account is locked, at
    every clock reading and in every state of the map. *)
Theorem lockout_remaining_iff_locked m now u ip :
  (0 <? getLockoutTimeRemaining m now u ip) = isAccountLocked m now u ip.
Proof.
  unfold getLockoutTimeRemaining, isAccountLocked.
  destruct (m !! getAttemptKey u ip) as [a|]; [|done].
  destruct (truthy_time (lockedUntil a)); cbn [negb andb]; [|done].
  destruct (now <? default 0 (lockedUntil a)) eqn:E.
  - apply Z.ltb_lt, ceil_div_pos. lia.
  - apply Z.ltb_ge. apply Z.ltb_ge in E.
    pose proof (ceil_div_pos (default 0 (lockedUntil a) - now)). lia.
Qed.

Lemma failed_attempts_locked m cs c u ip now :
  m !! getAttemptKey u ip = None ->
  0 <= at_lock c ->
  MAX_LOGIN_ATTEMPTS <= Z.of_nat (length cs) + 1 ->
  isAccountLocked (failed_attempts m (cs ++ [c])%list u ip) now u ip
  = (now <? at_lock c + LOCKOUT_DURATION)
  /\ (at_lock c <= now ->
      getLockoutTimeRemaining (failed_attempts m (cs ++ [c])%list u ip) now
        u ip <= 15).
Proof.
  intros Hfresh Hc Hn. unfold isAccountLocked, getLockoutTimeRemaining.
  rewrite failed_attempts_entry by done. cbn [lockedUntil].
  destruct (MAX_LOGIN_ATTEMPTS <=? _) eqn:E; [|apply Z.leb_gt in E; lia].
  cbn [truthy_time default from_option Datatypes.id]. unfold LOCKOUT_DURATION.
  destruct (at_lock c + 15 * 60 * 1000 =? 0) eqn:E0;
    [apply Z.eqb_eq in E0; lia|].
  cbn [negb andb]. split; [by destruct (_ <? _)|].
  intros Hnow. apply Z.max_lub; [lia|]. apply ceil_div_le. lia.
Qed.

(** X16. Failed attempts are counted per user and address. Starting
    with no entry, after n failures the count is n; below five the
    account is never locked; from the fifth on it is locked until 15
    minutes after the clock reading of the last failure, and the minutes
    reported from then on are at most 15. *)
Theorem lockout_threshold m cs c u ip :
  m !! getAttemptKey u ip = None ->
  0 <= at_lock c ->
  let m' := failed_attempts m (cs ++ [c])%list u ip in
  let n := Z.of_nat (length cs) + 1 in
  (count <$> m' !! getAttemptKey u ip) = Some n
  /\ (n < MAX_LOGIN_ATTEMPTS -> forall now, isAccountLocked m' now u ip = false)
  /\ (MAX_LOGIN_ATTEMPTS <= n ->
      forall now,
        isAccountLocked m' now u ip = (now <? at_lock c + LOCKOUT_DURATION)
        /\ (at_lock c <= now -> getLockoutTimeRemaining m' now u ip <= 15)).
Proof.
  intros Hfresh Hc m' n.
  pose proof (failed_attempts_entry m cs c u ip Hfresh) as He.
  fold m' n in He. split; [by rewrite He|].
  split.
  - intros Hn now. unfold isAccountLocked. rewrite He. cbn [lockedUntil].
    destruct (MAX_LOGIN_ATTEMPTS <=? n) eqn:E; [apply Z.leb_le in E; lia|done].
  - intros Hn now. by apply failed_attempts_locked.
Qed.


Lemma recordLoginAttempt_lookup_ne m clock u ip success k :
  k <> getAttemptKey u ip ->
  fst (recordLoginAttempt m clock u ip success) !! k = m !! k.
Proof.
  intros Hk. unfold recordLoginAttempt. destruct success; cbn [fst].
  - by rewrite lookup_delete_ne.
  - by rewrite lookup_insert_ne.
Qed.

(** X18. [recordLoginAttempt] touches the entry of its own user and
    address only, and a success deletes that entry: the account is then
    not locked and no lockout time remains. *)
Theorem recordLoginAttempt_frame m clock u ip success :
  let m' := fst (recordLoginAttempt m clock u ip success) in
  (forall u' ip' now,
      getAttemptKey u' ip' <> getAttemptKey u ip ->
      m' !! getAttemptKey u' ip' = m !! getAttemptKey u' ip'
      /\ isAccountLocked m' now u' ip' = isAccountLocked m now u' ip'
      /\ getLockoutTimeRemaining m' now u' ip'
         = getLockoutTimeRemaining m now u' ip')
  /\ (success = true ->
      m' !! getAttemptKey u ip = None
      /\ forall now,
          isAccountLocked m' now u ip = false
          /\ getLockoutTimeRemaining m' now u ip = 0).
Proof.
  intros m'. split.
  - intros u' ip' now Hk.
    pose proof (recordLoginAttempt_lookup_ne m clock u ip success _ Hk) as E.
    fold m' in E. unfold isAccountLocked, getLockoutTimeRemaining.
    by rewrite E.
  - intros ->. subst m'. cbn [recordLoginAttempt fst].
    unfold isAccountLocked, getLockoutTimeRemaining.
    by rewrite lookup_delete_eq.
Qed.

Lemma cleanup_lookup m now k :
  cleanup m now !! k
  = match m !! k with
    | Some a => if expired now a then None else Some a
    | None => None
    end.
Proof.
  unfold cleanup. destruct (m !! k) as [a|] eqn:E.
  - destruct (expired now a) eqn:Ee.
    + apply map_lookup_filter_None. right. intros a' Ha'. cbn [snd].
      rewrite E in Ha'. injection Ha' as <-. by rewrite Ee.
    + apply map_lookup_filter_Some. done.
  - apply map_lookup_filter_None. by left.
Qed.

(** X19. The cleanup timer is not observable through
    [isAccountLocked] or [getLockoutTimeRemaining] at any later clock
    reading, and it never deletes an entry that carries no lock. *)
Theorem cleanup_keeps_locks m now now' u ip :
  now <= now' ->
  isAccountLocked (cleanup m now) now' u ip = isAccountLocked m now' u ip
  /\ getLockoutTimeRemaining (cleanup m now) now' u ip
     = getLockoutTimeRemaining m now' u ip
  /\ forall k a,
      m !! k = Some a -> truthy_time (lockedUntil a) = false ->
      cleanup m now !! k = Some a.
Proof.
  intros Hle. unfold isAccountLocked, getLockoutTimeRemaining.
  rewrite cleanup_lookup.
  split_and!.
  - destruct (m !! getAttemptKey u ip) as [a|]; [|done].
    destruct (expired now a) eqn:Ee; [|done].
    unfold expired in Ee. apply andb_true_iff in Ee as [Ht El].
    rewrite Ht. apply Z.ltb_lt in El. cbn [andb].
    destruct (now' <? default 0 (lockedUntil a)) eqn:E'; [|done].
    apply Z.ltb_lt in E'. lia.
  - destruct (m !! getAttemptKey u ip) as [a|]; [|done].
    destruct (expired now a) eqn:Ee; [|done].
    unfold expired in Ee. apply andb_true_iff in Ee as [Ht El].
    rewrite Ht. apply Z.ltb_lt in El. cbn [negb].
    pose proof (ceil_div_pos (default 0 (lockedUntil a) - now')). lia.
  - intros k a Hk Ha. rewrite cleanup_lookup, Hk. unfold expired.
    by rewrite Ha.
Qed.

Lemma cleanups_unlocked m times k a :
  m !! k = Some a -> truthy_time (lockedUntil a) = false ->
  cleanups m times !! k = Some a.
Proof.
  revert m. induction times as [|t times IH]; intros m Hk Ha; [done|].
  cbn [cleanups fold_left]. apply IH; [|done].
  rewrite cleanup_lookup, Hk. unfold expired. by rewrite Ha.
Qed.

(** X20. Failed attempts below the threshold never expire: an entry
    with four failures and no lock survives any number of cleanup runs,
    and the next failure locks the account for 15 minutes, however long
    ago the four were recorded. *)
Theorem failures_never_expire m times c u ip a :
  m !! getAttemptKey u ip = Some a ->
  lockedUntil a = None ->
  MAX_LOGIN_ATTEMPTS - 1 <= count a ->
  0 <= at_lock c ->
  let m' := fst (recordLoginAttempt (cleanups m times) c u ip false) in
  forall now,
    isAccountLocked m' now u ip = (now <? at_lock c + LOCKOUT_DURATION).
Proof.
  intros Hk Hu Hn Hc m' now. subst m'.
  cbn [recordLoginAttempt fst]. unfold isAccountLocked.
  rewrite lookup_insert_eq.
  rewrite (cleanups_unlocked m times _ a Hk) by (by rewrite Hu).
  cbn [default from_option Datatypes.id count].
  destruct (MAX_LOGIN_ATTEMPTS <=? count a + 1) eqn:E;
    [|apply Z.leb_gt in E; lia].
  cbn [lockedUntil truthy_time default from_option Datatypes.id].
  unfold LOCKOUT_DURATION.
  destruct (at_lock c + 15 * 60 * 1000 =? 0) eqn:E0;
    [apply Z.eqb_eq in E0; lia|].
  cbn [negb andb]. by destruct (_ <? _).
Qed.

Lemma select_registrar_head regs name r rest :
  select_registrar regs name = r :: rest ->
  r ∈ regs /\ registrar_username r = name /\ is_active r = true.
Proof.
  intros E. assert (Hin : In r (select_registrar regs name))
    by (rewrite E; by left).
  apply filter_In in Hin as [Hin [Hn Ha]%andb_true_iff].
  split; [by apply list_elem_of_In|]. split; [by apply String.eqb_eq|done].
Qed.

(** X21. [POST /admin/login] answers 200 only to a request whose
    account was not locked when checked and whose password
    [bcrypt.compare] accepts against the first active registrar with the
    sanitised user name; the entry of that user and address is deleted
    then. *)
Theorem login_success_sound bc regs m clock ip u pw m' user_id :
  admin_login bc regs m clock ip u pw = (m', Login200 user_id) ->
  let name := show (sanitizeInput u) in
  isAccountLocked m (at_check clock) name ip = false
  /\ m' = delete (getAttemptKey name ip) m
  /\ exists r p,
      r ∈ regs /\ registrar_username r = name /\ is_active r = true
      /\ registrar_id r = user_id
      /\ pw = JString p /\ bc p (registrar_password r) = true.
Proof.
  unfold admin_login.
  destruct (negb (truthy_val (sanitizeInput u)) || negb (truthy_val pw));
    [intros [=]|].
  destruct (isAccountLocked m (at_check clock) _ ip) eqn:Hl; [intros [=]|].
  destruct (select_registrar regs _) as [|r rest] eqn:Hs.
  { destruct (recordLoginAttempt _ _ _ _ _). intros [=]. }
  destruct pw as [|p|]; [intros [=]| |intros [=]].
  destruct (bc p (registrar_password r)) eqn:Hb.
  - cbn [recordLoginAttempt fst]. intros [= <- <-].
    apply select_registrar_head in Hs as (? & ? & ?).
    split; [done|]. split; [done|]. by exists r, p.
  - destruct (recordLoginAttempt _ _ _ _ _) as [m1 a1].
    destruct (truthy_time _); intros [=].
Qed.

Lemma failed_login_recorded bc regs m clock ip u pw :
  truthy_val (sanitizeInput u) = true -> truthy_val pw = true ->
  isAccountLocked m (at_check clock) (show (sanitizeInput u)) ip = false ->
  rejected bc regs (show (sanitizeInput u)) pw = true ->
  fst (admin_login bc regs m clock ip u pw)
  = fst (recordLoginAttempt m (at_record clock) (show (sanitizeInput u)) ip
           false).
Proof.
  intros Hu Hp Hl Hr. unfold admin_login, rejected in *.
  rewrite Hu, Hp, Hl. cbn [negb orb].
  destruct (select_registrar regs _) as [|r rest]; [done|].
  destruct pw as [|p|]; [done| |done].
  apply negb_true_iff in Hr. rewrite Hr. cbn [recordLoginAttempt].
  by destruct (truthy_time _).
Qed.

Lemma failed_attempts_unlocked m cs u ip now :
  m !! getAttemptKey u ip = None ->
  Z.of_nat (length cs) < MAX_LOGIN_ATTEMPTS ->
  isAccountLocked (failed_attempts m cs u ip) now u ip = false.
Proof.
  intros Hfresh Hn.
  destruct cs as [|c cs _] using rev_ind.
  - unfold isAccountLocked. cbn. by rewrite Hfresh.
  - unfold isAccountLocked. rewrite failed_attempts_entry by done.
    cbn [lockedUntil]. rewrite length_app in Hn. cbn [length] in Hn.
    destruct (MAX_LOGIN_ATTEMPTS <=? _) eqn:E; [apply Z.leb_le in E; lia|done].
Qed.

Lemma logins_failed bc regs m reqs ip u :
  truthy_val (sanitizeInput u) = true ->
  m !! getAttemptKey (show (sanitizeInput u)) ip = None ->
  Z.of_nat (length reqs) <= MAX_LOGIN_ATTEMPTS ->
  Forall (fun req => truthy_val (snd req) = true
                     /\ rejected bc regs (show (sanitizeInput u)) (snd req)
                        = true) reqs ->
  logins bc regs m reqs ip u
  = failed_attempts m (map (fun req => at_record (fst req)) reqs)
      (show (sanitizeInput u)) ip.
Proof.
  intros Hu Hfresh.
  induction reqs as [|r reqs IH] using rev_ind; intros Hn Hall; [done|].
  apply Forall_app in Hall as [Hall Hr].
  apply Forall_inv in Hr as [Hp Hr].
  rewrite length_app in Hn. cbn [length] in Hn.
  unfold logins. rewrite fold_left_app. cbn [fold_left].
  fold (logins bc regs m reqs ip u). rewrite IH by (done || lia).
  rewrite map_app. cbn [map]. rewrite failed_attempts_snoc.
  apply failed_login_recorded; [done..| |done].
  apply failed_attempts_unlocked; [done|]. rewrite length_map. lia.
Qed.

(** X22. Five failed logins lock the account. After five requests of a
    user from one address, each rejected at the credentials, every
    further request checked before 15 minutes have passed since the fifth
    failure is answered 429, whatever password it carries, and is not
    counted. *)
Theorem failed_logins_lock bc regs m reqs r ip u :
  truthy_val (sanitizeInput u) = true ->
  m !! getAttemptKey (show (sanitizeInput u)) ip = None ->
  Z.of_nat (length reqs) + 1 = MAX_LOGIN_ATTEMPTS ->
  Forall (fun req => truthy_val (snd req) = true
                     /\ rejected bc regs (show (sanitizeInput u)) (snd req)
                        = true) (reqs ++ [r])%list ->
  0 <= at_lock (at_record (fst r)) ->
  let m' := logins bc regs m (reqs ++ [r])%list ip u in
  forall clock pw,
    truthy_val pw = true ->
    at_check clock < at_lock (at_record (fst r)) + LOCKOUT_DURATION ->
    exists minutes,
      admin_login bc regs m' clock ip u pw = (m', Login429 minutes).
Proof.
  intros Hu Hfresh Hn Hall Hc m' clock pw Hp Hnow.
  assert (Hm' : m' = failed_attempts m
                       (map (fun req => at_record (fst req)) reqs
                        ++ [at_record (fst r)])%list
                       (show (sanitizeInput u)) ip).
  { subst m'. rewrite logins_failed; [|done..| |done].
    - by rewrite map_app.
    - rewrite length_app. cbn [length]. lia. }
  destruct (failed_attempts_locked m
              (map (fun req => at_record (fst req)) reqs)
              (at_record (fst r)) _ ip (at_check clock) Hfresh Hc) as [Hl _];
    [rewrite length_map; lia|].
  rewrite <- Hm' in Hl.
  unfold admin_login. rewrite Hu, Hp. cbn [negb orb]. rewrite Hl.
  destruct (_ <? _) eqn:E; [by eexists|apply Z.ltb_ge in E; lia].
Qed.

Lemma remove_unsafe_safe s :
  Forall (fun c => is_unsafe c = false)
    (list_ascii_of_string (remove_unsafe s)).
Proof.
  induction s as [|c s IH]; cbn [remove_unsafe list_ascii_of_string]; [done|].
  destruct (is_unsafe c) eqn:E; [done|].
  cbn [list_ascii_of_string]. by constructor.
Qed.

Lemma remove_unsafe_id s :
  Forall (fun c => is_unsafe c = false) (list_ascii_of_string s) ->
  remove_unsafe s = s.
Proof.
  induction s as [|c s IH]; cbn [remove_unsafe list_ascii_of_string]; [done|].
  intros [Hc Hs]%Forall_cons. rewrite Hc. by rewrite IH.
Qed.

(** X23. A sanitised string holds no quote, double quote, backquote,
    semicolon or backslash and is no longer than the input; a value that
    is not a string is returned as it is; sanitising twice is sanitising
    once. *)
Theorem sanitizeInput_safe v :
  match sanitizeInput v with
  | JString s =>
      Forall (fun c => is_unsafe c = false) (list_ascii_of_string s)
      /\ (String.length s <= match v with
                             | JString s0 => String.length s0
                             | _ => 0
                             end)%nat
  | w => w = v
  end
  /\ sanitizeInput (sanitizeInput v) = sanitizeInput v.
Proof.
  destruct v as [|s|z]; cbn [sanitizeInput]; [done| |done].
  split; [split; [apply remove_unsafe_safe|]|].
  - induction s as [|c s IH]; cbn [remove_unsafe String.length]; [done|].
    destruct (is_unsafe c); cbn [String.length]; lia.
  - f_equal. apply remove_unsafe_id, remove_unsafe_safe.
Qed.

Lemma getAttemptKey_cons c u ip :
  getAttemptKey (String c u) ip = String c (getAttemptKey u ip).
Proof. reflexivity. Qed.

(** X24. For user names without a colon the key of the attempts map
    determines the user name and the address. *)
Theorem getAttemptKey_inj u1 ip1 u2 ip2 :
  includes ":" u1 = false -> includes ":" u2 = false ->
  getAttemptKey u1 ip1 = getAttemptKey u2 ip2 ->
  u1 = u2 /\ ip1 = ip2.
Proof.
  revert u2. induction u1 as [|c u1 IH]; intros u2 H1 H2.
  - destruct u2 as [|d u2].
    + cbn. by intros [=].
    + rewrite getAttemptKey_cons. cbn. intros [= <- _].
      exfalso. rewrite includes_cons in H2. cbn in H2. by destruct u2.
  - destruct u2 as [|d u2].
    + rewrite getAttemptKey_cons. cbn. intros [= -> _].
      exfalso. rewrite includes_cons in H1. cbn in H1. by destruct u1.
    + rewrite !getAttemptKey_cons. intros [= -> Hk].
      rewrite includes_cons in H1, H2.
      destruct (String.prefix ":" (String d u1)) eqn:E1; [done|].
      destruct (String.prefix ":" (String d u2)) eqn:E2; [done|].
      destruct (IH u2 H1 H2 Hk) as [-> ->]. done.
Qed.

End Throttle.

(** ** Records of the store *)

Section Records.
Context `{Libs}.
Import Documents Verification.

Lemma finalize_db_update app fs env h :
  db (fin_locals (finalize app fs env h)) = db app
  \/ exists tx wp hh,
      h = Some hh
      /\ (wp = None
          \/ exists ext, wp = Some (watermarked_path hh ext))
      /\ db (fin_locals (finalize app fs env h))
         = update_verified (db app) tx None wp hh.
Proof.
  unfold finalize. destruct (truthy h) eqn:Hh; cbn [negb]; [|by left].
  destruct h as [hh|]; [|done]. cbn [default from_option Datatypes.id].
  assert (Hsim : db (fin_locals (finalize_simulation app fs env hh)) = db app).
  { unfold finalize_simulation. destruct (head _); [|done].
    by destruct (createWatermarkedDocument _ _ _ _) as [[? ?]|]. }
  destruct (blockchain app) as [svc|]; [|by left].
  destruct (Blockchain.initialized svc); [|by left].
  unfold finalize_ledger. destruct (head _) as [d|]; [|by left].
  destruct (_ && bool_decide _); [by left|].
  destruct (Blockchain.registerDocument _ _ _ _) as [[svc' [tx blk h'|e]]|e];
    [|by left..].
  right. destruct (createWatermarkedDocument _ _ _ _) as [[fs' p]|] eqn:Hw.
  - apply createWatermarkedDocument_ok in Hw as (-> & _).
    eexists _, _, _. split; [done|]. split; [|reflexivity].
    cbn [truthy]. rewrite watermarked_path_truthy. right. by eexists.
  - eexists _, _, _. split; [done|]. split; [|reflexivity]. by left.
Qed.

(** X25. [POST /finalize] changes no record but those stored under the
    requested hash. In those it sets [verified], the transaction hash
    and, when it wrote one, the path of the watermarked file; it sets
    [block_number] to NULL whatever block the chain answered, because the
    route reads [block_number] where the gateway answers [blockNumber];
    every other column, the three content hashes included, is left as it
    was. *)
Theorem finalize_frame app fs env h :
  Forall2
    (fun r r' =>
       r' = r
       \/ (h = Some (document_hash r)
           /\ verified r' = true
           /\ is_Some (blockchain_tx_hash r')
           /\ block_number r' = None
           /\ (watermarked_file_path r' = watermarked_file_path r
               \/ exists ext,
                   watermarked_file_path r'
                   = Some (watermarked_path (document_hash r) ext))
           /\ (id r', document_hash r', student_name r', student_id r',
               program r', document_type r', date_issued r',
               original_file_name r', processed_file_path r',
               original_file_path r', created_at r', registrar_id r')
              = (id r, document_hash r, student_name r, student_id r,
                 program r, document_type r, date_issued r,
                 original_file_name r, processed_file_path r,
                 original_file_path r, created_at r, registrar_id r)
           /\ forall c, get_column c r' = get_column c r))
    (db app) (db (fin_locals (finalize app fs env h))).
Proof.
  destruct (finalize_db_update app fs env h)
    as [->|(tx & wp & hh & -> & Hwp & ->)].
  { apply Forall_Forall2_diag, Forall_forall. intros r _. by left. }
  unfold update_verified. apply Forall2_fmap_r.
  apply Forall_Forall2_diag, Forall_forall. intros r _.
  unfold compose. cbn beta.
  destruct (String.eqb_spec (document_hash r) hh) as [<-|_]; [|by left].
  right. cbn [mark_verified verified blockchain_tx_hash block_number
              watermarked_file_path].
  split_and!; try done.
  destruct Hwp as [->|[ext ->]]; [by left|right; by exists ext].
Qed.

Lemma fill_none_no_update fs d db :
  (forall c, Spec.fill fs d c = None) ->
  updateDocumentHashes fs d db = (d, db, []).
Proof.
  intros Hn. unfold updateDocumentHashes.
  rewrite (backfill_step_fill fs col_processed_content_hash d d []) by done.
  rewrite Hn.
  rewrite (backfill_step_fill fs col_content_hash d d []) by done.
  rewrite Hn.
  rewrite (backfill_step_fill fs col_watermarked_content_hash d d []) by done.
  by rewrite Hn.
Qed.

Lemma same_frame_file_path c r r' :
  Spec.same_frame r r' -> Spec.file_path_of c r' = Spec.file_path_of c r.
Proof.
  intros E.
  change (Spec.file_path_of c (Spec.erase_hashes r')
          = Spec.file_path_of c (Spec.erase_hashes r)).
  by rewrite E.
Qed.

(** X26. The backfill is idempotent: run again on the record and the
    store it has left, [updateDocumentHashes] sends no update and changes
    nothing. The digests are assumed non-empty, as every Keccak-256 digest
    is. *)
Theorem updateDocumentHashes_idempotent fs d db :
  (forall b, truthy_str (keccak256 b) = true) ->
  updateDocumentHashes fs (fst (fst (updateDocumentHashes fs d db)))
    (snd (fst (updateDocumentHashes fs d db)))
  = (fst (fst (updateDocumentHashes fs d db)),
     snd (fst (updateDocumentHashes fs d db)), []).
Proof.
  intros Hk.
  destruct (updateDocumentHashes_effect fs d db)
    as (d' & db' & ups & -> & Hcols & Hframe & _).
  cbn [fst snd]. apply fill_none_no_update. intros c.
  unfold Spec.fill. rewrite (same_frame_file_path c _ _ Hframe), Hcols.
  unfold Spec.filled, Spec.fill.
  destruct (truthy (get_column c d)) eqn:Hc; [by rewrite ?Hc|].
  destruct (truthy (Spec.file_path_of c d)) eqn:Hp; [|by rewrite ?Hc, ?Hp].
  destruct (readFile_opt fs (Spec.file_path_of c d)) as [b|] eqn:Hr.
  - cbn [truthy]. by rewrite Hk.
  - by rewrite ?Hc, ?Hp, ?Hr.
Qed.

End Records.

(** ** Finalisation and the lookup by hash *)

Section Confirmation.
Context `{Libs}.
Import Documents Verification.

Lemma finalize_success app fs env h tx w :
  fin_response (finalize app fs env h)
  = Finalize200 tx w "Document successfully verified on blockchain" ->
  let st := finalize app fs env h in
  exists hh svc svc' t d,
    h = Some hh
    /\ blockchain app = Some svc
    /\ blockchain (fin_locals st) = Some svc'
    /\ Blockchain.initialized svc' = true
    /\ Blockchain.contract svc'
       = (Blockchain.contract svc
          ++ [(Blockchain.bytes32
                 (if startsWith "0x" hh then hh
                  else Blockchain.generateDocumentHash hh), t)])%list
    /\ is_hash (if startsWith "0x" hh then hh
                else Blockchain.generateDocumentHash hh) = true
    /\ head (select_by_document_hash (db app) hh) = Some d
    /\ head (select_by_document_hash (db (fin_locals st)) hh)
       = Some (mark_verified (default "" tx) None
                 (if truthy w then w else None) d)
    /\ is_Some tx.
Proof.
  unfold finalize. destruct h as [hh|]; [|done]. cbn [truthy].
  destruct (truthy_str hh) eqn:Hh; [|done].
  cbn [negb default from_option Datatypes.id].
  assert (Hsim : forall m, fin_response (finalize_simulation app fs env hh)
                           <> Finalize200 tx w m).
  { intros m. unfold finalize_simulation.
    destruct (head _); [|done].
    by destruct (createWatermarkedDocument _ _ _ _) as [[? ?]|]. }
  destruct (blockchain app) as [svc|] eqn:Hbc; [|by intros ?%Hsim].
  destruct (Blockchain.initialized svc) eqn:Hinit; [|by intros ?%Hsim].
  unfold finalize_ledger.
  destruct (head (select_by_document_hash (db app) hh)) as [d|] eqn:Hd; [|done].
  destruct (_ && bool_decide _); [done|].
  destruct (Blockchain.registerDocument svc (Some hh) None (mined env))
    as [[svc' [txh blk h'|e]]|e] eqn:Hreg; [|done..].
  apply registerDocument_registered in Hreg as (Hi' & _ & Hh' & -> & t & Hc).
  destruct (createWatermarkedDocument fs (processed_file_path d) hh _)
    as [[fs' p]|] eqn:Hw; cbn [fin_response fin_locals db blockchain];
    intros [= <- <-]; exists hh, svc, svc', t, d;
    rewrite head_select_update_verified, Hd;
    split_and!; try done; congruence.
Qed.

(** X27. After a run of [POST /finalize] that registered a well-formed
    document hash, [GET /:hash] answers [verified: true] from the
    blockchain, without a warning, with the transaction hash of that run
    and no block number. *)
Theorem finalize_then_lookup app fs env h hh tx w :
  h = Some hh ->
  is_hash hh = true ->
  fin_response (finalize app fs env h)
  = Finalize200 tx w "Document successfully verified on blockchain" ->
  exists b,
    lookup_route (fin_locals (finalize app fs env h)) hh = Lookup200 b
    /\ lk_verified b = Some true
    /\ lk_source b = "blockchain"
    /\ lk_warning b = None
    /\ (lk_blockchainTxHash <$> lk_metadata b) = Some tx
    /\ (lk_blockNumber <$> lk_metadata b) = Some None.
Proof.
  intros -> Hh Hr.
  destruct (finalize_success _ _ _ _ _ _ Hr)
    as (hh' & svc & svc' & t & d & [= <-] & Hbc & Hbc' & Hi & Hc & _ & Hd
        & Hd' & [txh ->]).
  rewrite (startsWith_0x_hash hh Hh) in Hc.
  assert (Hconf : Spec.ledger_confirms (Some svc') hh = true).
  { rewrite ledger_confirms_eq, Hi, Hh, Hc. cbn [andb].
    apply bool_decide_eq_true, contract_verifyDocument_app. by right. }
  pose proof (lookup_blockchain_confirms (Some svc') hh) as (Ht & Hv & Hts).
  unfold lookup_route. rewrite Hbc', Hd'.
  destruct (lookup_blockchain (Some svc') hh) as [v ts].
  cbn [fst snd] in Ht, Hv, Hts. rewrite Ht, Hconf.
  apply Hv in Hconf as ->. cbn. by eexists.
Qed.

End Confirmation.

(** ** Malformed identifiers *)

Section Malformed.
Context `{Libs}.
Import Documents Verification.

(** X28. A record whose [document_hash] is not a 32-byte hex string can
    never be verified, whatever the ledger holds: the gateway's call fails
    on the argument, so an upload that resolves to the record is answered
    NOT_VERIFIED and [GET /:hash] never answers [verified: true] for
    it. *)
Theorem malformed_hash_never_verified app fs f buf e doc :
  is_hash (document_hash doc) = false ->
  fs !! path f = Some buf ->
  extract_upload fs f = Ok e ->
  fst (resolve_document (db app) (hash e) (keccak256 buf) (originalname f))
  = Some doc ->
  Spec.ledger_confirms (blockchain app) (document_hash doc) = false
  /\ run_response (upload_route app fs (Some f))
     = Http200 (not_verified_body doc)
  /\ forall b,
      lookup_route app (document_hash doc) = Lookup200 b ->
      lk_verified b <> Some true /\ lk_source b = "database_only".
Proof.
  intros Hh Hb He Hr.
  assert (Hconf : Spec.ledger_confirms (blockchain app) (document_hash doc)
                  = false).
  { destruct (blockchain app) as [svc|]; [|done].
    by rewrite ledger_confirms_eq, Hh, andb_false_r. }
  split; [done|]. split.
  - pose proof (check_blockchain_confirms (blockchain app) (document_hash doc))
      as Hcb.
    unfold upload_route, readFile. rewrite Hb, He.
    destruct (resolve_document _ _ _ _) as [o q]. cbn [fst] in Hr. subst o.
    destruct (check_blockchain _ _) as [[t|] lookups];
      [destruct Hcb; congruence|done].
  - intros b. unfold lookup_route.
    pose proof (lookup_blockchain_confirms (blockchain app) (document_hash doc))
      as (Ht & Hv & _).
    destruct (lookup_blockchain _ _) as [v ts]. cbn [fst] in Ht, Hv.
    rewrite Ht, Hconf. cbn [negb andb].
    destruct (bool_decide _); cbn [negb]; [|done].
    intros [= <-]. cbn. split; [|done]. intros Hv'%Hv. congruence.
Qed.

End Malformed.

(** ** Answers of the login route *)

Section Enumeration.
Import PDFService Auth Runs.

(** X29. The failure that locks an account is answered differently for
    known and unknown users: 401 with no attempts remaining when no active
    registrar has the name, 429 when one has and the password is wrong. *)
Theorem locking_failure_reveals_user bc regs m clock ip u pw a :
  truthy_val (sanitizeInput u) = true -> truthy_val pw = true ->
  let name := show (sanitizeInput u) in
  isAccountLocked m (at_check clock) name ip = false ->
  m !! getAttemptKey name ip = Some a ->
  MAX_LOGIN_ATTEMPTS - 1 <= count a ->
  0 <= at_lock (at_record clock) ->
  rejected bc regs name pw = true ->
  snd (admin_login bc regs m clock ip u pw)
  = match select_registrar regs name with
    | [] => Login401 0
    | _ :: _ =>
        Login429
          (getLockoutTimeRemaining (fst (admin_login bc regs m clock ip u pw))
             (at_report clock) name ip)
    end.
Proof.
  intros Hu Hp name Hl Ha Hn Hc Hr. subst name.
  unfold admin_login, rejected in *. rewrite Hu, Hp, Hl. cbn [negb orb].
  assert (Hrec : recordLoginAttempt m (at_record clock)
                   (show (sanitizeInput u)) ip false
                 = (<[getAttemptKey (show (sanitizeInput u)) ip :=
                        {| count := count a + 1;
                           firstAttempt := firstAttempt a;
                           lastAttempt := Some (at_last (at_record clock));
                           lockedUntil :=
                             Some (at_lock (at_record clock)
                                   + LOCKOUT_DURATION) |}]> m,
                    Some {| count := count a + 1;
                            firstAttempt := firstAttempt a;
                            lastAttempt := Some (at_last (at_record clock));
                            lockedUntil :=
                              Some (at_lock (at_record clock)
                                    + LOCKOUT_DURATION) |})).
  { unfold recordLoginAttempt. rewrite Ha.
    cbn [default from_option Datatypes.id count].
    destruct (MAX_LOGIN_ATTEMPTS <=? count a + 1) eqn:E;
      [done|apply Z.leb_gt in E; lia]. }
  destruct (select_registrar regs _) as [|r rest].
  - rewrite Hrec. cbn [snd fmap option_fmap option_map default from_option Datatypes.id count].
    f_equal. unfold MAX_LOGIN_ATTEMPTS in *. lia.
  - destruct pw as [|p|]; [done| |done].
    apply negb_true_iff in Hr. rewrite Hr, Hrec.
    cbn [mbind option_bind lockedUntil truthy_time]. unfold LOCKOUT_DURATION.
    destruct (at_lock (at_record clock) + 15 * 60 * 1000 =? 0) eqn:E0;
      [apply Z.eqb_eq in E0; lia|].
    reflexivity.
Qed.

End Enumeration.

(** ** Instances *)

Section Instances.
Import Verification Documents Scenario.

(** The record of [h0], finalised with the gateway connected and then
    viewed. *)
Lemma finalize_then_view_witness :
  exists s,
    view_original (H := Reference.libs)
      (db (fin_locals (finalize (H := Reference.libs) unregistered fs0 env0
                         (Some h0))))
      (fin_fs (finalize (H := Reference.libs) unregistered fs0 env0 (Some h0)))
      h0 = View200 s
    /\ served_path s = watermarked_path h0 ".pdf"
    /\ x_document_type s = type_watermarked
    /\ x_watermarked s = true
    /\ x_document_verified s = true.
Proof.
  apply (finalize_then_view (H := Reference.libs) unregistered fs0 env0
           (Some h0) h0 (Some tx0) (watermarked_path h0 ".pdf")
           "Document successfully verified on blockchain").
  - reflexivity.
  - vm_compute. reflexivity.
Defined.

(** The same finalisation, run a second time. *)
Lemma finalize_idempotent_witness :
  finalize (H := Reference.libs)
    (fin_locals (finalize (H := Reference.libs) unregistered fs0 env0
                   (Some h0)))
    (fin_fs (finalize (H := Reference.libs) unregistered fs0 env0 (Some h0)))
    env0 (Some h0)
  = {| fin_response :=
         Finalize200 (Some tx0) (Some (watermarked_path h0 ".pdf"))
           "Document already verified on blockchain";
       fin_locals :=
         fin_locals (finalize (H := Reference.libs) unregistered fs0 env0
                       (Some h0));
       fin_fs :=
         fin_fs (finalize (H := Reference.libs) unregistered fs0 env0
                   (Some h0)) |}.
Proof.
  apply (finalize_idempotent (H := Reference.libs) unregistered fs0 env0 env0
           (Some h0) (Some tx0) (watermarked_path h0 ".pdf")
           "Document successfully verified on blockchain").
  - vm_compute. reflexivity.
  - reflexivity.
Defined.

(** The same request on a server that started without a gateway. *)
Lemma finalize_without_gateway_inert_witness :
  fin_locals (finalize (H := Reference.libs)
                {| db := [row0]; blockchain := None |} fs0 env0 (Some h0))
  = {| db := [row0]; blockchain := None |}.
Proof.
  apply (finalize_without_gateway_inert (H := Reference.libs)
           {| db := [row0]; blockchain := None |} fs0 env0 (Some h0)).
  reflexivity.
Defined.

(** The processed file of [h0], stamped for the transaction [tx0]. *)
Lemma watermark_replaces_embedded_hash_witness :
  extractHashFromPDF (H := Reference.libs)
    (<[watermarked_path h0 ".pdf" := Reference.save stamped_pdf]> fs0)
    (watermarked_path h0 ".pdf")
  = Ok {| hash := Some tx0; isWatermarked := true |}.
Proof.
  apply (watermark_replaces_embedded_hash (H := Reference.libs) fs0
           (processed_path h0) (watermarked_path h0 ".pdf") stamp0).
  - apply reference_metadata_survives.
  - reflexivity.
  - unfold addWatermarkToPDF, readFile, load_pdf, mbind, res_bind, bind, fs0.
    rewrite lookup_insert_ne by discriminate. rewrite lookup_singleton_eq.
    cbn [PDFDocument_load Reference.libs]. unfold processed_bytes.
    rewrite reference_load_save. reflexivity.
Defined.

(** Content that is hashed on registration is found again by its
    content. *)
Lemma register_then_verify_witness :
  exists t,
    Blockchain.verifyDocumentFromContent (H := Reference.libs)
      {| Blockchain.initialized := true; Blockchain.signer := true;
         Blockchain.contract :=
           [(Reference.digest (toUtf8Bytes "TOR:2021-00001"), 1704067200)] |}
      "TOR:2021-00001"
    = Ok (Blockchain.OnChain t).
Proof.
  destruct (register_then_verify (H := Reference.libs) chain_empty
              "TOR:2021-00001" (mined env0)
              {| Blockchain.initialized := true; Blockchain.signer := true;
                 Blockchain.contract :=
                   [(Reference.digest (toUtf8Bytes "TOR:2021-00001"),
                     1704067200)] |}
              tx0 12 (Reference.digest (toUtf8Bytes "TOR:2021-00001")))
    as (_ & _ & Hc & _).
  - vm_compute. reflexivity.
  - apply Hc. reflexivity.
Defined.

(** The processed file of [h0], uploaded against its registered record. *)
Lemma stored_file_authentic_witness :
  response_status
    (run_response (upload_route (H := Reference.libs)
                     {| db := [row0]; blockchain := Some chain_h0 |}
                     fs0 (Some upload0)))
  = Some AUTHENTIC.
Proof.
  apply (stored_file_authentic (H := Reference.libs)
           {| db := [row0]; blockchain := Some chain_h0 |} fs0 upload0
           processed_bytes extracted0 row0 col_processed_content_hash
           (processed_path h0)).
  - reflexivity.
  - unfold extract_upload, upload0, mimetype, path.
    cbn [String.eqb Ascii.eqb Bool.eqb].
    rewrite extractHashFromPDF_spec. unfold fs0.
    rewrite lookup_insert_eq. cbn [mbind option_bind PDFDocument_load Reference.libs].
    unfold processed_bytes. rewrite reference_load_save. reflexivity.
  - vm_compute. reflexivity.
  - vm_compute. reflexivity.
  - vm_compute. reflexivity.
  - vm_compute. reflexivity.
  - reflexivity.
  - reflexivity.
  - unfold fs0. rewrite lookup_insert_ne by discriminate.
    by rewrite lookup_singleton_eq.
  - right. reflexivity.
  - discriminate.
Defined.

Lemma reference_digest_truthy x :
  truthy_str (keccak256 (Libs := Reference.libs) x) = true.
Proof. reflexivity. Qed.

(** A blank one-page PDF issued under [h0] into an empty store. *)
Lemma issued_pdf_verifies_witness :
  response_status
    (run_response
       (upload_route (H := Reference.libs)
          (fin_locals
             (finalize (H := Reference.libs)
                {| db := insert_processed (db empty_app) 1 1704067200 h0
                           "Ana Cruz" "2021-00001" "BSCS" "TOR"
                           "2024-01-01T00:00:00.000Z" "diploma.pdf"
                           (processed_path h0) "uploads/originals/h0.pdf";
                   blockchain := blockchain empty_app |}
                (<[processed_path h0 := processed_bytes]> fs_blank) env0
                (Some h0)))
          (<[path upload0 := processed_bytes]>
             (fin_fs
                (finalize (H := Reference.libs)
                   {| db := insert_processed (db empty_app) 1 1704067200 h0
                              "Ana Cruz" "2021-00001" "BSCS" "TOR"
                              "2024-01-01T00:00:00.000Z" "diploma.pdf"
                              (processed_path h0) "uploads/originals/h0.pdf";
                      blockchain := blockchain empty_app |}
                   (<[processed_path h0 := processed_bytes]> fs_blank) env0
                   (Some h0))))
          (Some upload0)))
  = Some AUTHENTIC.
Proof.
  refine (proj2 (issued_pdf_verifies (H := Reference.libs) empty_app
                   chain_empty fs_blank temp [] h0
                   (<[processed_path h0 := processed_bytes]> fs_blank)
                   (processed_path h0)
                   {| Blockchain.tx_hash := tx0; Blockchain.blockNumber := 12;
                      Blockchain.block_timestamp := 1704067200 |}
                   env0 1 1704067200 "Ana Cruz" "2021-00001" "BSCS" "TOR"
                   "2024-01-01T00:00:00.000Z" "diploma.pdf"
                   "uploads/originals/h0.pdf" upload0 processed_bytes
                   reference_metadata_survives reference_digest_truthy
                   _ _ _ _ _ _ _ _ _)).
  - reflexivity.
  - intros r Hr. by apply elem_of_nil in Hr.
  - reflexivity.
  - reflexivity.
  - reflexivity.
  - reflexivity.
  - unfold embedQRInPDF, readFile, load_pdf, mbind, res_bind, bind, fs_blank.
    rewrite lookup_singleton_eq. cbn [PDFDocument_load Reference.libs].
    rewrite reference_load_save. reflexivity.
  - by rewrite lookup_insert_eq.
  - reflexivity.
Defined.

(** A store whose only record carries no content hash. *)
Lemma issuance_stores_no_hashes_witness :
  Spec.by_content (db pending) h0 = None.
Proof.
  refine (proj1 (proj2 (proj2 (issuance_stores_no_hashes
                                 (H := Reference.libs) pending fs0 env0 None
                                 1 0 "" "" "" "" "" "" "" "" "" _))
                  None h0 "")).
  constructor; [reflexivity|constructor].
Defined.

Lemma reference_like_any s : Reference.like "%%" s = true.
Proof.
  assert (H1 : forall t, Reference.like "%" t = true).
  { induction t as [|c t IH]; [done|]. cbn in *. by rewrite IH. }
  destruct s; cbn; by rewrite ?H1.
Qed.

(** An upload named after the processed file of [h0], against a store
    that holds one unrelated record. *)
Lemma hash_named_upload_resolves_witness :
  exists r,
    fst (resolve_document (H := Reference.libs) [row_photo] None h0
           hash_named) = Some r
    /\ r ∈ [row_photo].
Proof.
  destruct (hash_named_upload_resolves (H := Reference.libs) [row_photo] None
              h0 hash_named h0) as (r & Hr & Hin & _).
  - reflexivity.
  - vm_compute. reflexivity.
  - apply reference_like_any.
  - discriminate.
  - by exists r.
Defined.

(** A filled template without courses, encoded a day after its issue
    date. *)
Lemma template_encoders_agree_witness :
  PDFService.createStandardizedContentFromTemplateData word_template 86400000
  = PDFService.generateDocumentContent
      (EncoderSpec.as_documentData word_template (Some 0)).
Proof.
  refine (proj1 (template_encoders_agree (H := Reference.libs) word_template
                   86400000 (Some 0) "1970-01-01T00:00:00.000Z"
                   _ _ _ _ _ _ _)); try reflexivity.
  constructor.
Defined.

(** Five failures, one second apart. *)
Lemma lockout_threshold_witness :
  Auth.isAccountLocked
    (Runs.failed_attempts ∅ [tick 1000; tick 2000; tick 3000; tick 4000;
                             tick 5000] "admin" admin_ip)
    6000 "admin" admin_ip
  = (6000 <? 5000 + Auth.LOCKOUT_DURATION).
Proof.
  destruct (lockout_threshold ∅ [tick 1000; tick 2000; tick 3000; tick 4000]
              (tick 5000) "admin" admin_ip) as (_ & _ & Hl).
  - reflexivity.
  - cbn. lia.
  - apply Hl. vm_compute. discriminate.
Defined.

(** A cleanup run at one minute, observed at two. *)
Lemma cleanup_keeps_locks_witness :
  Auth.isAccountLocked
    (Auth.cleanup {[ Auth.getAttemptKey "admin" admin_ip := four_failures ]}
       60000) 120000 "admin" admin_ip
  = Auth.isAccountLocked
      {[ Auth.getAttemptKey "admin" admin_ip := four_failures ]} 120000
      "admin" admin_ip.
Proof.
  refine (proj1 (cleanup_keeps_locks _ 60000 120000 "admin" admin_ip _)).
  lia.
Defined.

(** Four failures, three cleanup runs, and a fifth failure a day later. *)
Lemma failures_never_expire_witness :
  Auth.isAccountLocked
    (fst (Auth.recordLoginAttempt
            (Runs.cleanups
               {[ Auth.getAttemptKey "admin" admin_ip := four_failures ]}
               [60000; 120000; 86400000])
            (tick 90000000) "admin" admin_ip false))
    90060000 "admin" admin_ip
  = (90060000 <? 90000000 + Auth.LOCKOUT_DURATION).
Proof.
  refine (failures_never_expire _ [60000; 120000; 86400000] (tick 90000000)
            "admin" admin_ip four_failures _ _ _ _ 90060000).
  - apply lookup_singleton_eq.
  - reflexivity.
  - vm_compute. discriminate.
  - cbn. lia.
Defined.

(** A first login with the right password. *)
Lemma login_success_sound_witness :
  Auth.isAccountLocked ∅ 1000 "admin" admin_ip = false.
Proof.
  refine (proj1 (login_success_sound String.eqb registrars0 ∅
                   (fst (request_at 1000 "correct horse 1")) admin_ip
                   (PDFService.JString "admin")
                   (PDFService.JString "correct horse 1")
                   (delete (Auth.getAttemptKey "admin" admin_ip) ∅) 1 _)).
  vm_compute. reflexivity.
Defined.

(** Five wrong guesses, then the right password one second later. *)
Lemma failed_logins_lock_witness :
  exists minutes,
    Auth.admin_login String.eqb registrars0
      (Runs.logins String.eqb registrars0 ∅
         [request_at 1000 "guess 1"; request_at 2000 "guess 2";
          request_at 3000 "guess 3"; request_at 4000 "guess 4";
          request_at 5000 "guess 5"] admin_ip (PDFService.JString "admin"))
      (fst (request_at 6000 "correct horse 1")) admin_ip
      (PDFService.JString "admin") (PDFService.JString "correct horse 1")
    = (Runs.logins String.eqb registrars0 ∅
         [request_at 1000 "guess 1"; request_at 2000 "guess 2";
          request_at 3000 "guess 3"; request_at 4000 "guess 4";
          request_at 5000 "guess 5"] admin_ip (PDFService.JString "admin"),
       Auth.Login429 minutes).
Proof.
  refine (failed_logins_lock String.eqb registrars0 ∅
            [request_at 1000 "guess 1"; request_at 2000 "guess 2";
             request_at 3000 "guess 3"; request_at 4000 "guess 4"]
            (request_at 5000 "guess 5") admin_ip (PDFService.JString "admin")
            _ _ _ _ _ (fst (request_at 6000 "correct horse 1"))
            (PDFService.JString "correct horse 1") _ _).
  - reflexivity.
  - reflexivity.
  - reflexivity.
  - repeat (constructor; [split; reflexivity|]). constructor.
  - cbn. lia.
  - reflexivity.
  - vm_compute. reflexivity.
Defined.

(** The key of [admin] at [admin_ip]. *)
Lemma getAttemptKey_inj_witness :
  "admin" = "admin" /\ admin_ip = admin_ip.
Proof.
  refine (getAttemptKey_inj "admin" admin_ip "admin" admin_ip _ _ _);
    reflexivity.
Defined.

(** A record without stored hashes, backfilled twice. *)
Lemma updateDocumentHashes_idempotent_witness :
  updateDocumentHashes (H := Reference.libs) fs0
    (fst (fst (updateDocumentHashes (H := Reference.libs) fs0
                 (mk_row 1 h0 "diploma.pdf" (processed_path h0))
                 [mk_row 1 h0 "diploma.pdf" (processed_path h0)])))
    (snd (fst (updateDocumentHashes (H := Reference.libs) fs0
                 (mk_row 1 h0 "diploma.pdf" (processed_path h0))
                 [mk_row 1 h0 "diploma.pdf" (processed_path h0)])))
  = (fst (fst (updateDocumentHashes (H := Reference.libs) fs0
                 (mk_row 1 h0 "diploma.pdf" (processed_path h0))
                 [mk_row 1 h0 "diploma.pdf" (processed_path h0)])),
     snd (fst (updateDocumentHashes (H := Reference.libs) fs0
                 (mk_row 1 h0 "diploma.pdf" (processed_path h0))
                 [mk_row 1 h0 "diploma.pdf" (processed_path h0)])),
     []).
Proof.
  apply (updateDocumentHashes_idempotent (H := Reference.libs) fs0
           (mk_row 1 h0 "diploma.pdf" (processed_path h0))
           [mk_row 1 h0 "diploma.pdf" (processed_path h0)]).
  apply reference_digest_truthy.
Defined.

(** The record of [h0], finalised and then looked up. *)
Lemma finalize_then_lookup_witness :
  exists b,
    lookup_route
      (fin_locals (finalize (H := Reference.libs) unregistered fs0 env0
                     (Some h0))) h0 = Lookup200 b
    /\ lk_verified b = Some true
    /\ lk_source b = "blockchain"
    /\ lk_warning b = None
    /\ (lk_blockchainTxHash <$> lk_metadata b) = Some (Some tx0)
    /\ (lk_blockNumber <$> lk_metadata b) = Some None.
Proof.
  apply (finalize_then_lookup (H := Reference.libs) unregistered fs0 env0
           (Some h0) h0 (Some tx0) (Some (watermarked_path h0 ".pdf"))).
  - reflexivity.
  - reflexivity.
  - vm_compute. reflexivity.
Defined.

(** The placeholder record, found by the name of the upload. *)
Lemma malformed_hash_never_verified_witness :
  run_response (upload_route (H := Reference.libs) pending fs_photo
                  (Some upload_request))
  = Http200 (not_verified_body row_pending).
Proof.
  refine (proj1 (proj2 (malformed_hash_never_verified (H := Reference.libs)
                          pending fs_photo upload_request photo no_metadata
                          row_pending _ _ _ _))).
  - reflexivity.
  - reflexivity.
  - reflexivity.
  - vm_compute. reflexivity.
Defined.

(** A fifth wrong guess for a registrar that exists. *)
Lemma locking_failure_reveals_user_witness :
  snd (Auth.admin_login String.eqb registrars0
         {[ Auth.getAttemptKey "admin" admin_ip := four_failures ]}
         (fst (request_at 5000 "guess 5")) admin_ip
         (PDFService.JString "admin") (PDFService.JString "guess 5"))
  = Auth.Login429 15.
Proof.
  refine (locking_failure_reveals_user String.eqb registrars0
            {[ Auth.getAttemptKey "admin" admin_ip := four_failures ]}
            (fst (request_at 5000 "guess 5")) admin_ip
            (PDFService.JString "admin") (PDFService.JString "guess 5")
            four_failures _ _ _ _ _ _ _).
  - reflexivity.
  - reflexivity.
  - reflexivity.
  - apply lookup_singleton_eq.
  - vm_compute. discriminate.
  - cbn. lia.
  - reflexivity.
Defined.

End Instances.
